(** * PhishGuard scoring core (background.js): model and verification

    A shallow embedding of the pure part of [src/background.js]: the hostname
    utilities, the Levenshtein matcher, the per-link heuristic and
    [analyzeProfileCore], followed by the properties of the specification
    that are stated about them.

    Conventions of the embedding.
    - JavaScript strings are [string]s of ASCII characters; [toLowerCase] and
      [trim] act on ASCII letters and ASCII white space.
    - JavaScript numbers are exact rationals ([Q]): every literal of the
      source is the decimal it is written as, sums and quotients are exact,
      and [toFixed(2)] rounds the exact value, halves upwards. The rounding
      of binary floating point is not modelled.
    - The payload is an object whose string fields hold strings, whose
      boolean fields are read for their truthiness and whose array fields
      hold an array, nothing, or a truthy value that is no array ([Loose]).
      A missing string field and the empty string are both falsy in every
      use the source makes of them ([a || b], [x ? .. : ..]), so the empty
      string stands for an absent one.
    - [new URL] is the platform's parser and is not part of the repository:
      it is an interface ([UrlApi]) the whole development is parametric in.
    - The module-level variable [TRUSTED_REGISTERED_DOMAINS] is read by
      [hostIsTrustedExact]; it is an explicit argument of every function
      that reads it.
    - An exception is a [Throw] completion; a [try] whose body cannot throw
      on the values of the model is written without its [catch]. *)

From Stdlib Require Import String Ascii List Bool Arith ZArith QArith Qround Lia Lqa.
From Stdlib Require Import DecimalString.
Import ListNotations.

Local Close Scope Q_scope.
Local Open Scope list_scope.
Local Open Scope string_scope.

(** ** Strings as the source uses them *)

Module Str.

(** The character written between two quotes in the reason templates. *)
Definition dquote : string := String (ascii_of_nat 34) EmptyString.

Definition isUpper (c : ascii) : bool :=
  let n := nat_of_ascii c in (65 <=? n)%nat && (n <=? 90)%nat.

Definition isLower (c : ascii) : bool :=
  let n := nat_of_ascii c in (97 <=? n)%nat && (n <=? 122)%nat.

Definition isDigit (c : ascii) : bool :=
  let n := nat_of_ascii c in (48 <=? n)%nat && (n <=? 57)%nat.

(** White space removed by [String.prototype.trim] (ASCII part): tab, line
    feed, vertical tab, form feed, carriage return and space. *)
Definition isSpace (c : ascii) : bool :=
  let n := nat_of_ascii c in ((9 <=? n)%nat && (n <=? 13)%nat) || (n =? 32)%nat.

Definition lowerChar (c : ascii) : ascii :=
  if isUpper c then ascii_of_nat (nat_of_ascii c + 32) else c.

Fixpoint toLowerCase (s : string) : string :=
  match s with
  | EmptyString => EmptyString
  | String c s' => String (lowerChar c) (toLowerCase s')
  end.

Definition isEmpty (s : string) : bool :=
  match s with EmptyString => true | _ => false end.

Definition startsWith (s pre : string) : bool := String.prefix pre s.

(** [s.includes(sub)] *)
Fixpoint includes (s sub : string) : bool :=
  String.prefix sub s ||
  match s with
  | EmptyString => false
  | String _ s' => includes s' sub
  end.

Fixpoint forallb (p : ascii -> bool) (s : string) : bool :=
  match s with
  | EmptyString => true
  | String c s' => p c && forallb p s'
  end.

(** [s.split(sep)] for a one-character separator: never the empty list. *)
Fixpoint split (sep : ascii) (s : string) : list string :=
  match s with
  | EmptyString => [EmptyString]
  | String c s' =>
      if Ascii.eqb c sep then EmptyString :: split sep s'
      else match split sep s' with
           | [] => [String c EmptyString]
           | h :: t => String c h :: t
           end
  end.

(** [parts.join(sep)] *)
Definition join (sep : string) (parts : list string) : string :=
  String.concat sep parts.

(** [xs.slice(-k)] *)
Definition sliceLast {A : Type} (k : nat) (xs : list A) : list A :=
  skipn (List.length xs - k) xs.

(** [s.slice(0, k)] *)
Definition sliceTo (k : nat) (s : string) : string := String.substring 0 k s.

Fixpoint dropWhile (p : ascii -> bool) (s : string) : string :=
  match s with
  | EmptyString => EmptyString
  | String c s' => if p c then dropWhile p s' else s
  end.

Fixpoint rev_aux (s acc : string) : string :=
  match s with
  | EmptyString => acc
  | String c s' => rev_aux s' (String c acc)
  end.

Definition rev (s : string) : string := rev_aux s EmptyString.

(** [s.trim()] *)
Definition trim (s : string) : string :=
  rev (dropWhile isSpace (rev (dropWhile isSpace s))).

(** [s.replace(/^@/, '')] *)
Definition stripAt (s : string) : string :=
  match s with
  | String c s' => if Ascii.eqb c "@"%char then s' else s
  | EmptyString => EmptyString
  end.

(** [s.replace(/^www\./, '')] *)
Definition stripWww (s : string) : string :=
  if startsWith s "www." then String.substring 4 (String.length s - 4) s else s.

Definition ofNat (n : nat) : string := NilZero.string_of_uint (Nat.to_uint n).

End Str.

(** ** Numbers *)

Module Num.

Local Open Scope Q_scope.

(** [x <= y] and [x < y] as the source's comparisons compute them. *)
Definition leb (x y : Q) : bool := Qle_bool x y.
Definition ltb (x y : Q) : bool := negb (Qle_bool y x).

(** [Math.max] and [Math.min] on two numbers. *)
Definition max (x y : Q) : Q := if leb x y then y else x.
Definition min (x y : Q) : Q := if leb x y then x else y.

(** The integer nearest to [a / b] for [0 < b], the even one on a tie. *)
Definition roundHalfEven (a b : Z) : Z :=
  let q := (a / b)%Z in
  match (2 * (a mod b) ?= b)%Z with
  | Lt => q
  | Gt => (q + 1)%Z
  | Eq => if Z.even q then q else (q + 1)%Z
  end.

(** The double nearest to [x], for [0 <= x] below 2^1024: a mantissa of 53
    bits times a power of two not below 2^-1074, the even mantissa on a tie.
    It is the value the code holds for a quotient [n / m] of two integers. *)
Definition roundDouble (x : Q) : Q :=
  let n := Qnum x in
  let d := Zpos (Qden x) in
  if (n <=? 0)%Z then 0
  else
    let scaled (e : Z) : Z * Z :=
      if (0 <=? e)%Z then (n, d * 2 ^ e)%Z else (n * 2 ^ (- e), d)%Z in
    let e0 := (Z.log2 n - Z.log2 d - 52)%Z in
    let e1 :=
      let '(a, b) := scaled e0 in
      if (a <? b * 2 ^ 52)%Z then (e0 - 1)%Z else e0 in
    let e := Z.max e1 (-1074) in
    let '(a, b) := scaled e in
    let m := roundHalfEven a b in
    if (0 <=? e)%Z then inject_Z (m * 2 ^ e) else m # Z.to_pos (2 ^ (- e)).

(** [x.toFixed(2)] for the quotient [x] of two integers, [0 <= x]: the
    quotient is held as a double, and the digits are those of the integer
    [n] nearest to 100 times that double, the larger one on a tie, printed
    with two decimals. *)
Definition toFixed2 (x : Q) : string :=
  let n := Z.to_nat (Qfloor (roundDouble x * 100 + (1 # 2))) in
  let frac := (n mod 100)%nat in
  Str.ofNat (n / 100) ++ "." ++
  (if (frac <? 10)%nat then "0" else EmptyString) ++ Str.ofNat frac.

End Num.

(** ** Utilities *)

(** The value of [new URL(..)] as far as the source reads it. *)
Module Url.
Record t := make { hostname : string; pathname : string }.
End Url.

(** [new URL(input)] and [new URL(input, base)]: [None] when the constructor
    throws [TypeError]. *)
Class UrlApi := { new_URL : string -> option string -> option Url.t }.

Definition hasHttpScheme (s : string) : bool :=
  let l := Str.toLowerCase s in
  Str.startsWith l "http://" || Str.startsWith l "https://".

Definition isHostChar (c : ascii) : bool :=
  Str.isLower c || Str.isUpper c || Str.isDigit c
  || Ascii.eqb c "."%char || Ascii.eqb c "-"%char.

(** [/^[a-z0-9.-]+$/i.test(s)] *)
Definition isBareHost (s : string) : bool :=
  negb (Str.isEmpty s) && Str.forallb isHostChar s.

Section Utilities.

Context {url_api : UrlApi}.

Definition safeGetHostname (urlOrHost : string) : string :=
  if Str.isEmpty urlOrHost then EmptyString
  else if negb (hasHttpScheme urlOrHost) then
    if isBareHost urlOrHost then Str.toLowerCase urlOrHost
    else
      let urlOrHost' := "https://" ++ urlOrHost in
      match new_URL urlOrHost' None with
      | Some u => Str.toLowerCase (Url.hostname u)
      | None => Str.toLowerCase urlOrHost'
      end
  else
    match new_URL urlOrHost None with
    | Some u => Str.toLowerCase (Url.hostname u)
    | None => Str.toLowerCase urlOrHost
    end.

End Utilities.

Definition getLabels (hostname : string) : list string :=
  filter (fun l => negb (Str.isEmpty l)) (Str.split "."%char hostname).

Definition getRegisteredDomain (hostname : string) : string :=
  let parts := getLabels hostname in
  if (2 <=? List.length parts)%nat then Str.join "." (Str.sliceLast 2 parts)
  else hostname.

Definition getSecondLevelLabel (hostname : string) : string :=
  let parts := getLabels hostname in
  match parts with
  | [] => EmptyString
  | p0 :: _ =>
      if (2 <=? List.length parts)%nat
      then Str.toLowerCase (nth (List.length parts - 2) parts EmptyString)
      else Str.toLowerCase p0
  end.

(** One group [\d{1,3}] of the dotted-quad pattern. *)
Definition isDigits13 (s : string) : bool :=
  (1 <=? String.length s)%nat && (String.length s <=? 3)%nat
  && Str.forallb Str.isDigit s.

(** [/^\d{1,3}(\.\d{1,3}){3}$/.test(hostname)]: four groups of one to three
    digits separated by three dots. *)
Definition isIpAddress (hostname : string) : bool :=
  let groups := Str.split "."%char hostname in
  (List.length groups =? 4)%nat && List.forallb isDigits13 groups.

Definition isPunycode (hostname : string) : bool := Str.includes hostname "xn--".

Definition getTld (hostname : string) : string :=
  Str.toLowerCase (last (Str.split "."%char hostname) EmptyString).

Definition normalizeText (s : string) : string := Str.toLowerCase (Str.trim s).

(** ** Levenshtein distance (iterative, two rows) *)

(** The inner loop over [j]: [v0] is the previous row from index [j] on,
    [left] is [v1[j]]; the result is [v1[j+1 ..]]. *)
Fixpoint levRow (ai : ascii) (b : string) (v0 : list nat) (left : nat) : list nat :=
  match b, v0 with
  | String bj b', diag :: ((up :: _) as v0') =>
      let cost := if Ascii.eqb ai bj then 0 else 1 in
      let x := Nat.min (Nat.min (left + 1) (up + 1)) (diag + cost) in
      x :: levRow ai b' v0' x
  | _, _ => []
  end.

(** The outer loop over [i]: [v0] is the row of the previous character. *)
Fixpoint levLoop (a b : string) (i : nat) (v0 : list nat) : list nat :=
  match a with
  | EmptyString => v0
  | String ai a' => levLoop a' b (S i) (S i :: levRow ai b v0 (S i))
  end.

Definition levenshtein (a b : string) : nat :=
  if String.eqb a b then 0
  else if (String.length a =? 0)%nat then String.length b
  else if (String.length b =? 0)%nat then String.length a
  else last (levLoop a b 0 (seq 0 (String.length b + 1))) 0.

Definition normalizedDistance (a b : string) : Q :=
  let maxLen := Nat.max (Nat.max (String.length a) (String.length b)) 1 in
  Z.of_nat (levenshtein a b) # Pos.of_nat maxLen.

(** ** Heuristics *)

Definition RISKY_TLDS : list string :=
  ["xyz"; "top"; "club"; "pw"; "icu"; "work"; "gq"; "cf"; "tk"; "ml"; "ga";
   "biz"; "click"; "win"; "loan"; "party"].

(** [set.has(x)] on a [Set] of strings, kept as the list of its elements in
    insertion order (the order [for .. of] visits them in). *)
Definition setHas (set : list string) (x : string) : bool :=
  existsb (String.eqb x) set.

Definition hostIsTrustedExact (TRUSTED_REGISTERED_DOMAINS : list string)
    (hostname : string) : bool :=
  if Str.isEmpty hostname then false
  else setHas TRUSTED_REGISTERED_DOMAINS
         (Str.toLowerCase (getRegisteredDomain hostname)).

(** [reasons.push(r)] *)
Definition push (reasons : list string) (r : string) : list string :=
  (reasons ++ [r])%list.

(** ** Link analysis *)

Definition suspiciousPathPatterns : list string :=
  ["verify"; "confirm"; "signin"; "login"; "account"; "secure"; "billing";
   "payment"].

Definition brandTokens : list string :=
  ["secure"; "login"; "paypal"; "bank"; "apple"; "google"; "microsoft"].

Section LinkAnalysis.

Context {url_api : UrlApi}.

(** The number returned, with [reasons] after the call. *)
Definition linkIsSuspicious (linkUrl pageHostnameNormalized : string)
    (reasons : list string) : Q * list string :=
  let base :=
    "https://" ++ (if Str.isEmpty pageHostnameNormalized then "example.com"
                   else pageHostnameNormalized) in
  match new_URL linkUrl (Some base) with
  | None => (0.05%Q, push reasons ("Malformed/relative link flagged: " ++ linkUrl))
  | Some url =>
      let host := Str.toLowerCase (Url.hostname url) in
      let path := Str.toLowerCase (Url.pathname url) in
      if Str.isEmpty host then
        (0.02%Q, push reasons ("Empty host for link: " ++ linkUrl))
      else if isIpAddress host then
        (0.20%Q, push reasons ("Link uses raw IP address (" ++ host ++ ")"))
      else if isPunycode host then
        (0.18%Q, push reasons ("Link contains punycode domain (" ++ host ++ ")"))
      else
        let tld := getTld host in
        if setHas RISKY_TLDS tld then
          (0.12%Q, push reasons ("Link uses uncommon TLD ." ++ tld ++ " (" ++ host ++ ")"))
        else
          match find (fun p => Str.includes path p) suspiciousPathPatterns with
          | Some p =>
              (0.10%Q, push reasons ("Link path contains suspicious token "
                                     ++ Str.dquote ++ p ++ Str.dquote
                                     ++ " (" ++ Url.pathname url ++ ")"))
          | None =>
              match
                (if String.eqb host pageHostnameNormalized then None
                 else find (fun t => Str.includes host t) brandTokens)
              with
              | Some t =>
                  (0.14%Q, push reasons ("External link appears to impersonate brand token "
                                         ++ Str.dquote ++ t ++ Str.dquote
                                         ++ " (" ++ host ++ ")"))
              | None => (0%Q, reasons)
              end
          end
  end.

End LinkAnalysis.

(** ** The payload *)

(** A payload field that is meant to hold an array. *)
Inductive Loose (A : Type) : Type :=
| Absent               (* undefined, null, false, 0 or the empty string *)
| IsArray (xs : list A)
| Scalar.              (* a truthy value that is no array and cannot be
                          iterated: true, a non-zero number *)
Arguments Absent {A}.
Arguments IsArray {A} xs.
Arguments Scalar {A}.

Module Form.
Record t := make {
  action : string;
  method : string;
  inputCount : Z;
  hasPassword : bool
}.
End Form.

Module Data.
Record t := make {
  username : string; handle : string; user : string;
  displayName : string; fullName : string; title : string;
  url : string; pageUrl : string; origin : string;
  hostname : string;
  links : Loose string; linkList : Loose string;
  (* an entry of the forms array that is null or undefined is None *)
  forms : Loose (option Form.t); formList : Loose (option Form.t);
  textSample : string;
  ogUrl : string; canonical : string;
  isVerified : bool; isBrand : bool
}.

(** The object literal [{}]: every field absent. *)
Definition empty : t :=
  make EmptyString EmptyString EmptyString EmptyString EmptyString EmptyString
       EmptyString EmptyString EmptyString EmptyString
       Absent Absent Absent Absent EmptyString EmptyString EmptyString
       false false.
End Data.

(** The first argument of [analyzeProfileCore]. *)
Inductive Arg : Type :=
| ArgUndefined
| ArgNull
| ArgObject (data : Data.t).

Module Details.
Record t := make {
  username : string;
  displayName : string;
  isVerified : bool;
  isBrand : bool;
  pageHostname : string;
  url : string;
  linksCount : option nat;   (* None: undefined *)
  formsCount : option nat
}.
End Details.

Record AssessmentResult := mkResult {
  suspicious : bool;
  score : Q;
  reasons : list string;
  details : Details.t
}.

(** The three locals the checks update, in the order they are declared. *)
Module St.
Record t := make { reasons : list string; score : Q; suspicious : bool }.
End St.

(** ** Completions *)

Inductive JsError : Type := TypeError.

Inductive Completion (A : Type) : Type :=
| Normal (a : A)
| Throw (e : JsError).
Arguments Normal {A} a.
Arguments Throw {A} e.

Definition bind {A B : Type} (c : Completion A) (k : A -> Completion B)
    : Completion B :=
  match c with
  | Normal a => k a
  | Throw e => Throw e
  end.

Notation "x <- c ;; k" := (bind c (fun x => k))
  (at level 61, c at next level, right associativity).

(** ** Main analysis function *)

Definition TYPOSQUAT_DISTANCE_THRESHOLD : Q := 0.30.
Definition TYPOSQUAT_SCORE_BUMP : Q := 0.75.

Definition BRAND_KEYWORDS : list (string * list string) :=
  [("facebook", ["faceb"; "fbk"; "fb"; "facebok"; "faceboek"; "faceboook"]);
   ("tiktok", ["tiktok"; "ttk"; "tik-tok"])].

Definition redFlags : list string :=
  ["your account will be locked"; "verify your account"; "click here to verify";
   "confirm your identity"; "payment required"; "suspend";
   "urgent action required"].

(** The five patterns of [weakPatterns]; each is matched anywhere in the
    reason, letters in either case. *)
Definition weakPatterns : list string :=
  ["hyphen"; "subdomain"; "depth"; "no similarity to trusted domains detected";
   "multiple capitalized tokens"].

(** [a || b] on strings. *)
Definition orElse (a b : string) : string := if Str.isEmpty a then b else a.

(** [Array.isArray(primary) ? primary : (fallback || [])] *)
Definition arrayOr {A : Type} (primary fallback : Loose A) : Loose A :=
  match primary with
  | IsArray xs => IsArray xs
  | _ => match fallback with
         | Absent => IsArray []
         | v => v
         end
  end.

(** [xs.length]: a number on an array, undefined on a boolean or a number. *)
Definition lengthOf {A : Type} (xs : Loose A) : option nat :=
  match xs with
  | IsArray l => Some (List.length l)
  | _ => None
  end.

(** The record [best] of the two searches over the trusted set. *)
Module Best.
Record t := make { domain : option string; dist : Q; sld : option string }.

(** [best.domain] as a condition: a non-empty string. *)
Definition found (b : t) : bool :=
  match domain b with
  | Some td => negb (Str.isEmpty td)
  | None => false
  end.

(** A field of [best] inside a template literal. *)
Definition show (o : option string) : string :=
  match o with Some s => s | None => "null" end.
End Best.

Definition bestBySld (TRUSTED : list string) (currentSld : string) : Best.t :=
  fold_left
    (fun best td =>
       let tdSld := getSecondLevelLabel td in
       let d := normalizedDistance currentSld tdSld in
       if Num.ltb d (Best.dist best) then Best.make (Some td) d (Some tdSld)
       else best)
    TRUSTED (Best.make None 1.0%Q None).

Definition bestByDomain (TRUSTED : list string) (currentReg : string) : Best.t :=
  fold_left
    (fun bestFull td =>
       let d := normalizedDistance currentReg td in
       if Num.ltb d (Best.dist bestFull) then Best.make (Some td) d None
       else bestFull)
    TRUSTED (Best.make None 1.0%Q None).

(** The two nested loops over [BRAND_KEYWORDS]; [TRUSTED.has(currentReg)] is
    false where they run. *)
Definition brandKeywordCheck (currentSld : string) (st : St.t) : St.t :=
  fold_left
    (fun st bk =>
       let '(brand, keywords) := bk in
       fold_left
         (fun st kw =>
            if negb (Str.isEmpty currentSld) && Str.includes currentSld kw then
              St.make
                (push (St.reasons st)
                   ("Domain SLD " ++ Str.dquote ++ currentSld ++ Str.dquote
                    ++ " contains brand-like token " ++ Str.dquote ++ kw
                    ++ Str.dquote ++ " (looks like " ++ brand ++ ")"))
                (Num.max (St.score st) 0.65%Q) true
            else st)
         keywords st)
    BRAND_KEYWORDS st.

(** Typosquat detection (SLD-first). Nothing inside the [try] can throw on
    strings, so its [catch] is never entered. *)
Definition typosquatCheck (TRUSTED : list string) (pageHostname : string)
    (st : St.t) : St.t :=
  let currentReg := Str.toLowerCase (getRegisteredDomain pageHostname) in
  let currentSld := getSecondLevelLabel pageHostname in
  if negb (setHas TRUSTED currentReg) then
    let best := bestBySld TRUSTED currentSld in
    let st1 :=
      if Best.found best && Num.leb (Best.dist best) TYPOSQUAT_DISTANCE_THRESHOLD then
        St.make
          (push (St.reasons st)
             ("Domain SLD " ++ Str.dquote ++ currentSld ++ Str.dquote
              ++ " closely resembles trusted SLD " ++ Str.dquote
              ++ Best.show (Best.sld best) ++ Str.dquote
              ++ " (distance " ++ Num.toFixed2 (Best.dist best)
              ++ "). Treated as typosquat (" ++ currentReg ++ " ~ "
              ++ Best.show (Best.domain best) ++ ")."))
          (Num.max (St.score st) TYPOSQUAT_SCORE_BUMP) true
      else
        let bestFull := bestByDomain TRUSTED currentReg in
        if Best.found bestFull
           && Num.leb (Best.dist bestFull) TYPOSQUAT_DISTANCE_THRESHOLD then
          St.make
            (push (St.reasons st)
               ("Registered domain " ++ Str.dquote ++ currentReg ++ Str.dquote
                ++ " somewhat resembles trusted domain " ++ Str.dquote
                ++ Best.show (Best.domain bestFull) ++ Str.dquote
                ++ " (distance " ++ Num.toFixed2 (Best.dist bestFull) ++ ")."))
            (Num.max (St.score st) TYPOSQUAT_SCORE_BUMP) true
        else
          St.make (push (St.reasons st) "No similarity to trusted domains detected")
            (St.score st) (St.suspicious st) in
    brandKeywordCheck currentSld st1
  else
    St.make (push (St.reasons st) "Exact registered domain is trusted")
      (St.score st) (St.suspicious st).

(** [/^https:/i.test(url)] *)
Definition isHttps (url : string) : bool :=
  Str.startsWith (Str.toLowerCase url) "https:".

Definition httpsCheck (trustedExact : bool) (url : string) (st : St.t) : St.t :=
  if negb (isHttps url) then
    let score := (St.score st + 0.20)%Q in
    St.make (push (St.reasons st) "Page not served over HTTPS")
      (if trustedExact && negb (St.suspicious st) then Num.min score 0.05%Q
       else score)
      (St.suspicious st)
  else st.

(** [pageHostname.split('.').slice(-2).join('.')] *)
Definition lastTwoSegments (pageHostname : string) : string :=
  Str.join "." (Str.sliceLast 2 (Str.split "."%char pageHostname)).

Definition isWeakReason (reason : string) : bool :=
  existsb (fun rx => Str.includes (Str.toLowerCase reason) rx) weakPatterns.

(** Final trustedExact handling. *)
Definition trustDampening (trustedExact : bool) (st : St.t) : St.t :=
  if trustedExact && negb (St.suspicious st) then
    St.make (filter (fun r => negb (isWeakReason r)) (St.reasons st))
      (Num.min (St.score st) 0.05%Q) (St.suspicious st)
  else st.

(** The clamp of the score and the last assignment to [suspicious]. *)
Definition finalDecision (st : St.t) : St.t :=
  let score := Num.max 0%Q (Num.min 1%Q (St.score st)) in
  St.make (St.reasons st) score (St.suspicious st || Num.leb 0.55%Q score).

Definition hostnameChecks (pageHostname : string) (st : St.t) : St.t :=
  let st :=
    if isPunycode pageHostname then
      St.make (push (St.reasons st) "Page hostname uses punycode")
        (St.score st + 0.40)%Q true
    else st in
  if isIpAddress pageHostname then
    St.make (push (St.reasons st) "Page served from IP address")
      (St.score st + 0.40)%Q true
  else st.

Definition textCheck (trustedExact : bool) (textSample : string) (st : St.t)
    : St.t :=
  if negb (Str.isEmpty textSample) then
    let lower := Str.toLowerCase textSample in
    fold_left
      (fun st f =>
         if Str.includes lower f then
           St.make
             (push (St.reasons st)
                ("Suspicious page text matched: " ++ Str.dquote ++ f ++ Str.dquote))
             (St.score st + (if trustedExact then 0.20 else 0.08))%Q true
         else st)
      redFlags st
  else st.

(** [reasons], [score] and [suspicious] as they are declared. *)
Definition initialLocals (trustedExact : bool) : St.t :=
  St.make [] (if trustedExact then 0.02%Q else 0.25%Q) false.

Section Analysis.

Context {url_api : UrlApi}.

(** One iteration of the loop over [forms]. A null or undefined entry
    makes [f.hasPassword] throw inside the [try]; the [catch] records it. *)
Definition formCheck (trustedExact : bool) (pageHostname : string)
    (st : St.t) (f : option Form.t) : St.t :=
  match f with
  | None =>
      St.make (push (St.reasons st) "Malformed form action detected")
        (St.score st + 0.04)%Q (St.suspicious st)
  | Some f =>
      if Form.hasPassword f && negb (Str.isEmpty (Form.action f)) then
        let actionHost := safeGetHostname (Form.action f) in
        if negb (Str.isEmpty actionHost)
           && negb (String.eqb actionHost pageHostname)
           && negb (Str.includes actionHost (lastTwoSegments pageHostname))
        then
          St.make
            (push (St.reasons st)
               ("Login form posts to external host (" ++ actionHost ++ ")"))
            (St.score st + 0.40)%Q true
        else st
      else if (0 <? Form.inputCount f)%Z && negb (Form.hasPassword f)
              && negb (Str.isEmpty (Form.action f)) then
        St.make
          (push (St.reasons st)
             "Form with inputs but no password field (possible data harvesting)")
          (St.score st + (if trustedExact then 0.02 else 0.06))%Q
          (St.suspicious st)
      else st
  end.

(** [for (const f of forms)]: a value that cannot be iterated throws. *)
Definition formsCheck (trustedExact : bool) (pageHostname : string)
    (forms : Loose (option Form.t)) (st : St.t) : Completion St.t :=
  match forms with
  | IsArray fs => Normal (fold_left (formCheck trustedExact pageHostname) fs st)
  | _ => Throw TypeError
  end.

(** The loop over [links.slice(0, 40)]: the pair of [linkRiskSum] and
    [reasons]. *)
Definition linkLoop (pageHostname : string) (links : list string)
    (reasons : list string) : Q * list string :=
  fold_left
    (fun acc L =>
       let '(linkRiskSum, reasons) := acc in
       let '(linkScore, reasons) := linkIsSuspicious L pageHostname reasons in
       ((linkRiskSum + linkScore)%Q, reasons))
    (firstn 40 links) (0%Q, reasons).

Definition linksCheck (trustedExact : bool) (pageHostname : string)
    (links : Loose string) (st : St.t) : St.t :=
  match links with
  | IsArray ((_ :: _) as ls) =>
      let maxLinkContribution := if trustedExact then 0.15%Q else 0.40%Q in
      let '(linkRiskSum, reasons) := linkLoop pageHostname ls (St.reasons st) in
      let linkContribution :=
        Num.min maxLinkContribution
          (linkRiskSum / inject_Z (Z.of_nat (Nat.max 1 (List.length ls))))%Q in
      St.make reasons (St.score st + linkContribution)%Q
        (if Num.leb 0.3%Q linkContribution then true else St.suspicious st)
  | _ => st
  end.

(** Canonical/OG mismatch. Nothing inside the [try] throws on strings. *)
Definition canonicalCheck (trustedExact : bool) (pageHostname : string)
    (ogUrl canonical : string) (st : St.t) : St.t :=
  if negb (Str.isEmpty (orElse ogUrl canonical)) then
    let canonical := orElse ogUrl canonical in
    let canonicalHost := safeGetHostname canonical in
    if negb (Str.isEmpty canonicalHost) && negb (Str.isEmpty pageHostname) then
      let norm :=
        normalizedDistance (Str.stripWww canonicalHost) (Str.stripWww pageHostname) in
      if Num.ltb 0.35%Q norm then
        St.make
          (push (St.reasons st)
             ("Canonical/OG domain mismatch (normalized distance "
              ++ Num.toFixed2 norm ++ ")"))
          (St.score st + (if trustedExact then 0.20 else 0.12))%Q true
      else if negb trustedExact then
        St.make (push (St.reasons st) "Canonical/OG domain matches page")
          (St.score st) (St.suspicious st)
      else st
    else st
  else st.

(** [data = {}] for an argument that is undefined; reading a property of
    null throws. *)
Definition readData (data : Arg) : Completion Data.t :=
  match data with
  | ArgUndefined => Normal Data.empty
  | ArgNull => Throw TypeError
  | ArgObject d => Normal d
  end.

Definition pageHostnameOf (data : Data.t) : string :=
  let url := orElse (Data.url data) (orElse (Data.pageUrl data) (Data.origin data)) in
  orElse (safeGetHostname url)
    (if negb (Str.isEmpty (Data.hostname data))
     then safeGetHostname (Data.hostname data) else EmptyString).

(** The locals after the canonical check, before the final trustedExact
    handling. The loop over the forms is the one place that can throw. *)
Definition checks (TRUSTED_REGISTERED_DOMAINS : list string) (data : Data.t)
    (trustedSet : option (list string)) : Completion St.t :=
  let TRUSTED :=
    match trustedSet with
    | Some set => set
    | None => TRUSTED_REGISTERED_DOMAINS
    end in
  let url := orElse (Data.url data) (orElse (Data.pageUrl data) (Data.origin data)) in
  let pageHostname := pageHostnameOf data in
  let links := arrayOr (Data.links data) (Data.linkList data) in
  let forms := arrayOr (Data.forms data) (Data.formList data) in
  let textSample := Str.sliceTo 4000 (Data.textSample data) in
  let trustedExact := hostIsTrustedExact TRUSTED_REGISTERED_DOMAINS pageHostname in
  let st := initialLocals trustedExact in
  let st := typosquatCheck TRUSTED pageHostname st in
  let st := httpsCheck trustedExact url st in
  st <- formsCheck trustedExact pageHostname forms st ;;
  let st := linksCheck trustedExact pageHostname links st in
  let st := textCheck trustedExact textSample st in
  let st := hostnameChecks pageHostname st in
  Normal (canonicalCheck trustedExact pageHostname (Data.ogUrl data)
            (Data.canonical data) st).

Definition detailsOf (data : Data.t) : Details.t :=
  let usernameRaw :=
    orElse (Data.username data) (orElse (Data.handle data) (Data.user data)) in
  Details.make
    (Str.stripAt (normalizeText usernameRaw))
    (normalizeText
       (orElse (Data.displayName data)
          (orElse (Data.fullName data) (Data.title data))))
    (Data.isVerified data)
    (Data.isBrand data)
    (pageHostnameOf data)
    (orElse (Data.url data) (orElse (Data.pageUrl data) (Data.origin data)))
    (lengthOf (arrayOr (Data.links data) (Data.linkList data)))
    (lengthOf (arrayOr (Data.forms data) (Data.formList data))).

Definition analyzeProfileCore (TRUSTED_REGISTERED_DOMAINS : list string)
    (data : Arg) (trustedSet : option (list string))
    : Completion AssessmentResult :=
  data <- readData data ;;
  st <- checks TRUSTED_REGISTERED_DOMAINS data trustedSet ;;
  let trustedExact :=
    hostIsTrustedExact TRUSTED_REGISTERED_DOMAINS (pageHostnameOf data) in
  let st := finalDecision (trustDampening trustedExact st) in
  Normal (mkResult (St.suspicious st) (St.score st) (St.reasons st)
            (detailsOf data)).

(** The call the message listener makes for an [analyzeProfile] message:
    the module-level set is replaced by a copy of the loaded set, which is
    also the second argument. *)
Definition assess (data : Data.t) (trustedDomains : list string)
    : Completion AssessmentResult :=
  analyzeProfileCore trustedDomains (ArgObject data) (Some trustedDomains).

End Analysis.

(** ** A reference instance of the URL interface

    Used for the worked examples only; every general statement below is
    proved for an arbitrary [UrlApi]. [RefUrl.parse] covers the inputs
    [http(s)://host/path?query#fragment] whose host is made of non-empty
    labels of letters, digits and hyphens without a punycode marker (a host
    whose last label starts with a digit has to be a dotted quad of decimal
    numbers up to 255 without leading zeros) and
    whose path is made of letters, digits, [/], [-], [_] and [.] with no
    segment starting with a dot, and the same path written alone (starting
    with one [/]) against a base. On these the platform parser gives the
    same host (in lower case) and the same path. Every other input is
    answered [None]; of these the examples use two, whose host contains a
    space, and the platform parser rejects them as well. *)

Module RefUrl.

Fixpoint takeUntil (stop : ascii -> bool) (s : string) : string * string :=
  match s with
  | EmptyString => (EmptyString, EmptyString)
  | String c s' =>
      if stop c then (EmptyString, s)
      else let '(a, b) := takeUntil stop s' in (String c a, b)
  end.

Definition isOneOf (cs : string) (c : ascii) : bool :=
  Str.includes cs (String c EmptyString).

Definition isLabelChar (c : ascii) : bool :=
  Str.isLower c || Str.isUpper c || Str.isDigit c || Ascii.eqb c "-"%char.

Definition isPathChar (c : ascii) : bool :=
  isLabelChar c || isOneOf "/_." c.

Definition octetOk (s : string) : bool :=
  isDigits13 s
  && ((String.length s =? 1)%nat || negb (Str.startsWith s "0"))
  && (fold_left (fun n d => 10 * n + (nat_of_ascii d - 48))
        (list_ascii_of_string s) 0 <=? 255)%nat.

Definition startsWithDigit (s : string) : bool :=
  match s with
  | String c _ => Str.isDigit c
  | EmptyString => false
  end.

Definition validHost (h : string) : bool :=
  let labels := Str.split "."%char h in
  List.forallb (fun l => negb (Str.isEmpty l) && Str.forallb isLabelChar l) labels
  && negb (isPunycode (Str.toLowerCase h))
  && (if startsWithDigit (last labels EmptyString)
      then (List.length labels =? 4)%nat && List.forallb octetOk labels
      else true).

Definition validPath (p : string) : bool :=
  Str.forallb isPathChar p && negb (Str.includes p "/.").

Definition dropScheme (s : string) : option string :=
  let l := Str.toLowerCase s in
  if Str.startsWith l "https://" then Some (String.substring 8 (String.length s - 8) s)
  else if Str.startsWith l "http://" then Some (String.substring 7 (String.length s - 7) s)
  else None.

Definition pathOf (tail : string) : option string :=
  let '(p, _) := takeUntil (isOneOf "?#") tail in
  if validPath p then Some (if Str.isEmpty p then "/" else p) else None.

Definition absolute (s : string) : option Url.t :=
  match dropScheme s with
  | None => None
  | Some rest =>
      let '(host, tail) := takeUntil (isOneOf "/?#") rest in
      if validHost host then
        match pathOf tail with
        | Some p => Some (Url.make (Str.toLowerCase host) p)
        | None => None
        end
      else None
  end.

Definition parse (input : string) (base : option string) : option Url.t :=
  match absolute input, base with
  | Some u, _ => Some u
  | None, Some b =>
      match absolute b with
      | Some ub =>
          if Str.startsWith input "/" && negb (Str.startsWith input "//")
             && negb (Str.includes input ":") then
            match pathOf input with
            | Some p => Some (Url.make (Url.hostname ub) p)
            | None => None
            end
          else None
      | None => None
      end
  | None, None => None
  end.

End RefUrl.

Definition refUrlApi : UrlApi := {| new_URL := RefUrl.parse |}.

(** ** Payloads of the worked examples *)

(** [{ hostname: h }] *)
Definition dataOfHostname (h : string) : Data.t :=
  Data.make EmptyString EmptyString EmptyString EmptyString EmptyString EmptyString
    EmptyString EmptyString EmptyString h
    Absent Absent Absent Absent EmptyString EmptyString EmptyString false false.

Definition defaultTrusted : list string := ["facebook.com"; "tiktok.com"].

(** ** Order on the running locals

    [extends st st']: from [st] to [st'] the score has not decreased, a
    raised flag is still raised, and the reasons have only been appended to. *)

Definition extends (st st' : St.t) : Prop :=
  (St.score st <= St.score st')%Q
  /\ (St.suspicious st = true -> St.suspicious st' = true)
  /\ exists more, St.reasons st' = (St.reasons st ++ more)%list.

(** ** Link aggregation as the specification words it *)

Section LinkAggregationSpec.

Context {url_api : UrlApi}.

(** The risk value of one link and the reasons its assessment appends. *)
Definition linkRisk (pageHostname L : string) : Q :=
  fst (linkIsSuspicious L pageHostname []).

Definition linkReasons (pageHostname L : string) : list string :=
  snd (linkIsSuspicious L pageHostname []).

Definition sumQ (xs : list Q) : Q := fold_right Qplus 0%Q xs.

(** The first 40 links are assessed, their risk values summed, the sum
    divided by the number of links supplied, and the quotient clamped to the
    ceiling. *)
Definition linkContributionSpec (trustedExact : bool) (pageHostname : string)
    (links : list string) : Q :=
  let assessed := firstn 40 links in
  let mean :=
    (sumQ (map (linkRisk pageHostname) assessed)
     / inject_Z (Z.of_nat (List.length links)))%Q in
  let ceiling := if trustedExact then 0.15%Q else 0.40%Q in
  if Qle_bool ceiling mean then ceiling else mean.

End LinkAggregationSpec.

(** The reason the typosquat check gives for faceboook.com against
    facebook.com. *)
Definition faceboookReason : string :=
  "Domain SLD " ++ Str.dquote ++ "faceboook" ++ Str.dquote
  ++ " closely resembles trusted SLD " ++ Str.dquote ++ "facebook" ++ Str.dquote
  ++ " (distance 0.11). Treated as typosquat (faceboook.com ~ facebook.com).".

(** ** Payloads that differ in their links only *)

(** [{ ...data, links }] *)
Definition withLinks (data : Data.t) (links : Loose string) : Data.t :=
  Data.make (Data.username data) (Data.handle data) (Data.user data)
    (Data.displayName data) (Data.fullName data) (Data.title data)
    (Data.url data) (Data.pageUrl data) (Data.origin data) (Data.hostname data)
    links (Data.linkList data) (Data.forms data) (Data.formList data)
    (Data.textSample data) (Data.ogUrl data) (Data.canonical data)
    (Data.isVerified data) (Data.isBrand data).

(** [{ url }] *)
Definition dataOfUrl (url : string) : Data.t :=
  Data.make EmptyString EmptyString EmptyString EmptyString EmptyString EmptyString
    url EmptyString EmptyString EmptyString
    Absent Absent Absent Absent EmptyString EmptyString EmptyString false false.

(** Forty links without risk followed by five raw IP addresses. *)
Definition links45 : list string :=
  (repeat "https://example.org/about" 40 ++ repeat "http://10.0.0.1/" 5)%list.

(** Forty links to a login path (0.10 each) followed by five raw IP
    addresses (0.20 each). *)
Definition links45Login : list string :=
  (repeat "https://example.org/login" 40 ++ repeat "http://10.0.0.1/" 5)%list.

(** Two states that differ at most in their score; with [withScore] set,
    not in their score either. *)
Definition agree (withScore : bool) (st st' : St.t) : Prop :=
  St.reasons st = St.reasons st'
  /\ St.suspicious st = St.suspicious st'
  /\ (withScore = true -> (St.score st == St.score st')%Q).

(** ** The fallback of [safeGetHostname] *)

(** The text [safeGetHostname] gives to [new URL]: the input when it starts
    with http:// or https://, the input after https:// otherwise. *)
Definition parsedText (urlOrHost : string) : string :=
  if hasHttpScheme urlOrHost then urlOrHost else "https://" ++ urlOrHost.

(** The part of [s] before its first [c]. *)
Fixpoint upTo (c : ascii) (s : string) : string :=
  match s with
  | EmptyString => EmptyString
  | String a s' => if Ascii.eqb a c then EmptyString else String a (upTo c s')
  end.

(** The fallback as the specification words it: the lowercased input up to
    its first slash. *)
Definition lowerUpToSlash (input : string) : string :=
  Str.toLowerCase (upTo "/"%char input).

(** ** Forms of the worked examples *)


(** [{ hostname, forms }] *)
Definition dataOfForms (hostname : string) (forms : Loose (option Form.t)) : Data.t :=
  Data.make EmptyString EmptyString EmptyString EmptyString EmptyString EmptyString
    EmptyString EmptyString EmptyString hostname
    Absent Absent forms Absent EmptyString EmptyString EmptyString false false.

(** [{ formList: 7 }] *)
Definition dataFormListNumber : Data.t :=
  Data.make EmptyString EmptyString EmptyString EmptyString EmptyString EmptyString
    EmptyString EmptyString EmptyString EmptyString
    Absent Absent Absent Scalar EmptyString EmptyString EmptyString false false.

(** ** What raises the flag on an exactly trusted page *)

Section Triggers.

Context {url_api : UrlApi}.

(** The form is a credential form that posts to another host. *)
Definition formFires (pageHostname : string) (f : option Form.t) : bool :=
  match f with
  | None => false
  | Some f =>
      Form.hasPassword f && negb (Str.isEmpty (Form.action f))
      && (let actionHost := safeGetHostname (Form.action f) in
          negb (Str.isEmpty actionHost)
          && negb (String.eqb actionHost pageHostname)
          && negb (Str.includes actionHost (lastTwoSegments pageHostname)))
  end.

(** Some red-flag phrase occurs in the text sample. *)
Definition textFires (textSample : string) : bool :=
  negb (Str.isEmpty textSample)
  && existsb (fun f => Str.includes (Str.toLowerCase textSample) f) redFlags.

(** The canonical or Open Graph host is far from the page hostname. *)
Definition canonicalFires (pageHostname ogUrl canonical : string) : bool :=
  negb (Str.isEmpty (orElse ogUrl canonical))
  && (negb (Str.isEmpty (safeGetHostname (orElse ogUrl canonical)))
      && negb (Str.isEmpty pageHostname))
  && Num.ltb 0.35%Q
       (normalizedDistance
          (Str.stripWww (safeGetHostname (orElse ogUrl canonical)))
          (Str.stripWww pageHostname)).

End Triggers.

(** ** The edit distance as a recurrence

    The Wagner-Fischer recurrence that the two rows of [levenshtein] hold:
    the distance of two strings read from their last characters. Used to
    state what the loop computes; the rows are [rowOf]. *)

Fixpoint levRec (a b : list ascii) : nat :=
  match a with
  | [] => List.length b
  | x :: a' =>
      (fix inner (b : list ascii) : nat :=
         match b with
         | [] => List.length a
         | y :: b' =>
             Nat.min (Nat.min (inner b' + 1) (levRec a' b + 1))
               (levRec a' b' + (if Ascii.eqb x y then 0 else 1))
         end) b
  end.

(** The row of the characters read so far, [ra] (last one first): the
    entries for the prefix [pb] of [b] read so far and for each longer one. *)
Fixpoint rowOf (ra pb : list ascii) (b : string) : list nat :=
  levRec ra pb ::
  match b with
  | EmptyString => []
  | String y b' => rowOf ra (y :: pb) b'
  end.

Definition chars (s : string) : list ascii := list_ascii_of_string s.

(** ** Predicates on strings used in the statements *)

(** No upper-case ASCII letter occurs in [s]. *)
Definition isLowerCased (s : string) : bool :=
  Str.forallb (fun c => negb (Str.isUpper c)) s.

(** No dot occurs in [s]. *)
Definition dotFree (s : string) : bool :=
  Str.forallb (fun c => negb (Ascii.eqb c "."%char)) s.

(** ** Payloads that differ in their text sample only *)

(** [{ ...data, textSample }] *)
Definition withText (data : Data.t) (textSample : string) : Data.t :=
  Data.make (Data.username data) (Data.handle data) (Data.user data)
    (Data.displayName data) (Data.fullName data) (Data.title data)
    (Data.url data) (Data.pageUrl data) (Data.origin data) (Data.hostname data)
    (Data.links data) (Data.linkList data) (Data.forms data) (Data.formList data)
    textSample (Data.ogUrl data) (Data.canonical data)
    (Data.isVerified data) (Data.isBrand data).

(** The reason of the typosquat check for the second-level label [sld]
    against the trusted domain [td]. *)
Definition typosquatReason (sld currentReg td : string) : string :=
  "Domain SLD " ++ Str.dquote ++ sld ++ Str.dquote
  ++ " closely resembles trusted SLD " ++ Str.dquote
  ++ getSecondLevelLabel td ++ Str.dquote
  ++ " (distance "
  ++ Num.toFixed2 (normalizedDistance sld (getSecondLevelLabel td))
  ++ "). Treated as typosquat (" ++ currentReg ++ " ~ " ++ td ++ ").".

(** The reason of the brand-keyword loop for the keyword [kw] of [brand]. *)
Definition brandReason (sld kw brand : string) : string :=
  "Domain SLD " ++ Str.dquote ++ sld ++ Str.dquote
  ++ " contains brand-like token " ++ Str.dquote ++ kw
  ++ Str.dquote ++ " (looks like " ++ brand ++ ")".

(** A text sample of 4000 characters. *)
Definition fourThousandChars : string :=
  string_of_list_ascii (repeat "a"%char 4000).

(** Some brand keyword occurs in the label. *)
Definition containsBrandKeyword (sld : string) : bool :=
  existsb (fun bk => existsb (fun kw => Str.includes sld kw) (snd bk))
    BRAND_KEYWORDS.

(** A property of the locals that the later checks keep. *)
Definition kept (P : St.t -> Prop) : Prop :=
  forall st st', extends st st' -> P st -> P st'.

(** ** Notification helper *)

(** [Math.round(score * 100)] *)
Definition roundPercent (score : Q) : Z := Qfloor (score * 100 + (1 # 2))%Q.

(** An integer inside a template literal. *)
Definition showZ (z : Z) : string := NilZero.string_of_int (Z.to_int z).

(** The values a property of [notificationsSent] is read as: undefined, a
    count, NaN, or a function or object that belongs to [Object.prototype]. *)
Inductive JsVal : Type :=
| VUndefined
| VNum (n : nat)
| VNaN
| VObject.

(** The names of the properties of [Object.prototype], which the object
    literal [{}] inherits. *)
Definition objectPrototypeNames : list string :=
  ["constructor"; "__defineGetter__"; "__defineSetter__"; "hasOwnProperty";
   "__lookupGetter__"; "__lookupSetter__"; "isPrototypeOf";
   "propertyIsEnumerable"; "toString"; "valueOf"; "__proto__"; "toLocaleString"].

(** The object [notificationsSent]: its own properties, the last one written
    first. *)
Module Obj.

Definition t := list (string * JsVal).

Definition empty : t := [].

Fixpoint own (o : t) (k : string) : option JsVal :=
  match o with
  | [] => None
  | (k', v) :: o' => if String.eqb k k' then Some v else own o' k
  end.

Definition inherited (k : string) : bool := setHas objectPrototypeNames k.

(** [o[k]]: [__proto__] is an accessor that answers the prototype; another
    name is looked up in the object, then in [Object.prototype]. *)
Definition get (o : t) (k : string) : JsVal :=
  if String.eqb k "__proto__" then VObject
  else match own o k with
       | Some v => v
       | None => if inherited k then VObject else VUndefined
       end.

(** [o[k] = v]: the setter of [__proto__] leaves the object as it is, both
    for the prototype it already has and for a value that is not an object;
    another name becomes an own property. *)
Definition put (o : t) (k : string) (v : JsVal) : t :=
  if String.eqb k "__proto__" then o else (k, v) :: o.

End Obj.

(** [v || 0], [v >= 2] and the value [v++] stores. A function or an object
    of [Object.prototype] is truthy and converts to NaN. *)
Definition orZero (v : JsVal) : JsVal :=
  match v with
  | VNum (S n) => VNum (S n)
  | VObject => VObject
  | _ => VNum 0
  end.

Definition atLeastTwo (v : JsVal) : bool :=
  match v with
  | VNum n => (2 <=? n)%nat
  | _ => false
  end.

Definition increment (v : JsVal) : JsVal :=
  match v with
  | VNum n => VNum (S n)
  | _ => VNaN
  end.

(** The options given to [chrome.notifications.create]. *)
Module Notification.
Record t := make { title : string; message : string }.
End Notification.

(** [createPhishNotification]: the value returned, the notification created
    and [notificationsSent] after the call. [now] is the value of
    [Date.now()]; [result] is null ([None]) or a result object. Reading
    [result.score] of null throws inside the [try]; the call to
    [chrome.notifications.create] is taken not to throw, and the identifier
    and the timer of the notification are left out. *)
Definition createPhishNotification (now : nat) (alertId origin : string)
    (result : option AssessmentResult) (rawMsg : string)
    (notificationsSent : Obj.t)
    : bool * option Notification.t * Obj.t :=
  let idKey := orElse alertId (orElse origin ("a-" ++ Str.ofNat now)) in
  let notificationsSent :=
    Obj.put notificationsSent idKey (orZero (Obj.get notificationsSent idKey)) in
  if atLeastTwo (Obj.get notificationsSent idKey) then
    (false, None, notificationsSent)
  else
    let notificationsSent :=
      Obj.put notificationsSent idKey (increment (Obj.get notificationsSent idKey)) in
    let flagged :=
      match result with
      | Some r => suspicious r
      | None => false
      end in
    let title :=
      if flagged then "Possible phishing detected" else "Site looks OK" in
    let message : Completion string :=
      if negb (Str.isEmpty rawMsg) then Normal rawMsg
      else
        match result with
        | Some r =>
            Normal
              (if suspicious r then
                 "Suspicion " ++ showZ (roundPercent (score r)) ++ "% for "
                 ++ origin ++ ". Click to review."
               else
                 "Checked " ++ origin ++ ": score "
                 ++ showZ (roundPercent (score r)) ++ "%")
        | None => Throw TypeError
        end in
    match message with
    | Normal message =>
        (true, Some (Notification.make title message), notificationsSent)
    | Throw _ => (false, None, notificationsSent)
    end.

(** A call of [createPhishNotification]. *)
Module Call.
Record t := make {
  now : nat;
  alertId : string;
  origin : string;
  result : option AssessmentResult;
  rawMsg : string
}.

(** The key the call counts under: [alertId || origin || `a-${Date.now()}`]. *)
Definition idKey (c : t) : string :=
  orElse (alertId c) (orElse (origin c) ("a-" ++ Str.ofNat (now c))).
End Call.

Definition createFor (c : Call.t) (notificationsSent : Obj.t)
    : bool * option Notification.t * Obj.t :=
  createPhishNotification (Call.now c) (Call.alertId c) (Call.origin c)
    (Call.result c) (Call.rawMsg c) notificationsSent.

(** The values returned by a sequence of calls, and [notificationsSent]
    after it. *)
Fixpoint notifyAll (calls : list Call.t) (notificationsSent : Obj.t)
    : list bool * Obj.t :=
  match calls with
  | [] => ([], notificationsSent)
  | c :: calls' =>
      let '(created, _, sent) := createFor c notificationsSent in
      let '(rest, final) := notifyAll calls' sent in
      (created :: rest, final)
  end.

(** The calls of the sequence that count under the key [k]. *)
Definition callsFor (k : string) (calls : list Call.t) : list Call.t :=
  filter (fun c => String.eqb (Call.idKey c) k) calls.

(** How many calls under the key [k] returned true. *)
Definition shownFor (k : string) (calls : list Call.t) (notificationsSent : Obj.t)
    : nat :=
  List.length
    (filter (fun p => String.eqb (Call.idKey (fst p)) k && snd p)
       (combine calls (fst (notifyAll calls notificationsSent)))).

(** The message [{ type: "phish_alert", id, msg, origin, result }] and the
    clock when it is handled. *)
Module Alert.
Record t := make {
  now : nat;
  id : string;
  msg : string;
  origin : string;
  result : option AssessmentResult
}.
End Alert.

(** The [phish_alert] branch of the message listener: the call it makes. *)
Definition phishAlertCall (a : Alert.t) : Call.t :=
  Call.make (Alert.now a) (orElse (Alert.id a) (Alert.origin a)) (Alert.origin a)
    (Alert.result a) (orElse (Alert.msg a) "Possible phishing detected").

(** The [notified] fields of the responses to a sequence of alerts. *)
Definition phishAlerts (alerts : list Alert.t) (notificationsSent : Obj.t)
    : list bool :=
  fst (notifyAll (map phishAlertCall alerts) notificationsSent).

(** The count [notificationsSent] holds under [k]. *)
Definition countOf (sent : Obj.t) (k : string) : nat :=
  match Obj.own sent k with
  | Some (VNum n) => n
  | _ => 0
  end.

(** Under [k] there is no own property, or a count. *)
Definition countsOnly (sent : Obj.t) (k : string) : Prop :=
  Obj.own sent k = None \/ exists n, Obj.own sent k = Some (VNum n).

(** ** Trusted domains from storage *)

Definition DEFAULT_TRUSTED : list string := ["facebook.com"; "tiktok.com"].

(** [new Set(xs)]: the elements in the order of their first occurrence. *)
Definition newSet (xs : list string) : list string :=
  fold_left (fun set x => if setHas set x then set else (set ++ [x])%list) xs [].

(** [arr.map(s => { try { return getRegisteredDomain(s.toString()
    .toLowerCase()); } catch { return s.toString().toLowerCase(); } })]: on
    an entry that is null or undefined ([None]) [s.toString()] throws in the
    [try] and again in the [catch]. *)
Fixpoint registeredDomains (arr : list (option string))
    : Completion (list string) :=
  match arr with
  | [] => Normal []
  | None :: _ => Throw TypeError
  | Some s :: arr' =>
      rest <- registeredDomains arr' ;;
      Normal (getRegisteredDomain (Str.toLowerCase s) :: rest)
  end.

(** [loadTrusted]: the set the promise resolves with, given the value stored
    under [trustedDomains] ([Absent] when nothing is stored: the storage
    then answers [DEFAULT_TRUSTED]). *)
Definition loadTrusted (stored : Loose (option string)) : list string :=
  let arr :=
    match stored with
    | IsArray xs => xs
    | _ => map Some DEFAULT_TRUSTED
    end in
  match registeredDomains arr with
  | Normal mapped => newSet (filter (fun s => negb (Str.isEmpty s)) mapped)
  | Throw _ => newSet DEFAULT_TRUSTED
  end.

(** ** The options page and the popup *)

Section Pages.

Context {url_api : UrlApi}.

(** The [analyzeProfile] branch of the message listener: [message.data ||
    {}] is assessed against the loaded set. *)
Definition onAnalyzeProfile (stored : Loose (option string)) (data : Arg)
    : Completion AssessmentResult :=
  let data :=
    match data with
    | ArgObject d => d
    | _ => Data.empty
    end in
  assess data (loadTrusted stored).

(** [hostOnly] of options.js. *)
Definition hostOnly (s : string) : string :=
  if Str.isEmpty s then EmptyString
  else
    let s := Str.trim s in
    match new_URL s None with
    | Some u => Str.toLowerCase (Url.hostname u)
    | None => Str.toLowerCase (hd EmptyString (Str.split "/"%char s))
    end.

(** The click handler of the button that adds a trusted domain:
    [state.trustedDomains] after it, for the text of the input field. *)
Definition addTrusted (input : string) (trustedDomains : list string)
    : list string :=
  let v := hostOnly input in
  if Str.isEmpty v then trustedDomains
  else if setHas trustedDomains v then trustedDomains
  else push trustedDomains v.

End Pages.

(** What [renderResult] of popup.js shows: the warning or the all-clear,
    the percentage and the reasons listed. *)
Module Shown.
Record t := make { warning : bool; percent : Z; listed : list string }.
End Shown.

(** [renderResult(data)]: nothing is shown of a response that is null or
    has no result. *)
Definition renderResult (data : option (option AssessmentResult))
    : option Shown.t :=
  match data with
  | Some (Some r) =>
      Some (Shown.make (suspicious r) (roundPercent (score r))
              (firstn 10 (reasons r)))
  | _ => None
  end.

(** ** Payloads that differ in their forms only *)


(** ** Scores compared across two runs

    The model adds exact rationals where the code adds doubles. Where a
    statement compares the score of one result with a sum made from the
    score of another, it leaves [roundingSlack] for the rounding of the
    code's additions; in the model the two sides are equal. *)

Definition roundingSlack : Q := 1 # 1000000000.

Definition near (x y : Q) : Prop :=
  (y - roundingSlack <= x /\ x <= y + roundingSlack)%Q.

(** [st] is [st0] after one more step in the middle: the reasons [L]
    inserted, [delta] added to the score, the flag raised when [raise]. *)
Definition shifted (L : list string) (delta : Q) (raise : bool)
    (st0 st : St.t) : Prop :=
  (St.score st == St.score st0 + delta)%Q
  /\ St.suspicious st = St.suspicious st0 || raise
  /\ exists before after,
       St.reasons st0 = (before ++ after)%list
       /\ St.reasons st = (before ++ L ++ after)%list.

(** The reasons the final handling of an exactly trusted, unflagged page
    keeps. *)
Definition keptReasons (dampened : bool) (reasons : list string) : list string :=
  if dampened then filter (fun r => negb (isWeakReason r)) reasons else reasons.

(** ** Payloads with a number where an array is expected *)

(** [{ forms: 7 }] *)
Definition dataFormsNumber : Data.t :=
  Data.make EmptyString EmptyString EmptyString EmptyString EmptyString EmptyString
    EmptyString EmptyString EmptyString EmptyString
    Absent Absent Scalar Absent EmptyString EmptyString EmptyString false false.

(** [{ linkList: 7 }] *)
Definition dataLinkListNumber : Data.t :=
  Data.make EmptyString EmptyString EmptyString EmptyString EmptyString EmptyString
    EmptyString EmptyString EmptyString EmptyString
    Absent Scalar Absent Absent EmptyString EmptyString EmptyString false false.

(** * Properties *)

(** ** Comparisons, [Math.max] and [Math.min] *)

Lemma leb_le (x y : Q) : Num.leb x y = true <-> (x <= y)%Q.
Proof. apply Qle_bool_iff. Qed.

Lemma leb_gt (x y : Q) : Num.leb x y = false <-> (y < x)%Q.
Proof.
  unfold Num.leb. split; intro H.
  - apply Qnot_le_lt. intro Hle. apply Qle_bool_iff in Hle. congruence.
  - destruct (Qle_bool x y) eqn:E; [|reflexivity].
    apply Qle_bool_iff in E. exfalso. apply (Qlt_not_le _ _ H E).
Qed.

Lemma max_ge_l (x y : Q) : (x <= Num.max x y)%Q.
Proof.
  unfold Num.max. destruct (Num.leb x y) eqn:E.
  - now apply leb_le.
  - apply Qle_refl.
Qed.

Lemma max_ge_r (x y : Q) : (y <= Num.max x y)%Q.
Proof.
  unfold Num.max. destruct (Num.leb x y) eqn:E.
  - apply Qle_refl.
  - apply leb_gt in E. now apply Qlt_le_weak.
Qed.

Lemma min_le_l (x y : Q) : (Num.min x y <= x)%Q.
Proof.
  unfold Num.min. destruct (Num.leb x y) eqn:E.
  - apply Qle_refl.
  - apply leb_gt in E. now apply Qlt_le_weak.
Qed.

Lemma min_le_r (x y : Q) : (Num.min x y <= y)%Q.
Proof.
  unfold Num.min. destruct (Num.leb x y) eqn:E.
  - now apply leb_le.
  - apply Qle_refl.
Qed.

Lemma min_glb (x y z : Q) : (z <= x)%Q -> (z <= y)%Q -> (z <= Num.min x y)%Q.
Proof. intros Hx Hy. unfold Num.min. now destruct (Num.leb x y). Qed.

Lemma max_lub (x y z : Q) : (x <= z)%Q -> (y <= z)%Q -> (Num.max x y <= z)%Q.
Proof. intros Hx Hy. unfold Num.max. now destruct (Num.leb x y). Qed.

(** ** Exactly trusted *)

Lemma setHas_In set x : setHas set x = true <-> In x set.
Proof.
  unfold setHas. rewrite existsb_exists. split.
  - intros (y & Hin & E). apply String.eqb_eq in E. now subst.
  - intros Hin. exists x. split; [assumption | apply String.eqb_refl].
Qed.

(** A page is exactly trusted when its hostname is not empty and its
    registered domain, in lower case, is in the module-level set. *)
Lemma hostIsTrustedExact_spec TRUSTED_REGISTERED_DOMAINS h :
  hostIsTrustedExact TRUSTED_REGISTERED_DOMAINS h = true
  <-> h <> EmptyString
      /\ In (Str.toLowerCase (getRegisteredDomain h)) TRUSTED_REGISTERED_DOMAINS.
Proof.
  unfold hostIsTrustedExact. destruct h as [|c h]; cbn [Str.isEmpty].
  - split; [discriminate | now intros [H _]].
  - rewrite setHas_In. split; [intros H; split; [discriminate | exact H] | now intros [_ H]].
Qed.

(** ** The final clamp *)

Lemma finalDecision_score_range (st : St.t) :
  (0 <= St.score (finalDecision st) <= 1)%Q.
Proof.
  unfold finalDecision; simpl. split.
  - apply max_ge_l.
  - apply max_lub; [lra | apply min_le_l].
Qed.

Section CoreProperties.

Context {url_api : UrlApi}.

(** What a normal completion of [analyzeProfileCore] is made of. *)
Lemma analyzeProfileCore_normal G arg T r :
  analyzeProfileCore G arg T = Normal r ->
  exists data st,
    readData arg = Normal data /\
    checks G data T = Normal st /\
    let fin := finalDecision
                 (trustDampening (hostIsTrustedExact G (pageHostnameOf data)) st) in
    r = mkResult (St.suspicious fin) (St.score fin) (St.reasons fin) (detailsOf data).
Proof.
  unfold analyzeProfileCore, bind. intros H.
  destruct (readData arg) as [data|] eqn:Ea; [|discriminate].
  destruct (checks G data T) as [st|] eqn:Ec; [|discriminate].
  exists data, st. split; [reflexivity|]. split; [assumption|].
  cbv zeta. now inversion H.
Qed.

(** C1. Whenever [analyzeProfileCore] returns, for any payload, any
    module-level set and any trusted-set argument, the score of the result
    lies in the closed interval from 0 to 1. *)
Theorem score_in_unit_interval G arg T r :
  analyzeProfileCore G arg T = Normal r ->
  (0 <= score r <= 1)%Q.
Proof.
  intros H. apply analyzeProfileCore_normal in H.
  destruct H as (data & st & _ & _ & ->). simpl.
  apply finalDecision_score_range.
Qed.

End CoreProperties.

(** C1 at the payload [{ hostname: "faceboook.com" }] with the default set. *)
Lemma score_in_unit_interval_witness :
  exists r,
    analyzeProfileCore (url_api := refUrlApi) defaultTrusted
      (ArgObject (dataOfHostname "faceboook.com")) (Some defaultTrusted) = Normal r
    /\ (0 <= score r <= 1)%Q.
Proof.
  eexists. split.
  - vm_compute. reflexivity.
  - apply (score_in_unit_interval (url_api := refUrlApi) defaultTrusted
             (ArgObject (dataOfHostname "faceboook.com")) (Some defaultTrusted)).
    vm_compute. reflexivity.
Defined.

(** ** Every check before the final handling only adds *)

Lemma extends_refl st : extends st st.
Proof.
  repeat split; [apply Qle_refl | auto | exists []; now rewrite app_nil_r].
Qed.

Lemma extends_trans st1 st2 st3 :
  extends st1 st2 -> extends st2 st3 -> extends st1 st3.
Proof.
  intros (Hs1 & Hf1 & m1 & Hr1) (Hs2 & Hf2 & m2 & Hr2). repeat split.
  - eapply Qle_trans; eassumption.
  - auto.
  - exists (m1 ++ m2)%list. now rewrite Hr2, Hr1, app_assoc.
Qed.

Lemma extends_fold_left {A : Type} (f : St.t -> A -> St.t) :
  (forall st x, extends st (f st x)) ->
  forall xs st, extends st (fold_left f xs st).
Proof.
  intros Hf xs. induction xs as [|x xs IH]; intros st; simpl.
  - apply extends_refl.
  - eapply extends_trans; [apply Hf | apply IH].
Qed.

(** A step that pushes one reason, does not lower the score and does not
    clear the flag. *)
Lemma extends_push st r sc fl :
  (St.score st <= sc)%Q ->
  (St.suspicious st = true -> fl = true) ->
  extends st (St.make (push (St.reasons st) r) sc fl).
Proof.
  intros Hs Hf. repeat split; simpl; auto. now exists [r].
Qed.

Create HintDb steps.

#[local] Hint Resolve extends_refl extends_push max_ge_l Qle_refl : steps.

Ltac step_cases :=
  repeat match goal with
         | |- context [if ?b then _ else _] => destruct b eqn:?
         end.

Lemma brandKeywordCheck_extends sld st : extends st (brandKeywordCheck sld st).
Proof.
  unfold brandKeywordCheck. apply extends_fold_left. intros st1 [brand kws].
  apply extends_fold_left. intros st2 kw.
  destruct (negb (Str.isEmpty sld) && Str.includes sld kw); auto with steps.
Qed.

Lemma typosquatCheck_extends T h st : extends st (typosquatCheck T h st).
Proof.
  unfold typosquatCheck.
  destruct (negb (setHas T (Str.toLowerCase (getRegisteredDomain h)))).
  - eapply extends_trans; [|apply brandKeywordCheck_extends].
    step_cases; auto with steps.
  - auto with steps.
Qed.

Lemma httpsCheck_extends te url st :
  te && negb (St.suspicious st) = false -> extends st (httpsCheck te url st).
Proof.
  intros Hte. unfold httpsCheck. rewrite Hte.
  destruct (negb (isHttps url)); auto with steps.
  apply extends_push; auto. lra.
Qed.

Lemma hostnameChecks_extends h st : extends st (hostnameChecks h st).
Proof.
  unfold hostnameChecks.
  eapply extends_trans with
    (st2 := if isPunycode h
            then St.make (push (St.reasons st) "Page hostname uses punycode")
                   (St.score st + 0.40)%Q true
            else st).
  - destruct (isPunycode h); auto with steps. apply extends_push; auto. lra.
  - destruct (isIpAddress h); auto with steps. apply extends_push; auto. lra.
Qed.

Lemma textCheck_extends te text st : extends st (textCheck te text st).
Proof.
  unfold textCheck. destruct (negb (Str.isEmpty text)); auto with steps.
  apply extends_fold_left. intros st1 f.
  destruct (Str.includes (Str.toLowerCase text) f); auto with steps.
  apply extends_push; auto. destruct te; lra.
Qed.

Section StepProperties.

Context {url_api : UrlApi}.

Lemma formCheck_extends te h st f : extends st (formCheck te h st f).
Proof.
  unfold formCheck. destruct f as [f|].
  - step_cases; auto with steps; apply extends_push; auto; lra.
  - apply extends_push; auto. lra.
Qed.

Lemma formsCheck_extends te h forms st st' :
  formsCheck te h forms st = Normal st' -> extends st st'.
Proof.
  destruct forms as [|fs|]; simpl; try discriminate.
  intros [= <-]. apply extends_fold_left. intros. apply formCheck_extends.
Qed.

(** The number a link contributes is one of eight constants, none above
    0.20, and the call appends at most one reason. *)
Lemma linkIsSuspicious_spec L h rs :
  let '(x, rs') := linkIsSuspicious L h rs in
  (0 <= x <= 0.20)%Q /\ exists more, rs' = (rs ++ more)%list.
Proof.
  unfold linkIsSuspicious, push.
  repeat match goal with
         | |- context [match ?o with Some _ => _ | None => _ end] => destruct o
         | |- context [if ?b then _ else _] => destruct b
         end;
    (split; [lra | first [now eexists | exists []; now rewrite app_nil_r]]).
Qed.

Lemma linkLoop_spec h links rs :
  let '(sum, rs') := linkLoop h links rs in
  (0 <= sum)%Q /\ exists more, rs' = (rs ++ more)%list.
Proof.
  unfold linkLoop.
  assert (G : forall ls acc rs0,
             (0 <= acc)%Q ->
             let '(sum, rs') :=
               fold_left
                 (fun acc L =>
                    let '(linkRiskSum, reasons) := acc in
                    let '(linkScore, reasons0) := linkIsSuspicious L h reasons in
                    ((linkRiskSum + linkScore)%Q, reasons0))
                 ls (acc, rs0) in
             (0 <= sum)%Q /\ exists more, rs' = (rs0 ++ more)%list).
  { induction ls as [|L ls IH]; intros acc rs0 Hacc; simpl.
    - split; [assumption | exists []; now rewrite app_nil_r].
    - pose proof (linkIsSuspicious_spec L h rs0) as HL.
      destruct (linkIsSuspicious L h rs0) as [x rs1].
      destruct HL as ([Hx _] & m1 & ->).
      specialize (IH (acc + x)%Q (rs0 ++ m1)%list).
      destruct (fold_left _ ls _) as [sum rs'].
      destruct IH as (Hs & m2 & ->); [lra|].
      split; [assumption|]. exists (m1 ++ m2)%list. now rewrite app_assoc. }
  apply G. lra.
Qed.

Lemma linksCheck_extends te h links st : extends st (linksCheck te h links st).
Proof.
  unfold linksCheck. destruct links as [|[|L ls]|]; auto with steps.
  pose proof (linkLoop_spec h (L :: ls) (St.reasons st)) as HL.
  destruct (linkLoop h (L :: ls) (St.reasons st)) as [sum rs'].
  destruct HL as (Hsum & more & ->).
  set (n := inject_Z (Z.of_nat (Nat.max 1 (List.length (L :: ls))))).
  assert (Hn : (0 < n)%Q).
  { unfold n. replace 0%Q with (inject_Z 0) by reflexivity.
    rewrite <- Zlt_Qlt. lia. }
  assert (Hq : (0 <= sum / n)%Q).
  { apply Qle_shift_div_l; [assumption | lra]. }
  assert (Hc : (0 <= Num.min (if te then 0.15 else 0.40) (sum / n))%Q).
  { apply min_glb; [destruct te; lra | assumption]. }
  unfold extends; cbn [St.score St.suspicious St.reasons]. repeat split.
  - fold n. lra.
  - intros ->. now destruct (Num.leb _ _).
  - now exists more.
Qed.

Lemma canonicalCheck_extends te h og can st :
  extends st (canonicalCheck te h og can st).
Proof.
  unfold canonicalCheck. step_cases; auto with steps;
    apply extends_push; auto; lra.
Qed.

End StepProperties.

(** ** The checks as a whole *)

Section CheckProperties.

Context {url_api : UrlApi}.

(** The order of the checks: typosquat, HTTPS, forms, links, text, hostname,
    canonical. The steps named in the statements below are the ones applied
    here, with [trustedExact] computed from the module-level set. *)
Lemma checks_order G data T :
  checks G data T
  = (let h := pageHostnameOf data in
     let te := hostIsTrustedExact G h in
     let url := orElse (Data.url data) (orElse (Data.pageUrl data) (Data.origin data)) in
     st <- formsCheck te h (arrayOr (Data.forms data) (Data.formList data))
             (httpsCheck te url
                (typosquatCheck (match T with Some set => set | None => G end) h
                   (initialLocals te))) ;;
     Normal
       (canonicalCheck te h (Data.ogUrl data) (Data.canonical data)
          (hostnameChecks h
             (textCheck te (Str.sliceTo 4000 (Data.textSample data))
                (linksCheck te h (arrayOr (Data.links data) (Data.linkList data))
                   st))))).
Proof. reflexivity. Qed.

(** After the typosquat step nothing lowers the score, clears the flag or
    removes a reason before the final handling, unless the page is exactly
    trusted and still unflagged (the HTTPS clamp). *)
Lemma checks_extends G data T st :
  checks G data T = Normal st ->
  let te := hostIsTrustedExact G (pageHostnameOf data) in
  let TRUSTED := match T with Some set => set | None => G end in
  let st1 := typosquatCheck TRUSTED (pageHostnameOf data) (initialLocals te) in
  te && negb (St.suspicious st1) = false ->
  extends st1 st.
Proof.
  intros H te TRUSTED st1 Hte. unfold checks, bind in H.
  fold te TRUSTED in H. fold st1 in H.
  destruct (formsCheck te _ _ _) as [st2|] eqn:Ef; [|discriminate].
  injection H as <-.
  eapply extends_trans; [eapply httpsCheck_extends; exact Hte|].
  eapply extends_trans; [eapply formsCheck_extends; exact Ef|].
  eapply extends_trans; [apply linksCheck_extends|].
  eapply extends_trans; [apply textCheck_extends|].
  eapply extends_trans; [apply hostnameChecks_extends|].
  apply canonicalCheck_extends.
Qed.

Lemma finalDecision_score_ge (st : St.t) (x : Q) :
  (x <= 1)%Q -> (x <= St.score st)%Q -> (x <= St.score (finalDecision st))%Q.
Proof.
  intros H1 Hx. unfold finalDecision; cbn [St.score].
  eapply Qle_trans; [|apply max_ge_r]. now apply min_glb.
Qed.

Lemma not_exactly_trusted_score G arg T r :
  analyzeProfileCore G arg T = Normal r ->
  (forall data, readData arg = Normal data ->
                hostIsTrustedExact G (pageHostnameOf data) = false) ->
  (0.25 <= score r)%Q.
Proof.
  intros H Hte. apply analyzeProfileCore_normal in H.
  destruct H as (data & st & Ha & Hc & ->). cbv zeta. cbn [score].
  specialize (Hte data Ha). rewrite Hte. cbn [trustDampening andb].
  apply finalDecision_score_ge; [lra|].
  pose proof (checks_extends _ _ _ _ Hc) as He. cbv zeta in He.
  rewrite Hte in He. specialize (He eq_refl).
  destruct He as (He & _).
  eapply Qle_trans; [|exact He].
  match goal with
  | |- (_ <= St.score (typosquatCheck ?t ?h ?s))%Q =>
      destruct (typosquatCheck_extends t h s) as (Hs & _)
  end.
  exact Hs.
Qed.

(** C10. A payload whose page is not exactly trusted (its registered domain
    is not in the trusted set) gets a score of at least 0.25 from [assess]. *)
Theorem untrusted_score_at_least_quarter data trustedDomains r :
  hostIsTrustedExact trustedDomains (pageHostnameOf data) = false ->
  assess data trustedDomains = Normal r ->
  (0.25 <= score r)%Q.
Proof.
  intros Hte H. apply (not_exactly_trusted_score _ _ _ _ H).
  intros d [= <-]. exact Hte.
Qed.

(** C2. On an exactly trusted page on which no check has raised the flag
    before the final trustedExact handling, [assess] returns a result that
    is not suspicious and whose score is at most 0.05. *)
Theorem trusted_unflagged_is_dampened data trustedDomains st :
  hostIsTrustedExact trustedDomains (pageHostnameOf data) = true ->
  checks trustedDomains data (Some trustedDomains) = Normal st ->
  St.suspicious st = false ->
  exists r,
    assess data trustedDomains = Normal r
    /\ suspicious r = false
    /\ (score r <= 0.05)%Q.
Proof.
  intros Hte Hc Hs. unfold assess, analyzeProfileCore, bind, readData.
  rewrite Hc, Hte. eexists. split; [reflexivity|]. cbn [suspicious score].
  unfold trustDampening. rewrite Hs. cbn [andb negb].
  assert (Hle : (St.score
                   (finalDecision
                      (St.make (filter (fun r => negb (isWeakReason r)) (St.reasons st))
                         (Num.min (St.score st) 0.05) false)) <= 0.05)%Q).
  { unfold finalDecision; cbn [St.score].
    apply max_lub; [lra|].
    eapply Qle_trans; [apply min_le_r | apply min_le_r]. }
  split; [|exact Hle].
  unfold finalDecision in *; cbn [St.score St.suspicious orb] in *.
  apply leb_gt. lra.
Qed.

End CheckProperties.

(** C2 at the page https://www.facebook.com/profile. *)
Lemma trusted_unflagged_is_dampened_witness :
  exists r,
    assess (url_api := refUrlApi) (dataOfUrl "https://www.facebook.com/profile")
      defaultTrusted = Normal r
    /\ suspicious r = false
    /\ (score r <= 0.05)%Q.
Proof.
  assert (Hte : hostIsTrustedExact defaultTrusted
                  (pageHostnameOf (url_api := refUrlApi)
                     (dataOfUrl "https://www.facebook.com/profile")) = true)
    by (vm_compute; reflexivity).
  assert (Hc : { st | checks (url_api := refUrlApi) defaultTrusted
                        (dataOfUrl "https://www.facebook.com/profile")
                        (Some defaultTrusted) = Normal st
                      /\ St.suspicious st = false })
    by (eexists; split; vm_compute; reflexivity).
  destruct Hc as (st & Hc & Hs).
  exact (trusted_unflagged_is_dampened (url_api := refUrlApi) _ _ st Hte Hc Hs).
Defined.

(** C10 at the page https://example.org/. *)
Lemma untrusted_score_at_least_quarter_witness :
  exists r,
    assess (url_api := refUrlApi) (dataOfUrl "https://example.org/") defaultTrusted
    = Normal r
    /\ (0.25 <= score r)%Q.
Proof.
  assert (Hte : hostIsTrustedExact defaultTrusted
                  (pageHostnameOf (url_api := refUrlApi)
                     (dataOfUrl "https://example.org/")) = false)
    by (vm_compute; reflexivity).
  assert (Hr : { r | assess (url_api := refUrlApi) (dataOfUrl "https://example.org/")
                       defaultTrusted = Normal r })
    by (eexists; vm_compute; reflexivity).
  destruct Hr as [r Hr]. exists r. split; [exact Hr|].
  exact (untrusted_score_at_least_quarter (url_api := refUrlApi) _ _ r Hte Hr).
Defined.

(** ** The typosquat scenario *)

Lemma extends_In st st' r :
  extends st st' -> In r (St.reasons st) -> In r (St.reasons st').
Proof.
  intros (_ & _ & more & ->) Hin. apply in_or_app. now left.
Qed.

(** What the result keeps of a flagged state that the remaining checks only
    added to, when no dampening applies. *)
Lemma flagged_state_result st1 st x reason :
  (x <= 1)%Q ->
  St.suspicious st1 = true ->
  (x <= St.score st1)%Q ->
  In reason (St.reasons st1) ->
  extends st1 st ->
  St.suspicious (finalDecision st) = true
  /\ (x <= St.score (finalDecision st))%Q
  /\ In reason (St.reasons (finalDecision st)).
Proof.
  intros Hx H1 H2 H3 He.
  pose proof (extends_In _ _ _ He H3) as Hin.
  destruct He as (Hs & Hf & _).
  split; [|split].
  - unfold finalDecision; cbn [St.suspicious]. now rewrite (Hf H1).
  - apply finalDecision_score_ge; [assumption|]. eapply Qle_trans; eassumption.
  - exact Hin.
Qed.

(** The set of facebook.com and tiktok.com, in either order of insertion. *)
Lemma faceboook_not_trusted trusted :
  trusted = defaultTrusted \/ trusted = rev defaultTrusted ->
  hostIsTrustedExact trusted "faceboook.com" = false.
Proof. intros [-> | ->]; vm_compute; reflexivity. Qed.

Lemma typosquatCheck_faceboook trusted :
  trusted = defaultTrusted \/ trusted = rev defaultTrusted ->
  let st1 := typosquatCheck trusted "faceboook.com" (initialLocals false) in
  St.suspicious st1 = true
  /\ (0.75 <= St.score st1)%Q
  /\ In faceboookReason (St.reasons st1).
Proof.
  intros [-> | ->]; vm_compute; (repeat split; [discriminate | auto]).
Qed.

Lemma faceboookReason_text :
  Str.includes faceboookReason "faceboook.com" = true
  /\ Str.includes faceboookReason "facebook.com" = true
  /\ Str.includes faceboookReason
       ("distance " ++ Num.toFixed2 (normalizedDistance "faceboook" "facebook"))
     = true
  /\ Num.toFixed2 (normalizedDistance "faceboook" "facebook") = "0.11".
Proof. vm_compute. auto. Qed.

Section Typosquat.

Context {url_api : UrlApi}.

(** C6, amended. For every payload whose page hostname is faceboook.com,
    with the trusted set of facebook.com and tiktok.com (inserted in either
    order), [assess] returns a suspicious result with a score of at least
    0.75, and its reasons contain the typosquat reason, which names
    faceboook.com and facebook.com and prints the normalized distance of the
    two labels, one ninth, as 0.11. *)
Theorem faceboook_is_typosquat data trusted r :
  trusted = defaultTrusted \/ trusted = rev defaultTrusted ->
  pageHostnameOf data = "faceboook.com" ->
  assess data trusted = Normal r ->
  suspicious r = true
  /\ (0.75 <= score r)%Q
  /\ In faceboookReason (reasons r)
  /\ Str.includes faceboookReason "faceboook.com" = true
  /\ Str.includes faceboookReason "facebook.com" = true
  /\ Str.includes faceboookReason
       ("distance " ++ Num.toFixed2 (normalizedDistance "faceboook" "facebook"))
     = true
  /\ Num.toFixed2 (normalizedDistance "faceboook" "facebook") = "0.11".
Proof.
  intros Ht Hh H. apply analyzeProfileCore_normal in H.
  destruct H as (d & st & Hd & Hc & ->). injection Hd as <-. cbv zeta.
  cbn [suspicious score reasons].
  pose proof (checks_extends _ _ _ _ Hc) as He. cbv zeta in He.
  rewrite Hh, (faceboook_not_trusted _ Ht) in He |- *.
  specialize (He eq_refl). cbn [trustDampening andb].
  destruct (typosquatCheck_faceboook _ Ht) as (H1 & H2 & H3).
  destruct (flagged_state_result _ _ 0.75%Q _ ltac:(lra) H1 H2 H3 He)
    as (R1 & R2 & R3).
  split; [exact R1|]. split; [exact R2|]. split; [exact R3|].
  exact faceboookReason_text.
Qed.

End Typosquat.

(** C6 at the payload [{ hostname: "faceboook.com" }]. *)
Lemma faceboook_is_typosquat_witness :
  exists r,
    assess (url_api := refUrlApi) (dataOfHostname "faceboook.com") defaultTrusted
    = Normal r
    /\ suspicious r = true /\ (0.75 <= score r)%Q /\ In faceboookReason (reasons r).
Proof.
  assert (Hh : pageHostnameOf (url_api := refUrlApi) (dataOfHostname "faceboook.com")
               = "faceboook.com") by (vm_compute; reflexivity).
  assert (Hr : { r | assess (url_api := refUrlApi) (dataOfHostname "faceboook.com")
                       defaultTrusted = Normal r })
    by (eexists; vm_compute; reflexivity).
  destruct Hr as [r Hr]. exists r. split; [exact Hr|].
  destruct (faceboook_is_typosquat (url_api := refUrlApi) _ _ r
              (or_introl eq_refl) Hh Hr)
    as (H1 & H2 & H3 & _).
  auto.
Defined.

(** C6 as stated fails: at the payload [{ hostname: "faceboook.com" }] the
    result has no reason that names both domains and a distance of 0.22;
    the distance of the two labels is one ninth, and of the two registered
    domains one thirteenth. *)
Lemma faceboook_distance_is_not_022 :
  exists r,
    assess (url_api := refUrlApi) (dataOfHostname "faceboook.com") defaultTrusted
    = Normal r
    /\ (~ exists s, In s (reasons r)
                    /\ Str.includes s "faceboook.com" = true
                    /\ Str.includes s "facebook.com" = true
                    /\ Str.includes s "0.22" = true)
    /\ (normalizedDistance "faceboook" "facebook" == 1 # 9)%Q
    /\ (normalizedDistance "faceboook.com" "facebook.com" == 1 # 13)%Q.
Proof.
  eexists. split; [vm_compute; reflexivity|].
  split; [|split; vm_compute; reflexivity].
  intros (s & Hin & _ & _ & H22).
  cbn [reasons] in Hin.
  repeat (destruct Hin as [<- | Hin]; [vm_compute in H22; discriminate|]).
  exact Hin.
Qed.

(** ** Link aggregation *)

Lemma min_compat (c a b : Q) : (a == b)%Q -> (Num.min c a == Num.min c b)%Q.
Proof.
  intros Hab. unfold Num.min.
  destruct (Num.leb c a) eqn:Ea, (Num.leb c b) eqn:Eb;
    try reflexivity; try assumption.
  - apply leb_le in Ea. apply leb_gt in Eb. lra.
  - apply leb_gt in Ea. apply leb_le in Eb. lra.
Qed.

Lemma leb_compat (x a b : Q) : (a == b)%Q -> Num.leb x a = Num.leb x b.
Proof.
  intros Hab.
  destruct (Num.leb x a) eqn:Ea, (Num.leb x b) eqn:Eb; try reflexivity.
  - apply leb_le in Ea. apply leb_gt in Eb. lra.
  - apply leb_gt in Ea. apply leb_le in Eb. lra.
Qed.

Section LinkAggregation.

Context {url_api : UrlApi}.

(** What a call appends does not depend on the reasons already there. *)
Lemma linkIsSuspicious_split L h rs :
  linkIsSuspicious L h rs = (linkRisk h L, (rs ++ linkReasons h L)%list).
Proof.
  unfold linkRisk, linkReasons, linkIsSuspicious, push.
  repeat match goal with
         | |- context [match ?o with Some _ => _ | None => _ end] => destruct o
         | |- context [if ?b then _ else _] => destruct b
         end;
    cbn [fst snd app]; try reflexivity.
  now rewrite app_nil_r.
Qed.

Lemma linkRisk_range h L : (0 <= linkRisk h L <= 0.20)%Q.
Proof.
  pose proof (linkIsSuspicious_spec L h []) as H.
  unfold linkRisk. destruct (linkIsSuspicious L h []) as [x rs]. now destruct H.
Qed.

Lemma link_fold_split h ls acc rs :
  exists sum,
    fold_left
      (fun acc L =>
         let '(linkRiskSum, reasons) := acc in
         let '(linkScore, reasons0) := linkIsSuspicious L h reasons in
         ((linkRiskSum + linkScore)%Q, reasons0))
      ls (acc, rs)
    = (sum, (rs ++ flat_map (linkReasons h) ls)%list)
    /\ (sum == acc + sumQ (map (linkRisk h) ls))%Q.
Proof.
  revert acc rs. induction ls as [|L ls IH]; intros acc rs; simpl.
  - exists acc. split; [now rewrite app_nil_r | lra].
  - rewrite linkIsSuspicious_split.
    destruct (IH (acc + linkRisk h L)%Q (rs ++ linkReasons h L)%list)
      as (sum & -> & Hsum).
    exists sum. split; [now rewrite app_assoc | lra].
Qed.

Lemma linkLoop_split h links rs :
  exists sum,
    linkLoop h links rs
    = (sum, (rs ++ flat_map (linkReasons h) (firstn 40 links))%list)
    /\ (sum == sumQ (map (linkRisk h) (firstn 40 links)))%Q.
Proof.
  unfold linkLoop.
  destruct (link_fold_split h (firstn 40 links) 0%Q rs) as (sum & Hf & Hs).
  exists sum. split; [exact Hf | lra].
Qed.

(** [linksCheck] against the aggregation as the specification words it. *)
Lemma linksCheck_contribution trustedExact pageHostname links st :
  links <> [] ->
  let st' := linksCheck trustedExact pageHostname (IsArray links) st in
  let c := linkContributionSpec trustedExact pageHostname links in
  (St.score st' == St.score st + c)%Q
  /\ St.suspicious st' = (if Num.leb 0.3%Q c then true else St.suspicious st)
  /\ St.reasons st'
     = (St.reasons st ++ flat_map (linkReasons pageHostname) (firstn 40 links))%list.
Proof.
  intros Hne st' c. subst st' c. unfold linksCheck, linkContributionSpec.
  destruct links as [|L ls]; [congruence|].
  destruct (linkLoop_split pageHostname (L :: ls) (St.reasons st))
    as (sum & -> & Hsum).
  cbn [St.score St.suspicious St.reasons].
  change (Nat.max 1 (List.length (L :: ls))) with (List.length (L :: ls)).
  set (n := inject_Z (Z.of_nat (List.length (L :: ls)))).
  set (ceiling := if trustedExact then 0.15%Q else 0.40%Q).
  set (sum' := sumQ (map (linkRisk pageHostname) (firstn 40 (L :: ls)))) in *.
  fold (Num.leb ceiling (sum' / n)). fold (Num.min ceiling (sum' / n)).
  assert (Hc : (Num.min ceiling (sum / n) == Num.min ceiling (sum' / n))%Q).
  { apply min_compat. now rewrite Hsum. }
  rewrite (leb_compat _ _ _ Hc).
  split; [now rewrite Hc|]. split; reflexivity.
Qed.

End LinkAggregation.

(** ** Links beyond the fortieth *)

Lemma min_compat_l (a b c : Q) : (a == b)%Q -> (Num.min a c == Num.min b c)%Q.
Proof.
  intros Hab. unfold Num.min.
  destruct (Num.leb a c) eqn:Ea, (Num.leb b c) eqn:Eb;
    try reflexivity; try assumption.
  - apply leb_le in Ea. apply leb_gt in Eb. lra.
  - apply leb_gt in Ea. apply leb_le in Eb. lra.
Qed.

Lemma max_compat (c a b : Q) : (a == b)%Q -> (Num.max c a == Num.max c b)%Q.
Proof.
  intros Hab. unfold Num.max.
  destruct (Num.leb c a) eqn:Ea, (Num.leb c b) eqn:Eb;
    try reflexivity; try assumption.
  - apply leb_le in Ea. apply leb_gt in Eb. lra.
  - apply leb_gt in Ea. apply leb_le in Eb. lra.
Qed.

Lemma agree_refl b st : agree b st st.
Proof. repeat split; reflexivity. Qed.

Lemma agree_fold_left {A : Type} b (f : St.t -> A -> St.t) :
  (forall a st st', agree b st st' -> agree b (f st a) (f st' a)) ->
  forall l st st', agree b st st' -> agree b (fold_left f l st) (fold_left f l st').
Proof.
  intros Hf l. induction l as [|a l IH]; intros st st' H; simpl; auto.
Qed.

(** The same update on two states that agree: same reason pushed, same
    amount added, flag set or kept. *)
Lemma agree_update b st st' r k (raise : bool) :
  agree b st st' ->
  agree b
    (St.make (push (St.reasons st) r) (St.score st + k)%Q
       (if raise then true else St.suspicious st))
    (St.make (push (St.reasons st') r) (St.score st' + k)%Q
       (if raise then true else St.suspicious st')).
Proof.
  intros (Hr & Hf & Hs). repeat split; cbn [St.reasons St.score St.suspicious].
  - now rewrite Hr.
  - now rewrite Hf.
  - intros Hb. rewrite (Hs Hb). reflexivity.
Qed.

Lemma textCheck_agree b te text st st' :
  agree b st st' -> agree b (textCheck te text st) (textCheck te text st').
Proof.
  intros H. unfold textCheck. destruct (negb (Str.isEmpty text)); [|exact H].
  apply agree_fold_left; [|exact H]. intros f s s' Hs.
  destruct (Str.includes (Str.toLowerCase text) f); [|exact Hs].
  apply (agree_update b s s' _ _ true Hs).
Qed.

Lemma hostnameChecks_agree b h st st' :
  agree b st st' -> agree b (hostnameChecks h st) (hostnameChecks h st').
Proof.
  intros H. unfold hostnameChecks.
  assert (H1 : agree b
                 (if isPunycode h
                  then St.make (push (St.reasons st) "Page hostname uses punycode")
                         (St.score st + 0.40)%Q true
                  else st)
                 (if isPunycode h
                  then St.make (push (St.reasons st') "Page hostname uses punycode")
                         (St.score st' + 0.40)%Q true
                  else st')).
  { destruct (isPunycode h); [|exact H]. apply (agree_update b st st' _ _ true H). }
  destruct (isIpAddress h); [|exact H1].
  apply (agree_update b _ _ _ _ true H1).
Qed.

Section Truncation.

Context {url_api : UrlApi}.

Lemma canonicalCheck_agree b te h og can st st' :
  agree b st st' ->
  agree b (canonicalCheck te h og can st) (canonicalCheck te h og can st').
Proof.
  intros H. unfold canonicalCheck.
  destruct (negb (Str.isEmpty (orElse og can))); [|exact H].
  destruct (negb (Str.isEmpty (safeGetHostname (orElse og can)))
            && negb (Str.isEmpty h)); [|exact H].
  destruct (Num.ltb 0.35 _).
  - apply (agree_update b st st' _ _ true H).
  - destruct (negb te); [|exact H].
    destruct H as (Hr & Hf & Hs).
    repeat split; cbn [St.reasons St.score St.suspicious]; auto.
    now rewrite Hr.
Qed.

End Truncation.

Lemma trustDampening_agree b te st st' :
  agree b st st' -> agree b (trustDampening te st) (trustDampening te st').
Proof.
  intros H. unfold trustDampening. destruct H as (Hr & Hf & Hs). rewrite Hf.
  destruct (te && negb (St.suspicious st')).
  - repeat split; cbn [St.reasons St.score St.suspicious]; auto.
    + now rewrite Hr.
    + intros Hb. apply min_compat_l. auto.
  - repeat split; auto.
Qed.

Lemma finalDecision_agree st st' :
  agree true st st' -> agree true (finalDecision st) (finalDecision st').
Proof.
  intros (Hr & Hf & Hs). specialize (Hs eq_refl).
  assert (Hc : (Num.max 0 (Num.min 1 (St.score st))
                == Num.max 0 (Num.min 1 (St.score st')))%Q).
  { apply max_compat. now apply min_compat. }
  unfold finalDecision. repeat split; cbn [St.reasons St.score St.suspicious]; auto.
  now rewrite Hf, (leb_compat _ _ _ Hc).
Qed.

Lemma finalDecision_reasons b st st' :
  agree b st st' -> St.reasons (finalDecision st) = St.reasons (finalDecision st').
Proof. now intros (Hr & _). Qed.

Section TruncatedLinks.

Context {url_api : UrlApi}.

Lemma sum_risk_bound h ls :
  (0 <= sumQ (map (linkRisk h) ls)
   <= 0.20 * inject_Z (Z.of_nat (List.length ls)))%Q.
Proof.
  induction ls as [|L ls IH].
  - cbn [map sumQ fold_right List.length Z.of_nat].
    change (inject_Z 0) with 0%Q. lra.
  - cbn [map sumQ fold_right List.length]. fold (sumQ (map (linkRisk h) ls)).
    pose proof (linkRisk_range h L) as HL.
    rewrite Nat2Z.inj_succ, <- Z.add_1_r, inject_Z_plus.
    change (inject_Z 1) with 1%Q. lra.
Qed.

(** The clamped mean is never above 0.20, the largest risk of one link: the
    test against 0.3 in [linksCheck] never succeeds. *)
Lemma linkContributionSpec_range te h links :
  links <> [] -> (0 <= linkContributionSpec te h links <= 0.20)%Q.
Proof.
  intros Hne. unfold linkContributionSpec.
  set (n := inject_Z (Z.of_nat (List.length links))).
  set (sum := sumQ (map (linkRisk h) (firstn 40 links))).
  assert (Hn : (1 <= n)%Q).
  { unfold n. change 1%Q with (inject_Z 1). rewrite <- Zle_Qle.
    destruct links; [congruence | simpl; lia]. }
  pose proof (sum_risk_bound h (firstn 40 links)) as [H0 H1]. fold sum in H0, H1.
  assert (Hlen : (inject_Z (Z.of_nat (List.length (firstn 40 links))) <= n)%Q).
  { unfold n. rewrite <- Zle_Qle. apply Nat2Z.inj_le.
    rewrite length_firstn. lia. }
  assert (Hm : (0 <= sum / n <= 0.20)%Q).
  { split.
    - apply Qle_shift_div_l; lra.
    - apply Qle_shift_div_r; lra. }
  destruct (Qle_bool _ _) eqn:E.
  - apply Qle_bool_iff in E. destruct te; lra.
  - exact Hm.
Qed.

Lemma linkContributionSpec_zero te h links :
  links <> [] ->
  (sumQ (map (linkRisk h) (firstn 40 links)) == 0)%Q ->
  (linkContributionSpec te h links == 0)%Q.
Proof.
  intros Hne Hz. unfold linkContributionSpec.
  set (n := inject_Z (Z.of_nat (List.length links))).
  assert (Hm : (sumQ (map (linkRisk h) (firstn 40 links)) / n == 0)%Q).
  { rewrite Hz. unfold Qdiv. lra. }
  destruct (Qle_bool _ _) eqn:E; [|exact Hm].
  apply Qle_bool_iff in E. rewrite Hm in E. destruct te; lra.
Qed.

(** On more than 40 links [linksCheck] leaves the same reasons and the same
    flag as on the first 40 alone, and the same score when these carry no
    risk. *)
Lemma linksCheck_truncation b te h links st :
  (40 < List.length links)%nat ->
  (b = true -> (sumQ (map (linkRisk h) (firstn 40 links)) == 0)%Q) ->
  agree b (linksCheck te h (IsArray links) st)
    (linksCheck te h (IsArray (firstn 40 links)) st).
Proof.
  intros Hlen Hz.
  assert (Hne : links <> []) by (destruct links; [simpl in Hlen; lia | congruence]).
  assert (Hne' : firstn 40 links <> []).
  { intros E. apply (f_equal (@List.length _)) in E.
    rewrite firstn_length_le in E by lia. discriminate. }
  destruct (linksCheck_contribution te h links st Hne) as (Hs & Hf & Hr).
  destruct (linksCheck_contribution te h (firstn 40 links) st Hne') as (Hs' & Hf' & Hr').
  pose proof (linkContributionSpec_range te h links Hne) as Hc.
  pose proof (linkContributionSpec_range te h (firstn 40 links) Hne') as Hc'.
  assert (E : Num.leb 0.3 (linkContributionSpec te h links) = false)
    by (apply leb_gt; lra).
  assert (E' : Num.leb 0.3 (linkContributionSpec te h (firstn 40 links)) = false)
    by (apply leb_gt; lra).
  rewrite E in Hf. rewrite E' in Hf'.
  rewrite firstn_firstn in Hr'. change (Nat.min 40 40) with 40%nat in Hr'.
  repeat split.
  - now rewrite Hr, Hr'.
  - now rewrite Hf, Hf'.
  - intros Hb. specialize (Hz Hb). rewrite Hs, Hs'.
    rewrite (linkContributionSpec_zero te h links Hne Hz).
    rewrite (linkContributionSpec_zero te h (firstn 40 links) Hne').
    + reflexivity.
    + rewrite firstn_firstn. exact Hz.
Qed.

(** The two runs of [checks] on payloads that differ in [links] only. *)
Lemma checks_truncation b G T d links st45 st40 :
  (40 < List.length links)%nat ->
  (b = true ->
   (sumQ (map (linkRisk (pageHostnameOf d)) (firstn 40 links)) == 0)%Q) ->
  checks G (withLinks d (IsArray links)) T = Normal st45 ->
  checks G (withLinks d (IsArray (firstn 40 links))) T = Normal st40 ->
  agree b st45 st40.
Proof.
  intros Hlen Hz H45 H40. unfold checks, bind in H45, H40.
  change (pageHostnameOf (withLinks d (IsArray links)))
    with (pageHostnameOf d) in H45.
  change (pageHostnameOf (withLinks d (IsArray (firstn 40 links))))
    with (pageHostnameOf d) in H40.
  cbn [withLinks Data.url Data.pageUrl Data.origin Data.links Data.linkList
       Data.forms Data.formList Data.textSample Data.ogUrl Data.canonical
       arrayOr] in H45, H40.
  destruct (formsCheck _ _ _ _) as [stf|]; [|discriminate].
  injection H45 as <-. injection H40 as <-.
  apply canonicalCheck_agree, hostnameChecks_agree, textCheck_agree.
  now apply linksCheck_truncation.
Qed.

(** C3, amended. For a payload with 45 links, against the same payload with
    its first 40 links only: the two results have the same reasons and the
    same details apart from [linksCount], which is the number of links
    supplied (45 against 40); and they have the same score and the same
    flag when the first 40 links carry no risk. (The mean is taken over the
    number of links supplied, so a risk among the first 40 weighs less in
    the longer list.) *)
Theorem links_beyond_forty data links trustedDomains r45 r40 :
  List.length links = 45%nat ->
  assess (withLinks data (IsArray links)) trustedDomains = Normal r45 ->
  assess (withLinks data (IsArray (firstn 40 links))) trustedDomains = Normal r40 ->
  reasons r45 = reasons r40
  /\ ((sumQ (map (linkRisk (pageHostnameOf data)) (firstn 40 links)) == 0)%Q ->
      (score r45 == score r40)%Q /\ suspicious r45 = suspicious r40)
  /\ Details.linksCount (details r45) = Some 45%nat
  /\ Details.linksCount (details r40) = Some 40%nat
  /\ Details.username (details r45) = Details.username (details r40)
  /\ Details.displayName (details r45) = Details.displayName (details r40)
  /\ Details.isVerified (details r45) = Details.isVerified (details r40)
  /\ Details.isBrand (details r45) = Details.isBrand (details r40)
  /\ Details.pageHostname (details r45) = Details.pageHostname (details r40)
  /\ Details.url (details r45) = Details.url (details r40)
  /\ Details.formsCount (details r45) = Details.formsCount (details r40).
Proof.
  intros Hlen H45 H40.
  assert (Hgt : (40 < List.length links)%nat) by lia.
  remember (firstn 40 links) as l40 eqn:E40.
  assert (Hl40 : List.length l40 = 40%nat)
    by (subst l40; rewrite length_firstn; lia).
  apply analyzeProfileCore_normal in H45, H40.
  destruct H45 as (d45 & st45 & Hd45 & Hc45 & ->).
  destruct H40 as (d40 & st40 & Hd40 & Hc40 & ->).
  injection Hd45 as <-. injection Hd40 as <-. cbv zeta.
  change (pageHostnameOf (withLinks data (IsArray links)))
    with (pageHostnameOf data).
  change (pageHostnameOf (withLinks data (IsArray l40)))
    with (pageHostnameOf data).
  cbn [reasons score suspicious details].
  split; [|split].
  - eapply finalDecision_reasons, trustDampening_agree. subst l40.
    apply (checks_truncation false _ _ _ _ _ _ Hgt ltac:(discriminate) Hc45 Hc40).
  - intros Hz.
    assert (Ha : agree true st45 st40).
    { subst l40.
      apply (checks_truncation true _ _ _ _ _ _ Hgt (fun _ => Hz) Hc45 Hc40). }
    apply (trustDampening_agree true
             (hostIsTrustedExact trustedDomains (pageHostnameOf data))) in Ha.
    apply finalDecision_agree in Ha. destruct Ha as (_ & Hf & Hs).
    split; [exact (Hs eq_refl) | exact Hf].
  - unfold detailsOf.
    cbn [withLinks Data.links Data.linkList arrayOr lengthOf Details.linksCount].
    rewrite Hlen, Hl40.
    repeat split; reflexivity.
Qed.

End TruncatedLinks.

(** C3 at the page https://example.org/ with forty riskless links and five
    raw IP addresses. *)
Lemma links_beyond_forty_witness :
  exists r45 r40,
    assess (url_api := refUrlApi)
      (withLinks (dataOfUrl "https://example.org/") (IsArray links45))
      defaultTrusted = Normal r45
    /\ assess (url_api := refUrlApi)
         (withLinks (dataOfUrl "https://example.org/") (IsArray (firstn 40 links45)))
         defaultTrusted = Normal r40
    /\ reasons r45 = reasons r40
    /\ (score r45 == score r40)%Q
    /\ suspicious r45 = suspicious r40
    /\ Details.linksCount (details r45) = Some 45%nat
    /\ Details.linksCount (details r40) = Some 40%nat.
Proof.
  assert (H45 : { r | assess (url_api := refUrlApi)
                        (withLinks (dataOfUrl "https://example.org/") (IsArray links45))
                        defaultTrusted = Normal r })
    by (eexists; vm_compute; reflexivity).
  assert (H40 : { r | assess (url_api := refUrlApi)
                        (withLinks (dataOfUrl "https://example.org/")
                           (IsArray (firstn 40 links45)))
                        defaultTrusted = Normal r })
    by (eexists; vm_compute; reflexivity).
  assert (Hlen : List.length links45 = 45%nat) by (vm_compute; reflexivity).
  assert (Hz : (sumQ (map (linkRisk (url_api := refUrlApi)
                             (pageHostnameOf (url_api := refUrlApi)
                                (dataOfUrl "https://example.org/")))
                        (firstn 40 links45)) == 0)%Q)
    by (vm_compute; reflexivity).
  destruct H45 as [r45 H45], H40 as [r40 H40]. exists r45, r40.
  destruct (links_beyond_forty (url_api := refUrlApi) _ _ _ _ _ Hlen H45 H40)
    as (Hr & Hs & Hc45 & Hc40 & _).
  destruct (Hs Hz) as [Hsc Hfl].
  repeat split; assumption.
Defined.

(** C3 as stated fails. With forty riskless links and five raw IP addresses
    the two results differ (in [linksCount], 45 against 40); with forty links
    to a login path, which score 0.10 each, and the same five addresses,
    which score 0.20 each, the two scores differ as well (0.25 + 4/45
    against 0.25 + 4/40). *)
Lemma truncated_links_results_differ :
  (exists r45 r40,
      assess (url_api := refUrlApi)
        (withLinks (dataOfUrl "https://example.org/") (IsArray links45))
        defaultTrusted = Normal r45
      /\ assess (url_api := refUrlApi)
           (withLinks (dataOfUrl "https://example.org/") (IsArray (firstn 40 links45)))
           defaultTrusted = Normal r40
      /\ r45 <> r40)
  /\ (exists r45 r40,
         assess (url_api := refUrlApi)
           (withLinks (dataOfUrl "https://example.org/") (IsArray links45Login))
           defaultTrusted = Normal r45
         /\ assess (url_api := refUrlApi)
              (withLinks (dataOfUrl "https://example.org/")
                 (IsArray (firstn 40 links45Login)))
              defaultTrusted = Normal r40
         /\ (score r45 == 0.25 + (4 # 45))%Q
         /\ (score r40 == 0.25 + (4 # 40))%Q
         /\ ~ (score r45 == score r40)%Q).
Proof.
  split.
  - eexists. eexists. split; [vm_compute; reflexivity|].
    split; [vm_compute; reflexivity|].
    intros E. apply (f_equal (fun r => Details.linksCount (details r))) in E.
    vm_compute in E. discriminate.
  - eexists. eexists. split; [vm_compute; reflexivity|].
    split; [vm_compute; reflexivity|].
    split; [vm_compute; reflexivity|]. split; [vm_compute; reflexivity|].
    vm_compute. discriminate.
Qed.

(** ** The fallback of [safeGetHostname] *)

Section HostnameFallback.

Context {url_api : UrlApi}.

(** C5, amended. For every non-empty input that is given to the URL parser
    (it starts with http:// or https://, or it is no bare host name) and on
    which parsing fails, [safeGetHostname] returns the text that was parsed,
    in lower case and in full: the input itself when it starts with http://
    or https://, the input after https:// otherwise. It is not cut at a
    slash. For the empty input it returns the empty string. *)
Theorem safeGetHostname_fallback :
  safeGetHostname EmptyString = EmptyString
  /\ forall urlOrHost,
       urlOrHost <> EmptyString ->
       hasHttpScheme urlOrHost = true \/ isBareHost urlOrHost = false ->
       new_URL (parsedText urlOrHost) None = None ->
       safeGetHostname urlOrHost = Str.toLowerCase (parsedText urlOrHost).
Proof.
  split; [reflexivity|].
  intros s Hne Hparsed Hfail. unfold safeGetHostname, parsedText in *.
  destruct s as [|c s]; [congruence|]. cbn [Str.isEmpty].
  destruct (hasHttpScheme (String c s)) eqn:Es; cbn [negb].
  - now rewrite Hfail.
  - destruct Hparsed as [H|H]; [discriminate|]. now rewrite H, Hfail.
Qed.

End HostnameFallback.

(** C5 at the input http://a b/c, whose host has a space. *)
Lemma safeGetHostname_fallback_witness :
  safeGetHostname (url_api := refUrlApi) "http://a b/c" = "http://a b/c".
Proof.
  destruct (safeGetHostname_fallback (url_api := refUrlApi)) as [_ H].
  apply (H "http://a b/c").
  - discriminate.
  - left. vm_compute. reflexivity.
  - vm_compute. reflexivity.
Defined.

(** C5 as stated fails: the parser rejects http://a b/c and https://a b/c
    (a space in the host); for the first [safeGetHostname] returns the whole
    input where the input up to its first slash is http:, and for a b/c it
    returns https://a b/c where the input up to its first slash is a b. *)
Lemma safeGetHostname_fallback_not_truncated :
  new_URL (UrlApi := refUrlApi) "http://a b/c" None = None
  /\ safeGetHostname (url_api := refUrlApi) "http://a b/c" = "http://a b/c"
  /\ lowerUpToSlash "http://a b/c" = "http:"
  /\ new_URL (UrlApi := refUrlApi) "https://a b/c" None = None
  /\ safeGetHostname (url_api := refUrlApi) "a b/c" = "https://a b/c"
  /\ lowerUpToSlash "a b/c" = "a b"
  /\ safeGetHostname (url_api := refUrlApi) "a b/c" <> lowerUpToSlash "a b/c".
Proof.
  repeat split; try (vm_compute; reflexivity).
  vm_compute. discriminate.
Qed.

(** ** The two hostname checks *)

Lemma prefix_head c t a s :
  String.prefix (String c t) (String a s) = true -> a = c.
Proof.
  cbn [String.prefix]. destruct (ascii_dec c a); [auto | discriminate].
Qed.

(** A string that contains [sub] contains the first character of [sub]. *)
Lemma includes_head (p : ascii -> bool) c t s :
  Str.forallb p s = true -> p c = false -> Str.includes s (String c t) = false.
Proof.
  intros Hs Hc. induction s as [|a s IH].
  - reflexivity.
  - cbn [Str.forallb] in Hs. apply andb_true_iff in Hs as [Ha Hs].
    cbn [Str.includes]. rewrite (IH Hs), orb_false_r.
    destruct (String.prefix (String c t) (String a s)) eqn:E; [|reflexivity].
    apply prefix_head in E. congruence.
Qed.

Lemma split_nonempty sep s : Str.split sep s <> [].
Proof.
  destruct s as [|c s]; cbn [Str.split]; [discriminate|].
  destruct (Ascii.eqb c sep); [discriminate|].
  destruct (Str.split sep s); discriminate.
Qed.

(** The characters of a string are those of its segments and the
    separator. *)
Lemma split_forallb (p : ascii -> bool) sep s :
  List.forallb (Str.forallb p) (Str.split sep s) = true ->
  Str.forallb (fun c => p c || Ascii.eqb c sep) s = true.
Proof.
  induction s as [|c s IH]; [reflexivity|].
  cbn [Str.split Str.forallb]. destruct (Ascii.eqb c sep) eqn:E.
  - cbn [List.forallb Str.forallb andb]. intros H.
    now rewrite orb_true_r, (IH H).
  - pose proof (split_nonempty sep s) as Hne.
    destruct (Str.split sep s) as [|g gs]; [congruence|].
    cbn [List.forallb Str.forallb] in *. intros H.
    apply andb_true_iff in H as [H Hgs]. apply andb_true_iff in H as [Hc Hg].
    rewrite Hc. cbn [orb andb]. apply IH. now rewrite Hg, Hgs.
Qed.

Lemma isDigits13_digits s : isDigits13 s = true -> Str.forallb Str.isDigit s = true.
Proof.
  unfold isDigits13. intros H. now apply andb_true_iff in H as [_ H].
Qed.

(** A dotted quad is made of digits and dots. *)
Lemma isIpAddress_chars h :
  isIpAddress h = true ->
  Str.forallb (fun c => Str.isDigit c || Ascii.eqb c "."%char) h = true.
Proof.
  unfold isIpAddress. intros H. apply andb_true_iff in H as [_ H].
  apply split_forallb. rewrite forallb_forall in *. intros g Hg.
  apply isDigits13_digits. auto.
Qed.

Lemma punycode_excludes_ip h : isPunycode h && isIpAddress h = false.
Proof.
  destruct (isIpAddress h) eqn:E; [|apply andb_false_r].
  rewrite andb_true_r. unfold isPunycode.
  apply (includes_head _ _ _ _ (isIpAddress_chars h E)). reflexivity.
Qed.

(** C9, amended. The punycode test and the IP-address test of the page
    hostname are two separate tests, each of which appends its reason, adds
    0.40 to the score and sets the flag when it succeeds; but no hostname
    passes both (a dotted quad has digits and dots only), so at most one of
    them fires in a call. *)
Theorem hostname_checks_exclusive h st :
  hostnameChecks h st
  = (if isPunycode h then
       St.make (push (St.reasons st) "Page hostname uses punycode")
         (St.score st + 0.40)%Q true
     else if isIpAddress h then
       St.make (push (St.reasons st) "Page served from IP address")
         (St.score st + 0.40)%Q true
     else st)
  /\ isPunycode h && isIpAddress h = false.
Proof.
  pose proof (punycode_excludes_ip h) as Hx. split; [|exact Hx].
  unfold hostnameChecks. destruct (isPunycode h); [|reflexivity].
  cbn [andb] in Hx. now rewrite Hx.
Qed.

(** C9 as stated fails: there is no hostname for which both checks fire.
    A dotted quad is no punycode name, and a punycode name is no dotted
    quad. *)
Lemma no_hostname_fires_both :
  (~ exists h, isPunycode h = true /\ isIpAddress h = true)
  /\ isIpAddress "192.168.0.1" = true
  /\ isPunycode "192.168.0.1" = false
  /\ isPunycode "xn--80ak6aa92e.com" = true
  /\ isIpAddress "xn--80ak6aa92e.com" = false.
Proof.
  split; [|repeat split; reflexivity].
  intros (h & Hp & Hi). pose proof (punycode_excludes_ip h) as Hx.
  rewrite Hp, Hi in Hx. discriminate.
Qed.

(** ** Credential forms *)

Lemma join_split s : Str.join "." (Str.split "."%char s) = s.
Proof.
  unfold Str.join. induction s as [|c s IH]; [reflexivity|].
  cbn [Str.split]. pose proof (split_nonempty "."%char s) as Hne.
  destruct (Ascii.eqb c "."%char) eqn:E.
  - apply Ascii.eqb_eq in E. subst c.
    destruct (Str.split "."%char s) as [|g gs]; [congruence|].
    cbn [String.concat] in *. now rewrite <- IH.
  - destruct (Str.split "."%char s) as [|g gs]; [congruence|].
    cbn [String.concat] in *. destruct gs; now rewrite <- IH.
Qed.

(** On a hostname without an empty label (no leading, trailing or doubled
    dot) the last two segments are the registered domain. *)
Lemma lastTwoSegments_registered h :
  getLabels h = Str.split "."%char h ->
  lastTwoSegments h = getRegisteredDomain h.
Proof.
  intros H. unfold lastTwoSegments, getRegisteredDomain. rewrite H.
  destruct (2 <=? List.length (Str.split "."%char h))%nat eqn:E; [reflexivity|].
  apply Nat.leb_gt in E. pose proof (join_split h) as J.
  pose proof (split_nonempty "."%char h) as Hne.
  destruct (Str.split "."%char h) as [|g [|g' gs]];
    [congruence | exact J | simpl in E; lia].
Qed.

(** With an empty label they differ. *)
Example lastTwoSegments_trailing_dot :
  lastTwoSegments "example.com." = "com."
  /\ getRegisteredDomain "example.com." = "example.com".
Proof. split; reflexivity. Qed.

Section CredentialForms.

Context {url_api : UrlApi}.

(** A credential form that posts elsewhere, at its step: on a page whose
    hostname has no empty label, with the registered domain as
    [getRegisteredDomain] computes it. *)
Lemma credential_form_registered_domain trustedExact pageHostname st f :
  getLabels pageHostname = Str.split "."%char pageHostname ->
  Form.hasPassword f = true ->
  Form.action f <> EmptyString ->
  safeGetHostname (Form.action f) <> EmptyString ->
  safeGetHostname (Form.action f) <> pageHostname ->
  Str.includes (safeGetHostname (Form.action f)) (getRegisteredDomain pageHostname)
  = false ->
  St.score (formCheck trustedExact pageHostname st (Some f))
  = (St.score st + 0.40)%Q
  /\ St.suspicious (formCheck trustedExact pageHostname st (Some f)) = true.
Proof.
  intros Hl Hp Ha Hh Hd Hi. rewrite <- (lastTwoSegments_registered _ Hl) in Hi.
  unfold formCheck. rewrite Hp.
  destruct (Form.action f) as [|c a] eqn:Ea; [congruence|].
  cbn [Str.isEmpty negb andb].
  destruct (safeGetHostname (String c a)) as [|c' a'] eqn:Eh; [congruence|].
  cbn [Str.isEmpty negb andb]. rewrite Hi.
  apply String.eqb_neq in Hd. rewrite Hd. split; reflexivity.
Qed.

End CredentialForms.

(** ** Completion of the core *)

Section Completion.

Context {url_api : UrlApi}.

(** The core returns when [data] can be read and the forms, after the
    fallback to [formList], are an array. *)
Lemma analyzeProfileCore_returns G T arg data fs :
  readData arg = Normal data ->
  arrayOr (Data.forms data) (Data.formList data) = IsArray fs ->
  exists r,
    analyzeProfileCore G arg T = Normal r
    /\ (0 <= score r <= 1)%Q
    /\ Details.formsCount (details r) = Some (List.length fs).
Proof.
  intros Ha Hf. unfold analyzeProfileCore, bind. rewrite Ha.
  unfold checks, bind, formsCheck. rewrite Hf.
  eexists. split; [reflexivity|]. cbn [score details]. split.
  - apply finalDecision_score_range.
  - unfold detailsOf. cbn [Details.formsCount]. now rewrite Hf.
Qed.

End Completion.

(** ** The flag on an exactly trusted page *)

Section TrustedFlag.

Context {url_api : UrlApi}.

Lemma formCheck_flag te h st f :
  St.suspicious (formCheck te h st f) = St.suspicious st || formFires h f.
Proof.
  unfold formCheck, formFires. destruct f as [f|]; cbn [St.suspicious].
  - destruct (Form.hasPassword f && negb (Str.isEmpty (Form.action f))) eqn:E1.
    + cbn [andb]. cbv zeta.
      destruct (negb (Str.isEmpty (safeGetHostname (Form.action f)))
                && negb (String.eqb (safeGetHostname (Form.action f)) h)
                && negb (Str.includes (safeGetHostname (Form.action f))
                           (lastTwoSegments h))); cbn [St.suspicious].
      * now rewrite orb_true_r.
      * now rewrite orb_false_r.
    + cbn [andb]. rewrite orb_false_r.
      now destruct ((0 <? Form.inputCount f)%Z && negb (Form.hasPassword f)
                    && negb (Str.isEmpty (Form.action f))).
  - now rewrite orb_false_r.
Qed.

Lemma formsFold_flag te h fs st :
  St.suspicious (fold_left (formCheck te h) fs st)
  = St.suspicious st || existsb (formFires h) fs.
Proof.
  revert st. induction fs as [|f fs IH]; intros st; cbn [fold_left existsb].
  - now rewrite orb_false_r.
  - now rewrite IH, formCheck_flag, orb_assoc.
Qed.

Lemma linksCheck_flag te h links st :
  St.suspicious (linksCheck te h links st) = St.suspicious st.
Proof.
  destruct links as [|[|L ls]|]; try reflexivity.
  assert (Hne : L :: ls <> []) by discriminate.
  destruct (linksCheck_contribution te h (L :: ls) st Hne) as (_ & Hf & _).
  pose proof (linkContributionSpec_range te h (L :: ls) Hne) as Hc.
  rewrite Hf.
  assert (E : Num.leb 0.3 (linkContributionSpec te h (L :: ls)) = false)
    by (apply leb_gt; lra).
  now rewrite E.
Qed.

Lemma textCheck_flag te text st :
  St.suspicious (textCheck te text st) = St.suspicious st || textFires text.
Proof.
  unfold textCheck, textFires. destruct (negb (Str.isEmpty text)); cbn [andb].
  - generalize redFlags. intros fl. revert st.
    induction fl as [|f fl IH]; intros st; cbn [fold_left existsb].
    + now rewrite orb_false_r.
    + rewrite IH. destruct (Str.includes (Str.toLowerCase text) f);
        cbn [St.suspicious orb]; [now rewrite orb_true_r | reflexivity].
  - now rewrite orb_false_r.
Qed.

Lemma hostnameChecks_flag h st :
  St.suspicious (hostnameChecks h st)
  = St.suspicious st || isPunycode h || isIpAddress h.
Proof.
  unfold hostnameChecks.
  destruct (isPunycode h), (isIpAddress h); cbn [St.suspicious];
    rewrite ?orb_true_r, ?orb_false_r; reflexivity.
Qed.

Lemma canonicalCheck_flag te h og can st :
  St.suspicious (canonicalCheck te h og can st)
  = St.suspicious st || canonicalFires h og can.
Proof.
  unfold canonicalCheck, canonicalFires.
  destruct (negb (Str.isEmpty (orElse og can))); cbn [andb];
    [|now rewrite orb_false_r].
  destruct (negb (Str.isEmpty (safeGetHostname (orElse og can)))
            && negb (Str.isEmpty h)); cbn [andb]; [|now rewrite orb_false_r].
  destruct (Num.ltb 0.35 _); cbn [St.suspicious].
  - now rewrite orb_true_r.
  - rewrite orb_false_r. now destruct (negb te).
Qed.

Lemma httpsCheck_flag te url st :
  St.suspicious (httpsCheck te url st) = St.suspicious st.
Proof. unfold httpsCheck. now destruct (negb (isHttps url)). Qed.

Lemma typosquatCheck_trusted T h st :
  setHas T (Str.toLowerCase (getRegisteredDomain h)) = true ->
  St.suspicious (typosquatCheck T h st) = St.suspicious st.
Proof. intros H. unfold typosquatCheck. now rewrite H. Qed.

Lemma hostIsTrustedExact_has T h :
  hostIsTrustedExact T h = true ->
  setHas T (Str.toLowerCase (getRegisteredDomain h)) = true.
Proof. unfold hostIsTrustedExact. now destruct (Str.isEmpty h). Qed.

(** On an exactly trusted page the flag before the final handling is raised
    by exactly these: a credential form that posts elsewhere, a red-flag
    phrase in the text, a punycode or IP-address hostname, a canonical
    mismatch. Links never raise it. *)
Lemma checks_flag_trusted T data fs st :
  hostIsTrustedExact T (pageHostnameOf data) = true ->
  arrayOr (Data.forms data) (Data.formList data) = IsArray fs ->
  checks T data (Some T) = Normal st ->
  St.suspicious st
  = existsb (formFires (pageHostnameOf data)) fs
    || textFires (Str.sliceTo 4000 (Data.textSample data))
    || isPunycode (pageHostnameOf data)
    || isIpAddress (pageHostnameOf data)
    || canonicalFires (pageHostnameOf data) (Data.ogUrl data) (Data.canonical data).
Proof.
  intros Hte Hfs Hc. unfold checks, bind, formsCheck in Hc.
  rewrite Hfs, Hte in Hc. injection Hc as <-.
  rewrite canonicalCheck_flag, hostnameChecks_flag, textCheck_flag,
    linksCheck_flag, formsFold_flag, httpsCheck_flag,
    (typosquatCheck_trusted _ _ _ (hostIsTrustedExact_has _ _ Hte)).
  reflexivity.
Qed.

(** The dampened case with its conditions on the payload: an exactly trusted
    page with no credential form that posts elsewhere, no red-flag phrase,
    no canonical mismatch and a hostname that is neither punycode nor an IP
    address is not suspicious and scores at most 0.05, whatever its links. *)
Corollary trusted_clean_page T data fs :
  hostIsTrustedExact T (pageHostnameOf data) = true ->
  arrayOr (Data.forms data) (Data.formList data) = IsArray fs ->
  existsb (formFires (pageHostnameOf data)) fs = false ->
  textFires (Str.sliceTo 4000 (Data.textSample data)) = false ->
  isPunycode (pageHostnameOf data) = false ->
  isIpAddress (pageHostnameOf data) = false ->
  canonicalFires (pageHostnameOf data) (Data.ogUrl data) (Data.canonical data)
  = false ->
  exists r,
    assess data T = Normal r /\ suspicious r = false /\ (score r <= 0.05)%Q.
Proof.
  intros Hte Hfs H1 H2 H3 H4 H5.
  destruct (checks T data (Some T)) as [st|] eqn:Hc.
  - pose proof (checks_flag_trusted _ _ _ _ Hte Hfs Hc) as Hflag.
    rewrite H1, H2, H3, H4, H5 in Hflag. cbn [orb] in Hflag.
    unfold assess, analyzeProfileCore, bind, readData.
    rewrite Hc, Hte. eexists. split; [reflexivity|]. cbn [suspicious score].
    unfold trustDampening. rewrite Hflag. cbn [andb negb].
    assert (Hle : (Num.max 0 (Num.min 1 (Num.min (St.score st) 0.05)) <= 0.05)%Q).
    { apply max_lub; [lra|].
      eapply Qle_trans; [apply min_le_r | apply min_le_r]. }
    unfold finalDecision; cbn [St.score St.suspicious orb].
    split; [|exact Hle]. apply leb_gt. lra.
  - unfold checks, bind, formsCheck in Hc. rewrite Hfs in Hc. discriminate.
Qed.

End TrustedFlag.

(** ** The utilities on sample values *)

Example levenshtein_kitten : levenshtein "kitten" "sitting" = 3.
Proof. reflexivity. Qed.

Example levenshtein_empty : levenshtein EmptyString EmptyString = 0.
Proof. reflexivity. Qed.

Example registered_co_uk : getRegisteredDomain "www.example.co.uk" = "co.uk".
Proof. reflexivity. Qed.

Example ip_shape : isIpAddress "999.1.22.333" = true /\ isIpAddress "1.2.3" = false.
Proof. split; reflexivity. Qed.

Example toFixed2_ninth : Num.toFixed2 (1 # 9) = "0.11".
Proof. reflexivity. Qed.

(** The digits follow the double, not the fraction: 3/40 is held as a double
    just below 0.075, 1/8 is held exactly and is a tie. *)
Example toFixed2_doubles :
  Num.toFixed2 (3 # 40) = "0.07" /\ Num.toFixed2 (7 # 40) = "0.17"
  /\ Num.toFixed2 (17 # 40) = "0.42" /\ Num.toFixed2 (1 # 8) = "0.13"
  /\ Num.toFixed2 (1 # 200) = "0.01" /\ Num.toFixed2 1 = "1.00".
Proof. vm_compute. repeat split. Qed.



(** * Further properties of the code *)


(** ** What the two-row loop computes *)

Lemma levRec_nil_r a : levRec a [] = List.length a.
Proof. now destruct a. Qed.

Lemma levRec_cons x a y b :
  levRec (x :: a) (y :: b)
  = Nat.min (Nat.min (levRec (x :: a) b + 1) (levRec a (y :: b) + 1))
      (levRec a b + (if Ascii.eqb x y then 0 else 1)).
Proof. reflexivity. Qed.

Lemma levRec_nil_l b : levRec [] b = List.length b.
Proof. reflexivity. Qed.

#[local] Opaque levRec.

Lemma levRec_sym a b : levRec a b = levRec b a.
Proof.
  revert b. induction a as [|x a IHa]; intros b.
  - now rewrite levRec_nil_l, levRec_nil_r.
  - induction b as [|y b IHb].
    + now rewrite levRec_nil_l, levRec_nil_r.
    + rewrite !levRec_cons, IHb, (IHa (y :: b)), (IHa b), (Ascii.eqb_sym x y). lia.
Qed.

Lemma levRec_refl a : levRec a a = 0.
Proof.
  induction a as [|x a IH]; [reflexivity|].
  rewrite levRec_cons, IH, Ascii.eqb_refl. lia.
Qed.

Lemma levRec_zero a b : levRec a b = 0 -> a = b.
Proof.
  revert b. induction a as [|x a IHa]; intros b.
  - rewrite levRec_nil_l. now destruct b.
  - destruct b as [|y b]; [rewrite levRec_nil_r; discriminate|].
    rewrite levRec_cons. intros H.
    destruct (Ascii.eqb x y) eqn:E.
    + apply Ascii.eqb_eq in E. subst y. f_equal. apply IHa. lia.
    + lia.
Qed.

Lemma levRec_upper a b :
  levRec a b <= Nat.max (List.length a) (List.length b).
Proof.
  revert b. induction a as [|x a IHa]; intros b.
  - rewrite levRec_nil_l. cbn [List.length]. lia.
  - destruct b as [|y b]; [rewrite levRec_nil_r; lia|].
    rewrite levRec_cons. specialize (IHa b). cbn [List.length].
    destruct (Ascii.eqb x y); lia.
Qed.

Lemma levRec_lower a b :
  List.length a - List.length b <= levRec a b
  /\ List.length b - List.length a <= levRec a b.
Proof.
  revert b. induction a as [|x a IHa]; intros b.
  - rewrite levRec_nil_l. cbn [List.length]. lia.
  - induction b as [|y b IHb]; [rewrite levRec_nil_r; cbn [List.length]; lia|].
    rewrite levRec_cons. pose proof (IHa b). pose proof (IHa (y :: b)).
    cbn [List.length] in *. destruct (Ascii.eqb x y); lia.
Qed.

Lemma rowOf_head ra pb b : rowOf ra pb b = levRec ra pb :: tl (rowOf ra pb b).
Proof. now destruct b. Qed.

(** The inner loop turns the row of [ra] into the row of [c :: ra]. *)
Lemma levRow_rowOf c ra b pb :
  levRow c b (rowOf ra pb b) (levRec (c :: ra) pb) = tl (rowOf (c :: ra) pb b).
Proof.
  revert pb. induction b as [|y b IH]; intros pb; [reflexivity|].
  cbn [rowOf tl]. rewrite (rowOf_head ra (y :: pb) b). cbn [levRow].
  rewrite <- (rowOf_head ra (y :: pb) b).
  replace (Nat.min (Nat.min (levRec (c :: ra) pb + 1) (levRec ra (y :: pb) + 1))
             (levRec ra pb + (if Ascii.eqb c y then 0 else 1)))
    with (levRec (c :: ra) (y :: pb)) by (rewrite levRec_cons; reflexivity).
  rewrite IH. symmetry. apply rowOf_head.
Qed.

Lemma rowOf_first pb b :
  rowOf [] pb b = seq (List.length pb) (String.length b + 1).
Proof.
  revert pb. induction b as [|y b IH]; intros pb; cbn [rowOf String.length].
  - now rewrite levRec_nil_l.
  - rewrite levRec_nil_l, IH. reflexivity.
Qed.

Lemma rowOf_last ra pb b :
  last (rowOf ra pb b) 0 = levRec ra (rev_append (chars b) pb).
Proof.
  revert pb. induction b as [|y b IH]; intros pb; [reflexivity|].
  cbn [rowOf]. specialize (IH (y :: pb)).
  destruct (rowOf ra (y :: pb) b) as [|n l] eqn:E.
  - rewrite rowOf_head in E. discriminate.
  - exact IH.
Qed.

(** The outer loop: after the characters of [a], the row is that of [a]
    reversed onto what had been read before. *)
Lemma levLoop_rowOf a b ra :
  levLoop a b (List.length ra) (rowOf ra [] b)
  = rowOf (rev_append (chars a) ra) [] b.
Proof.
  revert ra. induction a as [|x a IH]; intros ra; [reflexivity|].
  cbn [levLoop chars list_ascii_of_string rev_append].
  change (S (List.length ra)) with (List.length (x :: ra)).
  replace (List.length (x :: ra) :: levRow x b (rowOf ra [] b) (List.length (x :: ra)))
    with (rowOf (x :: ra) [] b).
  - apply IH.
  - rewrite (rowOf_head (x :: ra) [] b), <- levRow_rowOf.
    now rewrite levRec_nil_r.
Qed.

Lemma chars_length s : List.length (chars s) = String.length s.
Proof.
  induction s as [|c s IH]; [reflexivity|].
  unfold chars in *. cbn [list_ascii_of_string List.length String.length].
  now f_equal.
Qed.

Lemma chars_inj s t : chars s = chars t -> s = t.
Proof.
  intros H. rewrite <- (string_of_list_ascii_of_string s),
    <- (string_of_list_ascii_of_string t). unfold chars in H. now rewrite H.
Qed.

(** [levenshtein] is the recurrence on the two strings read backwards. *)
Lemma levenshtein_levRec a b :
  levenshtein a b = levRec (rev (chars a)) (rev (chars b)).
Proof.
  unfold levenshtein. destruct (String.eqb a b) eqn:E.
  - apply String.eqb_eq in E. subst. now rewrite levRec_refl.
  - destruct (String.length a =? 0)%nat eqn:Ea.
    + apply Nat.eqb_eq in Ea. destruct a; [|discriminate].
      cbn [chars list_ascii_of_string rev].
      now rewrite levRec_nil_l, length_rev, chars_length.
    + destruct (String.length b =? 0)%nat eqn:Eb.
      * apply Nat.eqb_eq in Eb. destruct b; [|discriminate].
        cbn [chars list_ascii_of_string rev].
        now rewrite levRec_nil_r, length_rev, chars_length.
      * pose proof (levLoop_rowOf a b []) as H.
        rewrite rowOf_first in H. cbn [List.length] in H.
        rewrite H, rowOf_last, !rev_append_rev, !app_nil_r.
        reflexivity.
Qed.


Lemma chars_snoc a x : chars (a ++ String x EmptyString) = (chars a ++ [x])%list.
Proof.
  unfold chars. induction a as [|c a IH]; [reflexivity|].
  cbn [String.append list_ascii_of_string app]. now rewrite IH.
Qed.

Lemma rev_chars_inj a b : rev (chars a) = rev (chars b) -> a = b.
Proof.
  intros H. apply chars_inj.
  rewrite <- (rev_involutive (chars a)), <- (rev_involutive (chars b)).
  now rewrite H.
Qed.

(** X1. [levenshtein] satisfies the equations that define the edit distance:
    against the empty string it is the length of the other string, and for
    two strings that end in [x] and [y] it is the least of a deletion, an
    insertion and a substitution (free when [x] is [y]). *)
Theorem levenshtein_equations a b x y :
  levenshtein EmptyString b = String.length b
  /\ levenshtein a EmptyString = String.length a
  /\ levenshtein (a ++ String x EmptyString) (b ++ String y EmptyString)
     = Nat.min
         (Nat.min (levenshtein (a ++ String x EmptyString) b + 1)
            (levenshtein a (b ++ String y EmptyString) + 1))
         (levenshtein a b + (if Ascii.eqb x y then 0 else 1)).
Proof.
  rewrite !levenshtein_levRec, !chars_snoc, !rev_app_distr.
  cbn [chars list_ascii_of_string rev app].
  rewrite levRec_nil_l, levRec_nil_r, !length_rev, !chars_length.
  split; [reflexivity|]. split; [reflexivity|]. apply levRec_cons.
Qed.

(** X2. The distance is at least the difference of the two lengths and at most
    the greater length. *)
Theorem levenshtein_bounds a b :
  String.length a - String.length b <= levenshtein a b
  /\ String.length b - String.length a <= levenshtein a b
  /\ levenshtein a b <= Nat.max (String.length a) (String.length b).
Proof.
  rewrite levenshtein_levRec.
  pose proof (levRec_lower (rev (chars a)) (rev (chars b))) as [H1 H2].
  pose proof (levRec_upper (rev (chars a)) (rev (chars b))) as H3.
  rewrite !length_rev, !chars_length in *. auto.
Qed.

(** ** [normalizedDistance] *)

Lemma of_nat_pos n : (1 <= n)%nat -> Zpos (Pos.of_nat n) = Z.of_nat n.
Proof.
  intros H. rewrite <- (Nat2Pos.id n) at 2 by lia. now rewrite positive_nat_Z.
Qed.

Lemma normalizedDistance_levRec a b :
  normalizedDistance a b
  = Qmake (Z.of_nat (levRec (rev (chars a)) (rev (chars b))))
      (Pos.of_nat (Nat.max (Nat.max (String.length a) (String.length b)) 1)).
Proof. unfold normalizedDistance. now rewrite levenshtein_levRec. Qed.

Lemma normalizedDistance_range_aux a b :
  (0 <= normalizedDistance a b <= 1)%Q.
Proof.
  rewrite normalizedDistance_levRec.
  pose proof (levRec_upper (rev (chars a)) (rev (chars b))) as H.
  rewrite !length_rev, !chars_length in H.
  unfold Qle. cbn [Qnum Qden]. rewrite of_nat_pos by lia. lia.
Qed.

Lemma normalizedDistance_zero_aux a b :
  (normalizedDistance a b == 0)%Q <-> a = b.
Proof.
  rewrite normalizedDistance_levRec. unfold Qeq. cbn [Qnum Qden]. split.
  - intros H. apply rev_chars_inj, levRec_zero. lia.
  - intros ->. rewrite levRec_refl. reflexivity.
Qed.

(** X3. The normalized distance is a number between 0 and 1, it is symmetric,
    and it is zero exactly between a string and itself. *)
Theorem normalizedDistance_unit_metric a b :
  (0 <= normalizedDistance a b <= 1)%Q
  /\ normalizedDistance a b = normalizedDistance b a
  /\ ((normalizedDistance a b == 0)%Q <-> a = b).
Proof.
  split; [apply normalizedDistance_range_aux|].
  split; [|apply normalizedDistance_zero_aux].
  rewrite !normalizedDistance_levRec, levRec_sym.
  now rewrite (Nat.max_comm (String.length a)).
Qed.


Lemma levRec_triangle_size n :
  forall a b c,
    List.length a + List.length b + List.length c <= n ->
    levRec a c <= levRec a b + levRec b c.
Proof.
  induction n as [|n IH]; intros a b c Hn.
  - destruct a, b, c; cbn [List.length] in Hn; lia.
  - destruct a as [|x a].
    { rewrite !levRec_nil_l. pose proof (levRec_lower b c). lia. }
    destruct c as [|z c].
    { rewrite !levRec_nil_r. pose proof (levRec_lower (x :: a) b). lia. }
    destruct b as [|y b].
    { rewrite levRec_nil_r, levRec_nil_l.
      pose proof (levRec_upper (x :: a) (z :: c)). lia. }
    cbn [List.length] in Hn.
    pose proof (IH a (y :: b) (z :: c)) as H1.
    pose proof (IH (x :: a) (y :: b) c) as H2.
    pose proof (IH (x :: a) b (z :: c)) as H3.
    pose proof (IH (x :: a) b c) as H4.
    pose proof (IH a b (z :: c)) as H5.
    pose proof (IH a b c) as H6.
    cbn [List.length] in *.
    specialize (H1 ltac:(lia)). specialize (H2 ltac:(lia)).
    specialize (H3 ltac:(lia)). specialize (H4 ltac:(lia)).
    specialize (H5 ltac:(lia)). specialize (H6 ltac:(lia)).
    pose proof (levRec_cons x a z c) as E1. pose proof (levRec_cons x a y b) as E2.
    pose proof (levRec_cons y b z c) as E3.
    destruct (Ascii.eqb x y) eqn:Exy, (Ascii.eqb y z) eqn:Eyz,
      (Ascii.eqb x z) eqn:Exz;
      try (apply Ascii.eqb_eq in Exy); try (apply Ascii.eqb_eq in Eyz);
      try (apply Ascii.eqb_neq in Exz); subst; try congruence; lia.
Qed.

(** X4. [levenshtein] is a metric on strings: it is zero exactly between a
    string and itself, it is symmetric, and it obeys the triangle
    inequality. *)
Theorem levenshtein_metric a b c :
  (levenshtein a b = 0 <-> a = b)
  /\ levenshtein a b = levenshtein b a
  /\ levenshtein a c <= levenshtein a b + levenshtein b c.
Proof.
  rewrite !levenshtein_levRec. split; [|split].
  - split.
    + intros H. apply rev_chars_inj. now apply levRec_zero.
    + intros ->. apply levRec_refl.
  - apply levRec_sym.
  - eapply levRec_triangle_size. reflexivity.
Qed.


(** ** Lower case *)

Lemma lowerChar_not_upper c : Str.isUpper (Str.lowerChar c) = false.
Proof. destruct c as [[] [] [] [] [] [] [] []]; reflexivity. Qed.

Lemma lowerChar_dot c :
  Ascii.eqb (Str.lowerChar c) "."%char = Ascii.eqb c "."%char.
Proof. destruct c as [[] [] [] [] [] [] [] []]; reflexivity. Qed.

Lemma lowerChar_idem c : Str.lowerChar (Str.lowerChar c) = Str.lowerChar c.
Proof. unfold Str.lowerChar at 1. now rewrite lowerChar_not_upper. Qed.

Lemma toLowerCase_lowered s : isLowerCased (Str.toLowerCase s) = true.
Proof.
  unfold isLowerCased. induction s as [|c s IH]; [reflexivity|].
  cbn [Str.toLowerCase Str.forallb]. now rewrite lowerChar_not_upper, IH.
Qed.

Lemma toLowerCase_fixed s : isLowerCased s = true -> Str.toLowerCase s = s.
Proof.
  unfold isLowerCased. induction s as [|c s IH]; [reflexivity|].
  cbn [Str.toLowerCase Str.forallb]. intros H.
  apply andb_true_iff in H as [Hc Hs]. rewrite (IH Hs). unfold Str.lowerChar.
  apply negb_true_iff in Hc. now rewrite Hc.
Qed.

Lemma toLowerCase_idem s :
  Str.toLowerCase (Str.toLowerCase s) = Str.toLowerCase s.
Proof. apply toLowerCase_fixed, toLowerCase_lowered. Qed.

Lemma toLowerCase_app s t :
  Str.toLowerCase (s ++ t) = Str.toLowerCase s ++ Str.toLowerCase t.
Proof.
  induction s as [|c s IH]; [reflexivity|].
  cbn [String.append Str.toLowerCase]. now rewrite IH.
Qed.

Lemma toLowerCase_isEmpty s : Str.isEmpty (Str.toLowerCase s) = Str.isEmpty s.
Proof. now destruct s. Qed.

Section LowerCaseHostnames.

Context {url_api : UrlApi}.

Lemma safeGetHostname_lowered u : isLowerCased (safeGetHostname u) = true.
Proof.
  unfold safeGetHostname.
  repeat match goal with
         | |- context [match ?o with Some _ => _ | None => _ end] => destruct o
         | |- context [if ?b then _ else _] => destruct b
         end;
    first [reflexivity | apply toLowerCase_lowered].
Qed.

(** X5. [safeGetHostname] returns a string without upper-case letters, for
    every input and whatever the parser returns, and so does the page
    hostname reported in the details of every result. *)
Theorem hostnames_are_lower_case :
  (forall urlOrHost, isLowerCased (safeGetHostname urlOrHost) = true)
  /\ (forall G arg T r,
         analyzeProfileCore G arg T = Normal r ->
         isLowerCased (Details.pageHostname (details r)) = true
         /\ Str.toLowerCase (Details.pageHostname (details r))
            = Details.pageHostname (details r)).
Proof.
  split; [apply safeGetHostname_lowered|].
  intros G arg T r H. apply analyzeProfileCore_normal in H.
  destruct H as (data & st & _ & _ & ->). cbv zeta. cbn [details].
  unfold detailsOf; cbn [Details.pageHostname].
  assert (Hl : isLowerCased (pageHostnameOf data) = true).
  { unfold pageHostnameOf, orElse.
    destruct (Str.isEmpty (safeGetHostname _)); [|apply safeGetHostname_lowered].
    destruct (negb (Str.isEmpty (Data.hostname data)));
      [apply safeGetHostname_lowered | reflexivity]. }
  split; [exact Hl | now apply toLowerCase_fixed].
Qed.

End LowerCaseHostnames.

(** At the payload [{ url: "HTTPS://WWW.Example.ORG/About" }]. *)
Lemma hostnames_are_lower_case_witness :
  exists r,
    analyzeProfileCore (url_api := refUrlApi) defaultTrusted
      (ArgObject (dataOfUrl "HTTPS://WWW.Example.ORG/About")) (Some defaultTrusted)
    = Normal r
    /\ Details.pageHostname (details r) = "www.example.org"
    /\ isLowerCased (Details.pageHostname (details r)) = true.
Proof.
  assert (Hr : { r | analyzeProfileCore (url_api := refUrlApi) defaultTrusted
                       (ArgObject (dataOfUrl "HTTPS://WWW.Example.ORG/About"))
                       (Some defaultTrusted) = Normal r
                     /\ Details.pageHostname (details r) = "www.example.org" })
    by (eexists; split; vm_compute; reflexivity).
  destruct Hr as (r & Hr & Hh). exists r. split; [exact Hr|]. split; [exact Hh|].
  destruct (hostnames_are_lower_case (url_api := refUrlApi)) as [_ H].
  exact (proj1 (H _ _ _ _ Hr)).
Defined.


(** ** Labels and the registered domain *)

Lemma split_segments_dotFree s g :
  In g (Str.split "."%char s) -> dotFree g = true.
Proof.
  unfold dotFree. revert g. induction s as [|c s IH]; intros g.
  - cbn. intros [<-|[]]. reflexivity.
  - cbn [Str.split]. destruct (Ascii.eqb c "."%char) eqn:E.
    + intros [<-|H]; [reflexivity | now apply IH].
    + pose proof (split_nonempty "."%char s) as Hne.
      destruct (Str.split "."%char s) as [|h t]; [congruence|].
      intros [<-|H].
      * cbn [Str.forallb]. rewrite E. cbn [negb andb]. apply IH. now left.
      * apply IH. now right.
Qed.

Lemma split_dotFree s : dotFree s = true -> Str.split "."%char s = [s].
Proof.
  unfold dotFree. induction s as [|c s IH]; [reflexivity|].
  cbn [Str.forallb Str.split]. intros H. apply andb_true_iff in H as [Hc Hs].
  apply negb_true_iff in Hc. now rewrite Hc, (IH Hs).
Qed.

Lemma split_app_dot a b :
  dotFree a = true ->
  Str.split "."%char (a ++ String "."%char b) = a :: Str.split "."%char b.
Proof.
  unfold dotFree. induction a as [|c a IH]; [reflexivity|].
  cbn [Str.forallb String.append Str.split]. intros H.
  apply andb_true_iff in H as [Hc Ha]. apply negb_true_iff in Hc.
  now rewrite Hc, (IH Ha).
Qed.

Lemma getLabels_In h g :
  In g (getLabels h) -> Str.isEmpty g = false /\ dotFree g = true.
Proof.
  unfold getLabels. rewrite filter_In. intros [Hin Hne].
  split; [now apply negb_true_iff | now apply (split_segments_dotFree h)].
Qed.

(** The last two elements of a list of at least two. *)
Lemma sliceLast_two {A : Type} (l : list A) :
  2 <= List.length l ->
  exists pre x y, l = (pre ++ [x; y])%list /\ Str.sliceLast 2 l = [x; y].
Proof.
  intros H. unfold Str.sliceLast.
  destruct (rev l) as [|y [|x rpre]] eqn:E.
  - apply (f_equal (@List.length A)) in E. rewrite length_rev in E. cbn in E. lia.
  - apply (f_equal (@List.length A)) in E. rewrite length_rev in E. cbn in E. lia.
  - assert (El : l = (rev rpre ++ [x; y])%list).
    { rewrite <- (rev_involutive l), E. cbn [rev]. now rewrite <- app_assoc. }
    exists (rev rpre), x, y. split; [exact El|].
    rewrite El at 2. rewrite El, length_app. cbn [List.length].
    replace (List.length (rev rpre) + 2 - 2) with (List.length (rev rpre) + 0) by lia.
    now rewrite skipn_app, Nat.add_0_r, skipn_all, Nat.sub_diag.
Qed.

Lemma getLabels_two x y :
  Str.isEmpty x = false -> dotFree x = true ->
  Str.isEmpty y = false -> dotFree y = true ->
  getLabels (x ++ String "."%char y) = [x; y].
Proof.
  intros Hx Dx Hy Dy. unfold getLabels.
  rewrite (split_app_dot x y Dx), (split_dotFree y Dy).
  cbn [filter]. now rewrite Hx, Hy.
Qed.

(** With two labels or more the registered domain is the last two of them
    around a dot. *)
Lemma getRegisteredDomain_two h :
  2 <= List.length (getLabels h) ->
  exists pre x y,
    getLabels h = (pre ++ [x; y])%list
    /\ getRegisteredDomain h = x ++ String "."%char y
    /\ getLabels (getRegisteredDomain h) = [x; y].
Proof.
  intros H. destruct (sliceLast_two (getLabels h) H) as (pre & x & y & El & Es).
  exists pre, x, y. split; [exact El|].
  assert (Er : getRegisteredDomain h = x ++ String "."%char y).
  { unfold getRegisteredDomain. apply Nat.leb_le in H. now rewrite H, Es. }
  split; [exact Er|]. rewrite Er.
  assert (Hx : In x (getLabels h)) by (rewrite El; apply in_or_app; right; now left).
  assert (Hy : In y (getLabels h))
    by (rewrite El; apply in_or_app; right; right; now left).
  apply getLabels_In in Hx as [Hx Dx]. apply getLabels_In in Hy as [Hy Dy].
  now apply getLabels_two.
Qed.

Lemma getRegisteredDomain_idem h :
  getRegisteredDomain (getRegisteredDomain h) = getRegisteredDomain h.
Proof.
  destruct (le_lt_dec 2 (List.length (getLabels h))) as [H|H].
  - destruct (getRegisteredDomain_two h H) as (pre & x & y & _ & Er & El).
    unfold getRegisteredDomain at 1. rewrite El. cbn. now rewrite Er.
  - assert (E : getRegisteredDomain h = h).
    { unfold getRegisteredDomain. apply Nat.leb_gt in H. now rewrite H. }
    now rewrite !E.
Qed.

Lemma getSecondLevelLabel_registered h :
  getSecondLevelLabel (getRegisteredDomain h) = getSecondLevelLabel h.
Proof.
  destruct (le_lt_dec 2 (List.length (getLabels h))) as [H|H].
  - destruct (getRegisteredDomain_two h H) as (pre & x & y & Eh & _ & El).
    unfold getSecondLevelLabel. rewrite El, Eh.
    destruct (pre ++ [x; y])%list as [|p0 ps] eqn:E; [now destruct pre|].
    rewrite <- E, length_app. cbn [List.length].
    assert (E2 : (2 <=? List.length pre + 2)%nat = true) by (apply Nat.leb_le; lia).
    rewrite E2. cbn [Nat.leb nth Nat.sub].
    replace (List.length pre + 2 - 2) with (List.length pre) by lia.
    now rewrite app_nth2, Nat.sub_diag by lia.
  - assert (E : getRegisteredDomain h = h).
    { unfold getRegisteredDomain. apply Nat.leb_gt in H. now rewrite H. }
    now rewrite E.
Qed.

(** X6. The registered domain is a fixed point of [getRegisteredDomain], it has
    the second-level label of the hostname, and a non-empty hostname has a
    non-empty registered domain. *)
Theorem getRegisteredDomain_normal_form h :
  getRegisteredDomain (getRegisteredDomain h) = getRegisteredDomain h
  /\ getSecondLevelLabel (getRegisteredDomain h) = getSecondLevelLabel h
  /\ (Str.isEmpty (getRegisteredDomain h) = Str.isEmpty h).
Proof.
  split; [apply getRegisteredDomain_idem|].
  split; [apply getSecondLevelLabel_registered|].
  destruct (le_lt_dec 2 (List.length (getLabels h))) as [H|H].
  - destruct (getRegisteredDomain_two h H) as (pre & x & y & Eh & Er & _).
    assert (Hx : In x (getLabels h)) by (rewrite Eh; apply in_or_app; right; now left).
    apply getLabels_In in Hx as [Hx _]. rewrite Er.
    destruct x; [discriminate|]. destruct h; [|reflexivity].
    now destruct pre.
  - unfold getRegisteredDomain. apply Nat.leb_gt in H. now rewrite H.
Qed.


(** ** Letter case and the parts of a hostname *)

Lemma split_lower s :
  Str.split "."%char (Str.toLowerCase s)
  = map Str.toLowerCase (Str.split "."%char s).
Proof.
  induction s as [|c s IH]; [reflexivity|].
  cbn [Str.toLowerCase Str.split]. rewrite lowerChar_dot, IH.
  destruct (Ascii.eqb c "."%char); [reflexivity|].
  pose proof (split_nonempty "."%char s) as Hne.
  destruct (Str.split "."%char s) as [|g gs]; [congruence | reflexivity].
Qed.

Lemma getLabels_lower s :
  getLabels (Str.toLowerCase s) = map Str.toLowerCase (getLabels s).
Proof.
  unfold getLabels. rewrite split_lower.
  induction (Str.split "."%char s) as [|g gs IH]; [reflexivity|].
  cbn [map filter]. rewrite toLowerCase_isEmpty.
  destruct (negb (Str.isEmpty g)); cbn [map]; now rewrite IH.
Qed.

Lemma sliceLast_map {A B : Type} (f : A -> B) k (xs : list A) :
  Str.sliceLast k (map f xs) = map f (Str.sliceLast k xs).
Proof. unfold Str.sliceLast. now rewrite length_map, skipn_map. Qed.

Lemma join_lower parts :
  Str.join "." (map Str.toLowerCase parts) = Str.toLowerCase (Str.join "." parts).
Proof.
  unfold Str.join. induction parts as [|p ps IH]; [reflexivity|].
  cbn [map String.concat]. destruct ps as [|q qs]; [reflexivity|].
  cbn [map] in *. rewrite IH, !toLowerCase_app. reflexivity.
Qed.

Lemma getRegisteredDomain_lower h :
  getRegisteredDomain (Str.toLowerCase h) = Str.toLowerCase (getRegisteredDomain h).
Proof.
  unfold getRegisteredDomain. rewrite getLabels_lower, length_map.
  destruct (2 <=? List.length (getLabels h))%nat; [|reflexivity].
  now rewrite sliceLast_map, join_lower.
Qed.

Lemma getSecondLevelLabel_lower h :
  getSecondLevelLabel (Str.toLowerCase h) = getSecondLevelLabel h.
Proof.
  unfold getSecondLevelLabel. rewrite getLabels_lower, length_map.
  destruct (getLabels h) as [|p ps] eqn:E; [reflexivity|]. cbn [map].
  rewrite <- (map_cons Str.toLowerCase p ps).
  destruct (2 <=? List.length (p :: ps))%nat.
  - change EmptyString with (Str.toLowerCase EmptyString) at 1.
    now rewrite map_nth, toLowerCase_idem.
  - apply toLowerCase_idem.
Qed.

Lemma last_map_lower parts :
  last (map Str.toLowerCase parts) EmptyString
  = Str.toLowerCase (last parts EmptyString).
Proof.
  induction parts as [|p [|q qs] IH]; try reflexivity.
  cbn [map last] in *. exact IH.
Qed.

(** X7. The hostname utilities do not depend on the letter case of the
    hostname: the registered domain of the lower-cased hostname is the
    lower-cased registered domain, and the second-level label, the TLD and
    whether the page is exactly trusted are those of the lower-cased
    hostname. *)
Theorem hostname_utilities_ignore_case G h :
  getRegisteredDomain (Str.toLowerCase h) = Str.toLowerCase (getRegisteredDomain h)
  /\ getSecondLevelLabel (Str.toLowerCase h) = getSecondLevelLabel h
  /\ getTld (Str.toLowerCase h) = getTld h
  /\ hostIsTrustedExact G (Str.toLowerCase h) = hostIsTrustedExact G h.
Proof.
  split; [apply getRegisteredDomain_lower|].
  split; [apply getSecondLevelLabel_lower|]. split.
  - unfold getTld. now rewrite split_lower, last_map_lower, toLowerCase_idem.
  - unfold hostIsTrustedExact.
    now rewrite toLowerCase_isEmpty, getRegisteredDomain_lower, toLowerCase_idem.
Qed.

(** X8. A hostname of two labels or more without an empty label (no leading,
    trailing or doubled dot): its registered domain in lower case is its
    second-level label, a dot and its TLD. *)
Theorem registered_domain_parts h :
  getLabels h = Str.split "."%char h ->
  2 <= List.length (getLabels h) ->
  Str.toLowerCase (getRegisteredDomain h)
  = getSecondLevelLabel h ++ "." ++ getTld h.
Proof.
  intros Hs H2. destruct (getRegisteredDomain_two h H2) as (pre & x & y & El & Er & _).
  rewrite Er. unfold getSecondLevelLabel, getTld. rewrite <- Hs, El.
  destruct (pre ++ [x; y])%list as [|p0 ps] eqn:E; [now destruct pre|].
  rewrite <- E, length_app. cbn [List.length].
  assert (E2 : (2 <=? List.length pre + 2)%nat = true) by (apply Nat.leb_le; lia).
  rewrite E2.
  replace (List.length pre + 2 - 2) with (List.length pre) by lia.
  rewrite app_nth2, Nat.sub_diag by lia. cbn [nth].
  replace (pre ++ [x; y])%list with ((pre ++ [x]) ++ [y])%list
    by now rewrite <- app_assoc.
  rewrite last_last, toLowerCase_app. reflexivity.
Qed.

(** At www.Example.COM. *)
Lemma registered_domain_parts_witness :
  Str.toLowerCase (getRegisteredDomain "www.Example.COM")
  = getSecondLevelLabel "www.Example.COM" ++ "." ++ getTld "www.Example.COM".
Proof.
  apply registered_domain_parts; vm_compute; [reflexivity | lia].
Defined.

(** ** Verdicts of the analysis *)

Lemma ltb_lt (x y : Q) : Num.ltb x y = true <-> (x < y)%Q.
Proof.
  unfold Num.ltb. rewrite negb_true_iff. split.
  - intros H. apply Qnot_le_lt. intros Hle. apply Qle_bool_iff in Hle. congruence.
  - intros H. destruct (Qle_bool y x) eqn:E; [|reflexivity].
    apply Qle_bool_iff in E. lra.
Qed.

Lemma httpsCheck_nonneg te url st :
  (0 <= St.score st)%Q -> (0 <= St.score (httpsCheck te url st))%Q.
Proof.
  intros H. unfold httpsCheck. destruct (negb (isHttps url)); [|exact H].
  cbn [St.score]. destruct (te && negb (St.suspicious st)).
  - apply min_glb; lra.
  - lra.
Qed.

Lemma httpsCheck_reasons te url st :
  exists more, St.reasons (httpsCheck te url st) = (St.reasons st ++ more)%list.
Proof.
  unfold httpsCheck, push. destruct (negb (isHttps url)); cbn [St.reasons].
  - now eexists.
  - exists []. now rewrite app_nil_r.
Qed.

Lemma initialLocals_nonneg te : (0 <= St.score (initialLocals te))%Q.
Proof. destruct te; cbn; lra. Qed.

Lemma flagged_kept x reason :
  kept (fun st => St.suspicious st = true /\ (x <= St.score st)%Q
                  /\ In reason (St.reasons st)).
Proof.
  intros st st' He (H1 & H2 & H3).
  pose proof (extends_In _ _ _ He H3) as Hin. destruct He as (Hs & Hf & _).
  split; [auto|]. split; [lra | exact Hin].
Qed.

(** A loop whose every step only adds, and which establishes [P] at one of
    its elements, ends with [P]. *)
Lemma fold_left_fires {A : Type} (f : St.t -> A -> St.t) (P : St.t -> Prop) x :
  kept P ->
  (forall st y, extends st (f st y)) ->
  (forall st, P (f st x)) ->
  forall xs st, In x xs -> P (fold_left f xs st).
Proof.
  intros HP Hf Hx xs. induction xs as [|y xs IH]; intros st Hin; [contradiction|].
  cbn [fold_left]. destruct Hin as [->|Hin].
  - eapply HP; [apply extends_fold_left; exact Hf | apply Hx].
  - now apply IH.
Qed.

(** The search over the second-level labels: the distance kept is at most 1
    and at most that of every trusted entry, and when it is below 1 the
    record names a trusted entry at that distance. *)
Lemma bestBySld_spec T sld :
  let best := bestBySld T sld in
  (forall td, In td T ->
     (Best.dist best <= normalizedDistance sld (getSecondLevelLabel td))%Q)
  /\ (Best.dist best <= 1)%Q
  /\ ((Best.dist best < 1)%Q ->
      exists td, In td T /\ Best.domain best = Some td
                 /\ Best.sld best = Some (getSecondLevelLabel td)
                 /\ Best.dist best = normalizedDistance sld (getSecondLevelLabel td)).
Proof.
  unfold bestBySld.
  set (f := fun best td =>
              if Num.ltb (normalizedDistance sld (getSecondLevelLabel td))
                   (Best.dist best)
              then Best.make (Some td)
                     (normalizedDistance sld (getSecondLevelLabel td))
                     (Some (getSecondLevelLabel td))
              else best).
  set (Inv := fun (seen : list string) (b : Best.t) =>
                (forall td, In td seen ->
                   (Best.dist b <= normalizedDistance sld (getSecondLevelLabel td))%Q)
                /\ (Best.dist b <= 1)%Q
                /\ ((Best.dist b < 1)%Q ->
                    exists td, In td seen /\ Best.domain b = Some td
                      /\ Best.sld b = Some (getSecondLevelLabel td)
                      /\ Best.dist b
                         = normalizedDistance sld (getSecondLevelLabel td))).
  assert (G : forall xs seen b, Inv seen b -> Inv (seen ++ xs)%list (fold_left f xs b)).
  { induction xs as [|td xs IH]; intros seen b Hb; cbn [fold_left].
    - now rewrite app_nil_r.
    - replace (seen ++ td :: xs)%list with ((seen ++ [td]) ++ xs)%list
        by now rewrite <- app_assoc.
      apply IH. destruct Hb as (H1 & H2 & H3). unfold f, Inv.
      destruct (Num.ltb _ (Best.dist b)) eqn:E; cbn [Best.dist Best.domain Best.sld].
      + apply ltb_lt in E. split; [|split].
        * intros td' Hin. apply in_app_or in Hin as [Hin|[<-|[]]].
          -- specialize (H1 td' Hin). lra.
          -- lra.
        * lra.
        * intros _. exists td. split; [apply in_or_app; right; now left|].
          repeat split.
      + assert (Hle : (Best.dist b
                       <= normalizedDistance sld (getSecondLevelLabel td))%Q).
        { unfold Num.ltb in E. apply negb_false_iff, Qle_bool_iff in E. exact E. }
        split; [|split].
        * intros td' Hin. apply in_app_or in Hin as [Hin|[<-|[]]]; auto.
        * exact H2.
        * intros Hlt. destruct (H3 Hlt) as (td' & Hin & Hrest).
          exists td'. split; [apply in_or_app; now left | exact Hrest]. }
  apply (G T [] (Best.make None 1.0%Q None)). unfold Inv; cbn [Best.dist].
  split; [intros td []|]. split; [lra|]. intros H. exfalso. lra.
Qed.

Lemma getSecondLevelLabel_empty_host : getSecondLevelLabel EmptyString = EmptyString.
Proof. reflexivity. Qed.

Lemma normalizedDistance_empty_r s :
  s <> EmptyString -> (normalizedDistance s EmptyString == 1)%Q.
Proof.
  intros Hne. rewrite normalizedDistance_levRec.
  cbn [chars list_ascii_of_string rev String.length].
  rewrite levRec_nil_r, length_rev, chars_length.
  assert (Hn : 1 <= String.length s) by (destruct s; [congruence | cbn; lia]).
  unfold Qeq. cbn [Qnum Qden]. rewrite of_nat_pos by lia. lia.
Qed.

(** What the typosquat step leaves when the page's second-level label is
    within the threshold of that of a trusted entry while its registered
    domain is not trusted. *)
Lemma typosquatCheck_close_sld T h st td :
  setHas T (Str.toLowerCase (getRegisteredDomain h)) = false ->
  In td T ->
  (normalizedDistance (getSecondLevelLabel h) (getSecondLevelLabel td)
   <= TYPOSQUAT_DISTANCE_THRESHOLD)%Q ->
  getSecondLevelLabel h <> EmptyString ->
  exists td',
    In td' T
    /\ (normalizedDistance (getSecondLevelLabel h) (getSecondLevelLabel td')
        <= normalizedDistance (getSecondLevelLabel h) (getSecondLevelLabel td))%Q
    /\ let st1 := typosquatCheck T h st in
       St.suspicious st1 = true /\ (0.75 <= St.score st1)%Q
       /\ In (typosquatReason (getSecondLevelLabel h)
                (Str.toLowerCase (getRegisteredDomain h)) td')
            (St.reasons st1).
Proof.
  intros Hnot Hin Hclose Hne. unfold TYPOSQUAT_DISTANCE_THRESHOLD in Hclose.
  destruct (bestBySld_spec T (getSecondLevelLabel h)) as (H1 & H2 & H3).
  specialize (H1 td Hin).
  assert (Hlt : (Best.dist (bestBySld T (getSecondLevelLabel h)) < 1)%Q) by lra.
  destruct (H3 Hlt) as (td' & Hin' & Ed & Es & Edist).
  exists td'. split; [exact Hin'|]. split; [now rewrite <- Edist|]. cbv zeta.
  unfold typosquatCheck. rewrite Hnot. cbn [negb].
  assert (Ef : Best.found (bestBySld T (getSecondLevelLabel h)) = true).
  { unfold Best.found. rewrite Ed. apply negb_true_iff.
    destruct td'; [|reflexivity]. exfalso.
    rewrite getSecondLevelLabel_empty_host in Edist.
    pose proof (normalizedDistance_empty_r _ Hne) as H1'.
    rewrite <- Edist in H1'. lra. }
  assert (El : Num.leb (Best.dist (bestBySld T (getSecondLevelLabel h)))
                 TYPOSQUAT_DISTANCE_THRESHOLD = true).
  { apply leb_le. unfold TYPOSQUAT_DISTANCE_THRESHOLD. lra. }
  rewrite Ef, El. cbn [andb].
  eapply flagged_kept; [apply brandKeywordCheck_extends|].
  cbn [St.suspicious St.score St.reasons]. split; [reflexivity|].
  split; [apply max_ge_r|].
  unfold push. apply in_or_app. right. left.
  rewrite Es, Ed, Edist. reflexivity.
Qed.

Lemma brandKeywordCheck_fires sld st brand keywords kw :
  In (brand, keywords) BRAND_KEYWORDS ->
  In kw keywords ->
  negb (Str.isEmpty sld) = true ->
  Str.includes sld kw = true ->
  St.suspicious (brandKeywordCheck sld st) = true
  /\ (0.65 <= St.score (brandKeywordCheck sld st))%Q
  /\ In (brandReason sld kw brand) (St.reasons (brandKeywordCheck sld st)).
Proof.
  intros Hb Hk Hne Hinc. unfold brandKeywordCheck.
  pose (P := fun s : St.t =>
               St.suspicious s = true /\ (0.65 <= St.score s)%Q
               /\ In (brandReason sld kw brand) (St.reasons s)).
  assert (HP : kept P) by apply flagged_kept.
  match goal with
  | |- St.suspicious ?x = true /\ _ => change (P x)
  end.
  apply (fold_left_fires _ P (brand, keywords)); [exact HP | | | exact Hb].
  - intros st0 [b ks]. apply extends_fold_left. intros st2 k.
    destruct (negb (Str.isEmpty sld) && Str.includes sld k); auto with steps.
  - intros st0.
    apply (fold_left_fires _ P kw); [exact HP | | | exact Hk].
    + intros st2 k.
      destruct (negb (Str.isEmpty sld) && Str.includes sld k); auto with steps.
    + intros st2. rewrite Hne, Hinc. unfold P.
      cbn [andb St.suspicious St.score St.reasons].
      split; [reflexivity|]. split; [apply max_ge_r|].
      unfold push, brandReason. apply in_or_app. right. now left.
Qed.

Lemma typosquatCheck_reasons T h st :
  exists first more,
    St.reasons (typosquatCheck T h st) = (St.reasons st ++ first :: more)%list
    /\ (setHas T (Str.toLowerCase (getRegisteredDomain h)) = true ->
        first = "Exact registered domain is trusted").
Proof.
  unfold typosquatCheck.
  destruct (setHas T (Str.toLowerCase (getRegisteredDomain h))); cbn [negb].
  - exists "Exact registered domain is trusted", []. split; [reflexivity | auto].
  - match goal with
    | |- context [brandKeywordCheck ?sld ?s] =>
        destruct (brandKeywordCheck_extends sld s) as (_ & _ & more & Hm);
        assert (Hs : exists first, St.reasons s = (St.reasons st ++ [first])%list)
    end.
    { step_cases; cbn [St.reasons]; unfold push; now eexists. }
    destruct Hs as (first & Hs). exists first, more. split; [|discriminate].
    rewrite Hm, Hs, <- app_assoc. reflexivity.
Qed.

Lemma isWeakReason_exact :
  isWeakReason "Exact registered domain is trusted" = false.
Proof. vm_compute. reflexivity. Qed.

Lemma sliceTo_prefix n t1 t2 :
  String.length t1 = n -> Str.sliceTo n (t1 ++ t2) = t1.
Proof.
  unfold Str.sliceTo. revert n. induction t1 as [|c t1 IH]; intros n Hn.
  - cbn in Hn. subst n. cbn [String.append]. now destruct t2.
  - cbn [String.length] in Hn. subst n. cbn [String.append String.substring].
    now rewrite IH.
Qed.

Lemma append_empty s : s ++ EmptyString = s.
Proof. induction s as [|c s IH]; [reflexivity|]. cbn. now rewrite IH. Qed.

Section Verdicts.

Context {url_api : UrlApi}.

Lemma analyze_object G data T r :
  analyzeProfileCore G (ArgObject data) T = Normal r ->
  exists st,
    checks G data T = Normal st
    /\ r = (let fin := finalDecision
                         (trustDampening
                            (hostIsTrustedExact G (pageHostnameOf data)) st) in
            mkResult (St.suspicious fin) (St.score fin) (St.reasons fin)
              (detailsOf data)).
Proof.
  intros H. apply analyzeProfileCore_normal in H.
  destruct H as (data' & st & Ha & Hc & Hr). injection Ha as <-.
  now exists st.
Qed.

(** The checks in stages: the typosquat and HTTPS checks, the loops over the
    forms, the links and the red-flag phrases, which only add, and the
    hostname checks with the canonical check. *)
Lemma checks_stages G data T st :
  checks G data T = Normal st ->
  let h := pageHostnameOf data in
  let te := hostIsTrustedExact G h in
  let url := orElse (Data.url data) (orElse (Data.pageUrl data) (Data.origin data)) in
  let st1 :=
    typosquatCheck (match T with Some set => set | None => G end) h
      (initialLocals te) in
  exists st3,
    extends (httpsCheck te url st1) st3
    /\ st = canonicalCheck te h (Data.ogUrl data) (Data.canonical data)
              (hostnameChecks h st3).
Proof.
  intros H h te url st1. rewrite checks_order in H. cbv zeta in H.
  fold h te url st1 in H. unfold bind in H.
  destruct (formsCheck te h _ _) as [st2|] eqn:Ef; [|discriminate].
  injection H as <-. eexists. split; [|reflexivity].
  eapply extends_trans; [eapply formsCheck_extends; exact Ef|].
  eapply extends_trans; [apply linksCheck_extends|]. apply textCheck_extends.
Qed.

(** A flag raised before the final handling is the verdict, and the score
    and the reasons it came with are in the result. *)
Lemma flagged_checks_result G data T r st x reason :
  analyzeProfileCore G (ArgObject data) T = Normal r ->
  checks G data T = Normal st ->
  (x <= 1)%Q ->
  St.suspicious st = true /\ (x <= St.score st)%Q /\ In reason (St.reasons st) ->
  suspicious r = true /\ (x <= score r)%Q /\ In reason (reasons r).
Proof.
  intros Hr Hc Hx (H1 & H2 & H3). apply analyze_object in Hr.
  destruct Hr as (st' & Hc' & ->). rewrite Hc in Hc'. injection Hc' as <-.
  cbv zeta. cbn [suspicious score reasons].
  unfold trustDampening. rewrite H1, andb_false_r.
  apply (flagged_state_result st st x reason); auto using extends_refl.
Qed.

Lemma before_hostname_nonneg G data T st :
  checks G data T = Normal st ->
  exists st3,
    (0 <= St.score st3)%Q
    /\ st = canonicalCheck (hostIsTrustedExact G (pageHostnameOf data))
              (pageHostnameOf data) (Data.ogUrl data) (Data.canonical data)
              (hostnameChecks (pageHostnameOf data) st3).
Proof.
  intros H. destruct (checks_stages _ _ _ _ H) as (st3 & He & Hs).
  exists st3. split; [|exact Hs]. destruct He as (He & _).
  eapply Qle_trans; [|exact He]. apply httpsCheck_nonneg.
  match goal with
  | |- (_ <= St.score (typosquatCheck ?t ?h ?s))%Q =>
      destruct (typosquatCheck_extends t h s) as (Hs' & _)
  end.
  eapply Qle_trans; [apply initialLocals_nonneg | exact Hs'].
Qed.

(** X9. A page whose hostname is a dotted quad of digits, or contains the
    punycode marker, is suspicious with a score of at least 0.40, and the
    reasons say which, for every payload, trusted set and parser: also when
    the registered domain of the hostname is in the trusted set. *)
Theorem raw_hostname_is_flagged G data T r :
  analyzeProfileCore G (ArgObject data) T = Normal r ->
  (isIpAddress (pageHostnameOf data) = true ->
   suspicious r = true /\ (0.40 <= score r)%Q
   /\ In "Page served from IP address" (reasons r))
  /\ (isPunycode (pageHostnameOf data) = true ->
      suspicious r = true /\ (0.40 <= score r)%Q
      /\ In "Page hostname uses punycode" (reasons r)).
Proof.
  intros Hr. pose proof (analyze_object _ _ _ _ Hr) as (st & Hc & _).
  destruct (before_hostname_nonneg _ _ _ _ Hc) as (st3 & H0 & Est).
  split; intros Hh.
  - eapply flagged_checks_result; [exact Hr | exact Hc | lra |]. rewrite Est.
    eapply flagged_kept; [apply canonicalCheck_extends|].
    unfold hostnameChecks. rewrite Hh.
    destruct (isPunycode (pageHostnameOf data));
      cbn [St.suspicious St.score St.reasons]; unfold push;
      (split; [reflexivity|]; split; [lra | apply in_or_app; right; now left]).
  - eapply flagged_checks_result; [exact Hr | exact Hc | lra |]. rewrite Est.
    eapply flagged_kept; [apply canonicalCheck_extends|].
    assert (Hip : isIpAddress (pageHostnameOf data) = false).
    { pose proof (punycode_excludes_ip (pageHostnameOf data)) as Hx.
      rewrite Hh in Hx. exact Hx. }
    unfold hostnameChecks. rewrite Hh, Hip.
    cbn [St.suspicious St.score St.reasons]; unfold push.
    split; [reflexivity|]; split; [lra | apply in_or_app; right; now left].
Qed.

(** X10. A page whose second-level label is within the threshold distance, 0.30,
    of the second-level label of a trusted domain, while its registered
    domain is not in the trusted set, is a typosquat: the result is
    suspicious, its score is at least 0.75, and a reason names the label,
    the nearest trusted label, their distance and the trusted domain. *)
Theorem close_label_is_typosquat data trustedDomains r td :
  assess data trustedDomains = Normal r ->
  In td trustedDomains ->
  (normalizedDistance (getSecondLevelLabel (pageHostnameOf data))
     (getSecondLevelLabel td) <= 0.30)%Q ->
  getSecondLevelLabel (pageHostnameOf data) <> EmptyString ->
  ~ In (Str.toLowerCase (getRegisteredDomain (pageHostnameOf data))) trustedDomains ->
  suspicious r = true /\ (0.75 <= score r)%Q
  /\ exists td',
       In td' trustedDomains
       /\ (normalizedDistance (getSecondLevelLabel (pageHostnameOf data))
             (getSecondLevelLabel td')
           <= normalizedDistance (getSecondLevelLabel (pageHostnameOf data))
                (getSecondLevelLabel td))%Q
       /\ In (typosquatReason (getSecondLevelLabel (pageHostnameOf data))
                (Str.toLowerCase (getRegisteredDomain (pageHostnameOf data))) td')
            (reasons r).
Proof.
  intros Hr Hin Hclose Hne Hnot. unfold assess in Hr.
  pose proof (analyze_object _ _ _ _ Hr) as (st & Hc & _).
  assert (Hhas : setHas trustedDomains
                   (Str.toLowerCase (getRegisteredDomain (pageHostnameOf data)))
                 = false).
  { destruct (setHas _ _) eqn:E; [|reflexivity]. apply setHas_In in E. contradiction. }
  destruct (typosquatCheck_close_sld trustedDomains (pageHostnameOf data)
              (initialLocals (hostIsTrustedExact trustedDomains (pageHostnameOf data)))
              td Hhas Hin Hclose Hne) as (td' & Hin' & Hle & Hst1).
  cbv zeta in Hst1.
  pose proof (checks_extends _ _ _ _ Hc) as He. cbv beta iota zeta in He.
  destruct Hst1 as (Hf & Hs & Hre).
  rewrite Hf in He. rewrite andb_false_r in He. specialize (He eq_refl).
  assert (Hfin : suspicious r = true /\ (0.75 <= score r)%Q
                 /\ In (typosquatReason (getSecondLevelLabel (pageHostnameOf data))
                          (Str.toLowerCase (getRegisteredDomain (pageHostnameOf data)))
                          td') (reasons r)).
  { eapply flagged_checks_result; [exact Hr | exact Hc | lra |].
    eapply flagged_kept; [exact He|]. auto. }
  destruct Hfin as (F1 & F2 & F3). split; [exact F1|]. split; [exact F2|].
  exists td'. auto.
Qed.

(** X11. A page whose registered domain is not in the trusted set and whose
    second-level label contains one of the brand keywords is suspicious with
    a score of at least 0.65, and a reason names the keyword and its brand. *)
Theorem brand_keyword_is_flagged data trustedDomains r brand keywords kw :
  assess data trustedDomains = Normal r ->
  In (brand, keywords) BRAND_KEYWORDS ->
  In kw keywords ->
  Str.includes (getSecondLevelLabel (pageHostnameOf data)) kw = true ->
  ~ In (Str.toLowerCase (getRegisteredDomain (pageHostnameOf data))) trustedDomains ->
  suspicious r = true /\ (0.65 <= score r)%Q
  /\ In (brandReason (getSecondLevelLabel (pageHostnameOf data)) kw brand) (reasons r).
Proof.
  intros Hr Hb Hk Hinc Hnot. unfold assess in Hr.
  pose proof (analyze_object _ _ _ _ Hr) as (st & Hc & _).
  set (h := pageHostnameOf data) in *.
  set (te := hostIsTrustedExact trustedDomains h) in *.
  assert (Hhas : setHas trustedDomains (Str.toLowerCase (getRegisteredDomain h))
                 = false).
  { destruct (setHas _ _) eqn:E; [|reflexivity]. apply setHas_In in E. contradiction. }
  assert (Hne : negb (Str.isEmpty (getSecondLevelLabel h)) = true).
  { destruct (getSecondLevelLabel h); [|reflexivity]. exfalso.
    cbn in Hb. destruct Hb as [Hb|[Hb|[]]]; injection Hb as <- <-;
      cbn in Hk; repeat (destruct Hk as [<-|Hk]; [discriminate Hinc|]);
      contradiction. }
  assert (Hst1 : let st1 := typosquatCheck trustedDomains h (initialLocals te) in
                 St.suspicious st1 = true /\ (0.65 <= St.score st1)%Q
                 /\ In (brandReason (getSecondLevelLabel h) kw brand) (St.reasons st1)).
  { cbv zeta. unfold typosquatCheck. rewrite Hhas. cbn [negb].
    now apply brandKeywordCheck_fires with (keywords := keywords). }
  cbv zeta in Hst1. destruct Hst1 as (Hf & Hs & Hre).
  pose proof (checks_extends _ _ _ _ Hc) as He. cbv beta iota zeta in He.
  fold h te in He. rewrite Hf, andb_false_r in He. specialize (He eq_refl).
  eapply flagged_checks_result; [exact Hr | exact Hc | lra |].
  eapply flagged_kept; [exact He|]. auto.
Qed.

(** The flag of a result is the flag before the final handling or a score
    of 0.55 or more. *)
Lemma unflagged_below_threshold G data T r :
  analyzeProfileCore G (ArgObject data) T = Normal r ->
  suspicious r = false ->
  (score r < 0.55)%Q.
Proof.
  intros Hr Hs. pose proof (analyze_object _ _ _ _ Hr) as (st & Hc & E).
  rewrite E in Hs |- *. cbv zeta in Hs |- *. cbn [suspicious score] in Hs |- *.
  unfold finalDecision in Hs |- *. cbn [St.suspicious St.score] in Hs |- *.
  apply orb_false_iff in Hs as [_ Hs]. now apply leb_gt.
Qed.

(** An exactly trusted page that is not suspicious has gone through the
    final clamp. *)
Lemma unflagged_trusted_score G data T r :
  analyzeProfileCore G (ArgObject data) T = Normal r ->
  suspicious r = false ->
  hostIsTrustedExact G (pageHostnameOf data) = true ->
  (score r <= 0.05)%Q.
Proof.
  intros Hr Hs Hte. pose proof (analyze_object _ _ _ _ Hr) as (st & Hc & E).
  rewrite E, Hte in Hs |- *. cbv zeta in Hs |- *. cbn [suspicious score] in Hs |- *.
  unfold finalDecision in Hs |- *. cbn [St.suspicious St.score] in Hs |- *.
  apply orb_false_iff in Hs as [Hs _].
  unfold trustDampening in Hs |- *. cbn [andb] in Hs |- *.
  destruct (St.suspicious st) eqn:Hf; cbn [negb] in Hs |- *; [congruence|].
  cbn [St.score]. apply max_lub; [lra|].
  eapply Qle_trans; [apply min_le_r | apply min_le_r].
Qed.

(** X12. A result that is not suspicious has a score below 0.55, so a score of
    0.55 or more always comes with the flag; below that, the score of a
    result that is not suspicious is at most 0.05 on an exactly trusted page
    and at least 0.25 on any other. *)
Theorem unflagged_score_bands G data T r :
  analyzeProfileCore G (ArgObject data) T = Normal r ->
  suspicious r = false ->
  (score r < 0.55)%Q
  /\ (if hostIsTrustedExact G (pageHostnameOf data)
      then (score r <= 0.05)%Q else (0.25 <= score r)%Q).
Proof.
  intros Hr Hs. split; [now apply (unflagged_below_threshold _ _ _ _ Hr)|].
  destruct (hostIsTrustedExact G (pageHostnameOf data)) eqn:Hte.
  - now apply (unflagged_trusted_score _ _ _ _ Hr).
  - eapply not_exactly_trusted_score; [exact Hr|].
    intros d [= <-]. exact Hte.
Qed.

(** The reasons of an assessment start with the verdict of the typosquat
    check, which on an exactly trusted page is that the registered domain
    is trusted. *)
Lemma assess_reasons_head data trustedDomains r :
  assess data trustedDomains = Normal r ->
  exists first rest,
    reasons r = first :: rest
    /\ (hostIsTrustedExact trustedDomains (pageHostnameOf data) = true ->
        first = "Exact registered domain is trusted").
Proof.
  intros Hr. unfold assess in Hr.
  pose proof (analyze_object _ _ _ _ Hr) as (st & Hc & E).
  destruct (checks_stages _ _ _ _ Hc) as (st3 & He & Est). cbv beta iota zeta in He.
  set (h := pageHostnameOf data) in *.
  set (te := hostIsTrustedExact trustedDomains h) in *.
  destruct (typosquatCheck_reasons trustedDomains h (initialLocals te))
    as (first & more & Hty & Hfirst).
  assert (Hpre : exists rest, St.reasons st = first :: rest).
  { match type of He with
    | extends (httpsCheck ?a ?b ?c) _ =>
        destruct (httpsCheck_reasons a b c) as (m1 & Hm1)
    end.
    destruct He as (_ & _ & m2 & Hm2).
    assert (Hx : extends (hostnameChecks h st3) st)
      by (rewrite Est; apply canonicalCheck_extends).
    pose proof (hostnameChecks_extends h st3) as (_ & _ & m3 & Hm3).
    destruct Hx as (_ & _ & m4 & Hm4).
    rewrite Hm4, Hm3, Hm2, Hm1, Hty. cbn [initialLocals St.reasons app].
    eexists. reflexivity. }
  destruct Hpre as (rest & Hpre).
  rewrite E. cbv zeta. cbn [reasons]. unfold finalDecision. cbn [St.reasons].
  unfold trustDampening.
  destruct (te && negb (St.suspicious st)) eqn:Hd; cbn [St.reasons].
  - apply andb_true_iff in Hd as [Hte _].
    rewrite Hpre, (Hfirst (hostIsTrustedExact_has _ _ Hte)).
    cbn [filter]. rewrite isWeakReason_exact. cbn [negb].
    eexists _, _. split; [reflexivity | reflexivity].
  - rewrite Hpre. exists first, rest. split; [reflexivity|]. intros Hte.
    exact (Hfirst (hostIsTrustedExact_has _ _ Hte)).
Qed.

(** X13. Every assessment gives a reason: the reasons of a result of [assess]
    are never empty, and on an exactly trusted page the first one is that
    the registered domain is trusted. *)
Theorem every_assessment_gives_a_reason data trustedDomains r :
  assess data trustedDomains = Normal r ->
  reasons r <> []
  /\ (hostIsTrustedExact trustedDomains (pageHostnameOf data) = true ->
      hd_error (reasons r) = Some "Exact registered domain is trusted").
Proof.
  intros Hr. destruct (assess_reasons_head _ _ _ Hr) as (first & rest & E & Hfirst).
  rewrite E. split; [discriminate|].
  intros Hte. cbn [hd_error]. now rewrite (Hfirst Hte).
Qed.

(** X14. The text sample is read up to its 4000th character: what follows never
    changes the result. *)
Theorem text_beyond_4000_is_ignored G data T t1 t2 :
  String.length t1 = 4000 ->
  analyzeProfileCore G (ArgObject (withText data (t1 ++ t2))) T
  = analyzeProfileCore G (ArgObject (withText data t1)) T.
Proof.
  intros Hlen.
  assert (Hd : forall t, detailsOf (withText data t) = detailsOf data) by reflexivity.
  assert (Hh : forall t, pageHostnameOf (withText data t) = pageHostnameOf data)
    by reflexivity.
  assert (Hc : checks G (withText data (t1 ++ t2)) T = checks G (withText data t1) T).
  { unfold checks. rewrite !Hh.
    cbn [withText Data.url Data.pageUrl Data.origin Data.links Data.linkList
           Data.forms Data.formList Data.textSample Data.ogUrl Data.canonical].
    assert (E : Str.sliceTo 4000 t1 = t1).
    { pose proof (sliceTo_prefix 4000 t1 EmptyString Hlen) as E.
      now rewrite append_empty in E. }
    now rewrite (sliceTo_prefix 4000 t1 t2 Hlen), E. }
  unfold analyzeProfileCore, readData. cbn [bind]. now rewrite Hc, !Hh, !Hd.
Qed.

End Verdicts.


(** At the payload [{ hostname: "192.168.0.1" }]. *)
Lemma raw_hostname_is_flagged_witness :
  exists r,
    analyzeProfileCore (url_api := refUrlApi) defaultTrusted
      (ArgObject (dataOfHostname "192.168.0.1")) (Some defaultTrusted) = Normal r
    /\ suspicious r = true /\ (0.40 <= score r)%Q
    /\ In "Page served from IP address" (reasons r).
Proof.
  assert (Hr : { r | analyzeProfileCore (url_api := refUrlApi) defaultTrusted
                       (ArgObject (dataOfHostname "192.168.0.1"))
                       (Some defaultTrusted) = Normal r })
    by (eexists; vm_compute; reflexivity).
  destruct Hr as (r & Hr). exists r. split; [exact Hr|].
  apply (proj1 (raw_hostname_is_flagged (url_api := refUrlApi) _ _ _ _ Hr)).
  vm_compute. reflexivity.
Defined.

(** At the payload [{ hostname: "tikt0k.com" }] with tiktok.com trusted:
    the labels are at distance 1/6. *)
Lemma close_label_is_typosquat_witness :
  exists r,
    assess (url_api := refUrlApi) (dataOfHostname "tikt0k.com") defaultTrusted
    = Normal r
    /\ suspicious r = true /\ (0.75 <= score r)%Q.
Proof.
  assert (Hr : { r | assess (url_api := refUrlApi) (dataOfHostname "tikt0k.com")
                       defaultTrusted = Normal r })
    by (eexists; vm_compute; reflexivity).
  destruct Hr as (r & Hr). exists r. split; [exact Hr|].
  destruct (close_label_is_typosquat (url_api := refUrlApi)
              _ _ _ "tiktok.com" Hr) as (H1 & H2 & _).
  - right. left. reflexivity.
  - vm_compute. discriminate.
  - vm_compute. discriminate.
  - vm_compute. intros [H|[H|[]]]; discriminate H.
  - split; assumption.
Defined.

(** At the payload [{ hostname: "surfboard.com" }]: the label contains the
    keyword fb. *)
Lemma brand_keyword_is_flagged_witness :
  exists r,
    assess (url_api := refUrlApi) (dataOfHostname "surfboard.com") defaultTrusted
    = Normal r
    /\ suspicious r = true /\ (0.65 <= score r)%Q
    /\ In (brandReason "surfboard" "fb" "facebook") (reasons r).
Proof.
  assert (Hr : { r | assess (url_api := refUrlApi) (dataOfHostname "surfboard.com")
                       defaultTrusted = Normal r })
    by (eexists; vm_compute; reflexivity).
  destruct Hr as (r & Hr). exists r. split; [exact Hr|].
  apply (brand_keyword_is_flagged (url_api := refUrlApi) _ _ _
           "facebook" ["faceb"; "fbk"; "fb"; "facebok"; "faceboek"; "faceboook"]
           "fb" Hr).
  - left. reflexivity.
  - right. right. left. reflexivity.
  - vm_compute. reflexivity.
  - vm_compute. intros [H|[H|[]]]; discriminate H.
Defined.

(** At the payload [{ url: "https://www.facebook.com/" }]. *)
Lemma unflagged_score_bands_witness :
  exists r,
    analyzeProfileCore (url_api := refUrlApi) defaultTrusted
      (ArgObject (dataOfUrl "https://www.facebook.com/")) (Some defaultTrusted)
    = Normal r
    /\ suspicious r = false /\ (score r < 0.55)%Q.
Proof.
  assert (Hr : { r | analyzeProfileCore (url_api := refUrlApi) defaultTrusted
                       (ArgObject (dataOfUrl "https://www.facebook.com/"))
                       (Some defaultTrusted) = Normal r
                     /\ suspicious r = false })
    by (eexists; split; vm_compute; reflexivity).
  destruct Hr as (r & Hr & Hs). exists r. split; [exact Hr|]. split; [exact Hs|].
  exact (proj1 (unflagged_score_bands (url_api := refUrlApi) _ _ _ _ Hr Hs)).
Defined.

(** At the payload [{ url: "https://www.facebook.com/" }]. *)
Lemma every_assessment_gives_a_reason_witness :
  exists r,
    assess (url_api := refUrlApi) (dataOfUrl "https://www.facebook.com/")
      defaultTrusted = Normal r
    /\ reasons r <> [].
Proof.
  assert (Hr : { r | assess (url_api := refUrlApi)
                       (dataOfUrl "https://www.facebook.com/") defaultTrusted
                     = Normal r })
    by (eexists; vm_compute; reflexivity).
  destruct Hr as (r & Hr). exists r. split; [exact Hr|].
  exact (proj1 (every_assessment_gives_a_reason (url_api := refUrlApi) _ _ _ Hr)).
Defined.

(** A red-flag phrase after 4000 other characters. *)
Lemma text_beyond_4000_is_ignored_witness :
  analyzeProfileCore (url_api := refUrlApi) defaultTrusted
    (ArgObject (withText (dataOfHostname "example.org")
                  (fourThousandChars ++ " verify your account")))
    (Some defaultTrusted)
  = analyzeProfileCore (url_api := refUrlApi) defaultTrusted
      (ArgObject (withText (dataOfHostname "example.org") fourThousandChars))
      (Some defaultTrusted).
Proof.
  apply (text_beyond_4000_is_ignored (url_api := refUrlApi)).
  vm_compute. reflexivity.
Defined.


(** ** The links step *)

Section LinksStep.

Context {url_api : UrlApi}.

(** One link: at most one reason, and a positive risk exactly when there is
    one. *)
Lemma link_reason_iff_risk h L :
  List.length (linkReasons h L) <= 1
  /\ (linkReasons h L = [] <-> (linkRisk h L == 0)%Q).
Proof.
  unfold linkRisk, linkReasons, linkIsSuspicious, push.
  repeat match goal with
         | |- context [match ?o with Some _ => _ | None => _ end] => destruct o
         | |- context [if ?b then _ else _] => destruct b
         end;
    cbn [fst snd app List.length];
    (split; [lia|]);
    first [ split; reflexivity
          | split; [discriminate | intros H; vm_compute in H; discriminate H] ].
Qed.

Lemma links_reasons_iff_risk h ls :
  List.length (flat_map (linkReasons h) ls) <= List.length ls
  /\ (flat_map (linkReasons h) ls = [] <-> (sumQ (map (linkRisk h) ls) == 0)%Q).
Proof.
  induction ls as [|L ls (IHl & IHz)]; cbn [flat_map map sumQ fold_right List.length].
  - split; [lia|]. split; reflexivity.
  - fold (sumQ (map (linkRisk h) ls)).
    destruct (link_reason_iff_risk h L) as (Hl & Hz).
    pose proof (linkRisk_range h L) as [H0 _].
    pose proof (sum_risk_bound h ls) as [Hs _].
    rewrite length_app. split; [lia|]. split.
    + intros H. apply app_eq_nil in H as [H1 H2].
      apply Hz in H1. apply IHz in H2. lra.
    + intros H.
      assert (H1 : (linkRisk h L == 0)%Q) by lra.
      assert (H2 : (sumQ (map (linkRisk h) ls) == 0)%Q) by lra.
      apply Hz in H1. apply IHz in H2. now rewrite H1, H2.
Qed.

(** X15. The links step never raises the flag: the mean risk it adds stays
    below the 0.3 it is tested against. It never lowers the score, and it
    appends at most one reason for each of the first 40 links. *)
Theorem links_step_never_flags te h links st :
  let st' := linksCheck te h links st in
  St.suspicious st' = St.suspicious st
  /\ (St.score st <= St.score st')%Q
  /\ exists more,
       St.reasons st' = (St.reasons st ++ more)%list
       /\ List.length more <= 40.
Proof.
  intros st'. subst st'. split; [apply linksCheck_flag|].
  assert (Hsame : (St.score st <= St.score st)%Q
                  /\ exists more,
                       St.reasons st = (St.reasons st ++ more)%list
                       /\ List.length more <= 40).
  { split; [lra|]. exists []. rewrite app_nil_r. cbn [List.length].
    split; [reflexivity | lia]. }
  destruct links as [|[|L ls]|]; try exact Hsame.
  assert (Hne : L :: ls <> []) by discriminate.
  destruct (linksCheck_contribution te h (L :: ls) st Hne) as (Hs & _ & Hr).
  pose proof (linkContributionSpec_range te h (L :: ls) Hne) as Hc.
  cbv zeta in Hs, Hr.
  split; [lra|].
  exists (flat_map (linkReasons h) (firstn 40 (L :: ls))).
  split; [exact Hr|].
  pose proof (proj1 (links_reasons_iff_risk h (firstn 40 (L :: ls)))) as Hl.
  rewrite length_firstn in Hl. lia.
Qed.

End LinksStep.


(** ** What the typosquat check does not flag *)

(** The search over the registered domains, as [bestBySld_spec]. *)
Lemma bestByDomain_spec T reg :
  let best := bestByDomain T reg in
  (Best.dist best <= 1)%Q
  /\ ((Best.dist best < 1)%Q ->
      exists td, In td T /\ Best.dist best = normalizedDistance reg td).
Proof.
  unfold bestByDomain.
  set (f := fun bestFull td =>
              if Num.ltb (normalizedDistance reg td) (Best.dist bestFull)
              then Best.make (Some td) (normalizedDistance reg td) None
              else bestFull).
  set (Inv := fun (seen : list string) (b : Best.t) =>
                (Best.dist b <= 1)%Q
                /\ ((Best.dist b < 1)%Q ->
                    exists td, In td seen
                               /\ Best.dist b = normalizedDistance reg td)).
  assert (G : forall xs seen b, Inv seen b -> Inv (seen ++ xs)%list (fold_left f xs b)).
  { induction xs as [|td xs IH]; intros seen b Hb; cbn [fold_left].
    - now rewrite app_nil_r.
    - replace (seen ++ td :: xs)%list with ((seen ++ [td]) ++ xs)%list
        by now rewrite <- app_assoc.
      apply IH. destruct Hb as (H2 & H3). unfold f, Inv.
      destruct (Num.ltb _ (Best.dist b)) eqn:E; cbn [Best.dist Best.domain Best.sld].
      + apply ltb_lt in E. split; [lra|].
        intros _. exists td. split; [apply in_or_app; right; now left | reflexivity].
      + split; [exact H2|].
        intros Hlt. destruct (H3 Hlt) as (td' & Hin & Hrest).
        exists td'. split; [apply in_or_app; now left | exact Hrest]. }
  apply (G T [] (Best.make None 1.0%Q None)). unfold Inv; cbn [Best.dist].
  split; [lra|]. intros H. exfalso. lra.
Qed.

Lemma existsb_false_In {A : Type} (f : A -> bool) l x :
  existsb f l = false -> In x l -> f x = false.
Proof.
  intros H Hin. destruct (f x) eqn:E; [|reflexivity].
  assert (Ht : existsb f l = true) by (apply existsb_exists; eauto). congruence.
Qed.

Lemma fold_left_id {A S : Type} (f : S -> A -> S) xs :
  (forall x, In x xs -> forall s, f s x = s) ->
  forall s, fold_left f xs s = s.
Proof.
  induction xs as [|x xs IH]; intros H s; [reflexivity|].
  cbn [fold_left]. rewrite (H x (or_introl eq_refl)).
  apply IH. intros y Hy. apply H. now right.
Qed.

Lemma brandKeywordCheck_none sld st :
  containsBrandKeyword sld = false -> brandKeywordCheck sld st = st.
Proof.
  unfold containsBrandKeyword, brandKeywordCheck. intros H.
  apply fold_left_id. intros [brand kws] Hb s.
  pose proof (existsb_false_In _ _ _ H Hb) as Hk. cbn [snd] in Hk.
  apply fold_left_id. intros kw Hin s'.
  now rewrite (existsb_false_In _ _ _ Hk Hin), andb_false_r.
Qed.

(** X16. The typosquat check does not flag a page that is far from every trusted
    domain: when the second-level label and the registered domain are at a
    distance above the threshold, 0.30, from those of every trusted domain
    and the label contains no brand keyword, the step adds the reason that
    there is no similarity and leaves the score and the flag as they were. *)
Theorem far_domain_is_not_typosquat T h st :
  setHas T (Str.toLowerCase (getRegisteredDomain h)) = false ->
  (forall td, In td T ->
     (0.30 < normalizedDistance (getSecondLevelLabel h) (getSecondLevelLabel td))%Q
     /\ (0.30 < normalizedDistance (Str.toLowerCase (getRegisteredDomain h)) td)%Q) ->
  containsBrandKeyword (getSecondLevelLabel h) = false ->
  typosquatCheck T h st
  = St.make (push (St.reasons st) "No similarity to trusted domains detected")
      (St.score st) (St.suspicious st).
Proof.
  intros Hnot Hfar Hkw. unfold typosquatCheck. rewrite Hnot. cbn [negb].
  rewrite (brandKeywordCheck_none _ _ Hkw).
  assert (E1 : Num.leb (Best.dist (bestBySld T (getSecondLevelLabel h)))
                 TYPOSQUAT_DISTANCE_THRESHOLD = false).
  { apply leb_gt. unfold TYPOSQUAT_DISTANCE_THRESHOLD.
    destruct (bestBySld_spec T (getSecondLevelLabel h)) as (_ & _ & H3).
    destruct (Qlt_le_dec (Best.dist (bestBySld T (getSecondLevelLabel h))) 1)
      as [Hlt|Hge]; [|lra].
    destruct (H3 Hlt) as (td & Hin & _ & _ & ->). apply (Hfar td Hin). }
  assert (E2 : Num.leb
                 (Best.dist
                    (bestByDomain T (Str.toLowerCase (getRegisteredDomain h))))
                 TYPOSQUAT_DISTANCE_THRESHOLD = false).
  { apply leb_gt. unfold TYPOSQUAT_DISTANCE_THRESHOLD.
    destruct (bestByDomain_spec T (Str.toLowerCase (getRegisteredDomain h)))
      as (_ & H3).
    destruct (Qlt_le_dec
                (Best.dist (bestByDomain T (Str.toLowerCase (getRegisteredDomain h))))
                1) as [Hlt|Hge]; [|lra].
    destruct (H3 Hlt) as (td & Hin & ->). apply (Hfar td Hin). }
  now rewrite E1, E2, !andb_false_r.
Qed.

(** At example.org against facebook.com and tiktok.com. *)
Lemma far_domain_is_not_typosquat_witness :
  typosquatCheck defaultTrusted "example.org" (initialLocals false)
  = St.make ["No similarity to trusted domains detected"] 0.25%Q false.
Proof.
  assert (H1 : setHas defaultTrusted
                 (Str.toLowerCase (getRegisteredDomain "example.org")) = false)
    by (vm_compute; reflexivity).
  assert (H2 : forall td, In td defaultTrusted ->
                 (0.30 < normalizedDistance (getSecondLevelLabel "example.org")
                           (getSecondLevelLabel td))%Q
                 /\ (0.30 < normalizedDistance
                              (Str.toLowerCase (getRegisteredDomain "example.org"))
                              td)%Q)
    by (intros td [<-|[<-|[]]]; split; vm_compute; reflexivity).
  assert (H3 : containsBrandKeyword (getSecondLevelLabel "example.org") = false)
    by (vm_compute; reflexivity).
  pose proof (far_domain_is_not_typosquat defaultTrusted "example.org"
                (initialLocals false) H1 H2 H3) as H.
  cbn [initialLocals St.reasons St.score St.suspicious push app] in H.
  exact H.
Defined.

(** ** The verdict on an exactly trusted page *)

Section TrustedVerdict.

Context {url_api : UrlApi}.

(** X17. On an exactly trusted page the result is suspicious exactly when one of
    these holds: a credential form posts to another host, the text has a
    red-flag phrase, the hostname is punycode or an IP address, or the
    canonical host is far from the page. Nothing else makes it suspicious:
    not the links, the other forms or a page without HTTPS. *)
Theorem trusted_page_verdict trustedDomains data fs r :
  hostIsTrustedExact trustedDomains (pageHostnameOf data) = true ->
  arrayOr (Data.forms data) (Data.formList data) = IsArray fs ->
  assess data trustedDomains = Normal r ->
  suspicious r
  = existsb (formFires (pageHostnameOf data)) fs
    || textFires (Str.sliceTo 4000 (Data.textSample data))
    || isPunycode (pageHostnameOf data)
    || isIpAddress (pageHostnameOf data)
    || canonicalFires (pageHostnameOf data) (Data.ogUrl data) (Data.canonical data).
Proof.
  intros Hte Hfs Hr. unfold assess in Hr.
  pose proof (analyze_object _ _ _ _ Hr) as (st & Hc & E).
  rewrite <- (checks_flag_trusted _ _ _ _ Hte Hfs Hc).
  rewrite E, Hte. cbv zeta. cbn [suspicious]. unfold trustDampening. cbn [andb].
  destruct (St.suspicious st) eqn:Hf; cbn [negb]; unfold finalDecision;
    cbn [St.suspicious St.score]; rewrite ?Hf; cbn [orb]; [reflexivity|].
  apply leb_gt.
  assert (Hle : (Num.max 0 (Num.min 1 (Num.min (St.score st) 0.05)) <= 0.05)%Q).
  { apply max_lub; [lra|].
    eapply Qle_trans; [apply min_le_r | apply min_le_r]. }
  lra.
Qed.

End TrustedVerdict.

(** On facebook.com with a red-flag phrase in the text. *)
Lemma trusted_page_verdict_witness :
  exists r,
    assess (url_api := refUrlApi)
      (withText (dataOfUrl "https://www.facebook.com/") "Please verify your account")
      defaultTrusted = Normal r
    /\ suspicious r = true.
Proof.
  assert (Hr : { r | assess (url_api := refUrlApi)
                       (withText (dataOfUrl "https://www.facebook.com/")
                          "Please verify your account")
                       defaultTrusted = Normal r })
    by (eexists; vm_compute; reflexivity).
  destruct Hr as (r & Hr). exists r. split; [exact Hr|].
  assert (H1 : hostIsTrustedExact defaultTrusted
                 (pageHostnameOf (url_api := refUrlApi)
                    (withText (dataOfUrl "https://www.facebook.com/")
                       "Please verify your account")) = true)
    by (vm_compute; reflexivity).
  assert (H2 : arrayOr
                 (Data.forms (withText (dataOfUrl "https://www.facebook.com/")
                                "Please verify your account"))
                 (Data.formList (withText (dataOfUrl "https://www.facebook.com/")
                                   "Please verify your account"))
               = IsArray [])
    by reflexivity.
  pose proof (trusted_page_verdict (url_api := refUrlApi) _ _ _ _ H1 H2 Hr) as H.
  rewrite H. vm_compute. reflexivity.
Defined.


(** ** The canonical check *)

Section OwnCanonical.

Context {url_api : UrlApi}.

(** X18. A canonical or Open Graph URL on the page's own host, a leading www.
    apart, is no mismatch: the canonical check leaves the score and the
    flag as they were, and on an exactly trusted page the reasons too. *)
Theorem own_canonical_is_no_mismatch te h og can st :
  Str.stripWww (safeGetHostname (orElse og can)) = Str.stripWww h ->
  let st' := canonicalCheck te h og can st in
  St.score st' = St.score st
  /\ St.suspicious st' = St.suspicious st
  /\ (St.reasons st' = St.reasons st
      \/ St.reasons st' = push (St.reasons st) "Canonical/OG domain matches page")
  /\ (te = true -> st' = st).
Proof.
  intros Hsame st'. subst st'. unfold canonicalCheck.
  destruct (negb (Str.isEmpty (orElse og can))); [|now auto].
  cbv zeta.
  destruct (negb (Str.isEmpty (safeGetHostname (orElse og can)))
            && negb (Str.isEmpty h)); [|now auto].
  rewrite Hsame.
  assert (E : Num.ltb 0.35
                (normalizedDistance (Str.stripWww h) (Str.stripWww h)) = false).
  { destruct (Num.ltb _ _) eqn:E; [|reflexivity]. apply ltb_lt in E.
    assert (Hz : (normalizedDistance (Str.stripWww h) (Str.stripWww h) == 0)%Q)
      by now apply normalizedDistance_zero_aux.
    lra. }
  rewrite E. destruct te; cbn [negb St.score St.suspicious St.reasons]; auto.
  repeat split; auto. discriminate.
Qed.

End OwnCanonical.

(** The page www.example.com with the canonical URL
    https://example.com/page. *)
Lemma own_canonical_is_no_mismatch_witness :
  St.score
    (canonicalCheck (url_api := refUrlApi) false "www.example.com" EmptyString
       "https://example.com/page" (initialLocals false))
  = St.score (initialLocals false).
Proof.
  assert (H : Str.stripWww
                (safeGetHostname (url_api := refUrlApi)
                   (orElse EmptyString "https://example.com/page"))
              = Str.stripWww "www.example.com")
    by (vm_compute; reflexivity).
  exact (proj1 (own_canonical_is_no_mismatch (url_api := refUrlApi) false
                  "www.example.com" EmptyString "https://example.com/page"
                  (initialLocals false) H)).
Defined.


(** ** The notification allowance *)

Lemma inherited_not_proto k :
  Obj.inherited k = false -> String.eqb k "__proto__" = false.
Proof.
  intros H. destruct (String.eqb k "__proto__") eqn:E; [|reflexivity].
  apply String.eqb_eq in E. subst k. vm_compute in H. discriminate.
Qed.

Lemma own_put_other o k k' v :
  String.eqb k k' = false -> Obj.own (Obj.put o k' v) k = Obj.own o k.
Proof.
  intros H. unfold Obj.put. destruct (String.eqb k' "__proto__"); [reflexivity|].
  cbn [Obj.own]. now rewrite H.
Qed.

Lemma own_put_same o k v :
  String.eqb k "__proto__" = false -> Obj.own (Obj.put o k v) k = Some v.
Proof.
  intros H. unfold Obj.put. rewrite H. cbn [Obj.own]. now rewrite String.eqb_refl.
Qed.

Lemma get_ordinary o k :
  Obj.inherited k = false ->
  Obj.get o k = match Obj.own o k with Some v => v | None => VUndefined end.
Proof.
  intros H. unfold Obj.get. rewrite (inherited_not_proto k H), H. reflexivity.
Qed.

(** One call, seen from an ordinary key [k]: a call under another key leaves
    the count of [k] alone; a call under [k] returns false without counting
    when the count is 2 or more, and counts otherwise, whatever it returns. *)
Lemma createFor_step c sent k :
  Obj.inherited k = false ->
  countsOnly sent k ->
  let '(created, _, sent') := createFor c sent in
  countsOnly sent' k
  /\ (if String.eqb (Call.idKey c) k then
        if (2 <=? countOf sent k)%nat
        then created = false /\ countOf sent' k = countOf sent k
        else countOf sent' k = S (countOf sent k)
             /\ created = negb (Str.isEmpty (Call.rawMsg c))
                          || match Call.result c with Some _ => true | None => false end
      else countOf sent' k = countOf sent k).
Proof.
  intros Hk Hw. unfold createFor, createPhishNotification.
  fold (Call.idKey c). cbv zeta.
  destruct (String.eqb (Call.idKey c) k) eqn:Ek.
  - apply String.eqb_eq in Ek. rewrite Ek.
    pose proof (inherited_not_proto k Hk) as Hp.
    unfold countsOnly, countOf in *.
    assert (Hcases : Obj.own sent k = None \/ Obj.own sent k = Some (VNum 0)
                     \/ Obj.own sent k = Some (VNum 1)
                     \/ exists n, Obj.own sent k = Some (VNum (S (S n)))).
    { destruct Hw as [Hw|([|[|n]] & Hw)]; eauto. }
    destruct Hcases as [Hw'|[Hw'|[Hw'|(n & Hw')]]];
      repeat first [ rewrite (get_ordinary _ k Hk)
                   | rewrite own_put_same by exact Hp
                   | rewrite Hw'
                   | progress cbn [orZero atLeastTwo Nat.leb increment] ];
      try (destruct (negb (Str.isEmpty (Call.rawMsg c))), (Call.result c);
           cbn [orb]);
      repeat rewrite own_put_same by exact Hp;
      (split; [right; now eexists | split; reflexivity]).
  - assert (Ek' : String.eqb k (Call.idKey c) = false)
      by (rewrite String.eqb_sym; exact Ek).
    assert (Hown : forall v w,
               Obj.own (Obj.put (Obj.put sent (Call.idKey c) v) (Call.idKey c) w) k
               = Obj.own sent k)
      by (intros; now rewrite !own_put_other).
    assert (Hown1 : forall v, Obj.own (Obj.put sent (Call.idKey c) v) k = Obj.own sent k)
      by (intros; now rewrite own_put_other).
    unfold countsOnly, countOf.
    destruct (atLeastTwo _).
    + rewrite Hown1. split; [exact Hw | reflexivity].
    + destruct (negb (Str.isEmpty (Call.rawMsg c))), (Call.result c);
        rewrite Hown; (split; [exact Hw | reflexivity]).
Qed.

Lemma shownFor_cons k c calls sent :
  shownFor k (c :: calls) sent
  = (if String.eqb (Call.idKey c) k && fst (fst (createFor c sent)) then 1 else 0)
    + shownFor k calls (snd (createFor c sent)).
Proof.
  unfold shownFor. cbn [notifyAll].
  destruct (createFor c sent) as [[created n] sent']. cbn [fst snd].
  destruct (notifyAll calls sent') as [rest final].
  cbn [fst snd combine filter List.length].
  destruct (String.eqb (Call.idKey c) k && created); reflexivity.
Qed.

Lemma shownFor_bound k calls :
  Obj.inherited k = false ->
  forall sent,
    countsOnly sent k ->
    shownFor k calls sent + Nat.min 2 (countOf sent k) <= 2.
Proof.
  intros Hk. induction calls as [|c calls IH]; intros sent Hw.
  - unfold shownFor. cbn [notifyAll fst combine filter List.length]. lia.
  - rewrite shownFor_cons.
    pose proof (createFor_step c sent k Hk Hw) as Hstep.
    destruct (createFor c sent) as [[created n] sent'].
    cbn [fst snd]. destruct Hstep as (Hw' & Hc).
    specialize (IH sent' Hw').
    destruct (String.eqb (Call.idKey c) k); cbn [andb].
    + destruct (2 <=? countOf sent k)%nat eqn:E2.
      * destruct Hc as (-> & Hc). rewrite Hc in IH. lia.
      * apply Nat.leb_gt in E2. destruct Hc as (Hc & _). rewrite Hc in IH.
        destruct created; lia.
    + rewrite Hc in IH. lia.
Qed.

Lemma notifyAll_app xs ys sent :
  notifyAll (xs ++ ys) sent
  = (fst (notifyAll xs sent) ++ fst (notifyAll ys (snd (notifyAll xs sent))),
     snd (notifyAll ys (snd (notifyAll xs sent))))%list.
Proof.
  revert sent. induction xs as [|c xs IH]; intros sent; cbn [app notifyAll fst snd].
  - now destruct (notifyAll ys sent).
  - destruct (createFor c sent) as [[created n] sent'].
    rewrite IH. destruct (notifyAll xs sent') as [rest final]. reflexivity.
Qed.

Lemma notifyAll_length xs sent :
  List.length (fst (notifyAll xs sent)) = List.length xs.
Proof.
  revert sent. induction xs as [|c xs IH]; intros sent; cbn [notifyAll]; [reflexivity|].
  destruct (createFor c sent) as [[created n] sent']. specialize (IH sent').
  destruct (notifyAll xs sent') as [rest final]. cbn [fst List.length] in *.
  now rewrite IH.
Qed.

(** The count under an ordinary key after a sequence of calls: every call
    under the key counts, up to 2. *)
Lemma countOf_after k calls :
  Obj.inherited k = false ->
  forall sent,
    countsOnly sent k -> countOf sent k <= 2 ->
    countsOnly (snd (notifyAll calls sent)) k
    /\ countOf (snd (notifyAll calls sent)) k
       = Nat.min 2 (countOf sent k + List.length (callsFor k calls)).
Proof.
  intros Hk. induction calls as [|c calls IH]; intros sent Hw Hle.
  - cbn [notifyAll snd callsFor filter List.length]. split; [exact Hw | lia].
  - cbn [notifyAll callsFor filter].
    pose proof (createFor_step c sent k Hk Hw) as Hstep.
    destruct (createFor c sent) as [[created n] sent'].
    destruct Hstep as (Hw' & Hc).
    assert (Hle' : countOf sent' k <= 2).
    { destruct (String.eqb (Call.idKey c) k); [|lia].
      destruct (2 <=? countOf sent k)%nat eqn:E2; [lia|].
      apply Nat.leb_gt in E2. lia. }
    specialize (IH sent' Hw' Hle').
    destruct (notifyAll calls sent') as [rest final]. cbn [snd] in *.
    destruct IH as (IH1 & IH2). split; [exact IH1|]. rewrite IH2.
    fold (callsFor k calls).
    destruct (String.eqb (Call.idKey c) k); cbn [List.length].
    + destruct (2 <=? countOf sent k)%nat eqn:E2.
      * apply Nat.leb_le in E2. lia.
      * apply Nat.leb_gt in E2. lia.
    + lia.
Qed.

(** What a call returns after the calls [before], from the empty
    [notificationsSent]. *)
Lemma created_after before c after :
  Obj.inherited (Call.idKey c) = false ->
  nth (List.length before) (fst (notifyAll (before ++ c :: after) Obj.empty)) false
  = (List.length (callsFor (Call.idKey c) before) <? 2)%nat
    && (negb (Str.isEmpty (Call.rawMsg c))
        || match Call.result c with Some _ => true | None => false end).
Proof.
  intros Hk. rewrite notifyAll_app. cbn [fst].
  rewrite app_nth2 by (rewrite notifyAll_length; lia).
  rewrite notifyAll_length, Nat.sub_diag.
  destruct (countOf_after (Call.idKey c) before Hk Obj.empty (or_introl eq_refl))
    as (Hw & Hn); [cbn; lia|].
  change (countOf Obj.empty (Call.idKey c)) with 0 in Hn. cbn [Nat.add] in Hn.
  cbn [notifyAll].
  pose proof (createFor_step c _ (Call.idKey c) Hk Hw) as Hstep.
  destruct (createFor c _) as [[created n] sent'].
  destruct (notifyAll after sent') as [rest final]. cbn [fst nth].
  destruct Hstep as (_ & Hc). rewrite String.eqb_refl, Hn in Hc.
  destruct (List.length (callsFor (Call.idKey c) before)) as [|[|m]];
    cbn [Nat.min Nat.leb Nat.ltb] in *.
  - now destruct Hc as (_ & ->).
  - now destruct Hc as (_ & ->).
  - now destruct Hc as (-> & _).
Qed.

(** X19. From the empty [notificationsSent], whatever the calls and their
    arguments, at most two calls under one key return true, for every key
    that is not the name of a property of [Object.prototype]. A call under
    such a key returns true exactly when fewer than two calls were made
    under the key before it, whatever they returned, and its message can be
    built: the raw message is not empty or the result is not null. *)
Theorem notification_rate_limit k calls :
  Obj.inherited k = false ->
  shownFor k calls Obj.empty <= 2
  /\ forall before c after,
       calls = (before ++ c :: after)%list ->
       Call.idKey c = k ->
       nth (List.length before) (fst (notifyAll calls Obj.empty)) false
       = (List.length (callsFor k before) <? 2)%nat
         && (negb (Str.isEmpty (Call.rawMsg c))
             || match Call.result c with Some _ => true | None => false end).
Proof.
  intros Hk. split.
  - pose proof (shownFor_bound k calls Hk Obj.empty (or_introl eq_refl)). lia.
  - intros before c after -> <-. apply created_after. exact Hk.
Qed.

(** X20. The listener answers [notified: true] to the first two alerts under a
    key and [notified: false] to every later one, for every key that is not
    the name of a property of [Object.prototype]. *)
Theorem alerts_first_two_are_shown before a after :
  Obj.inherited (Call.idKey (phishAlertCall a)) = false ->
  nth (List.length before) (phishAlerts (before ++ a :: after) Obj.empty) false
  = (List.length (callsFor (Call.idKey (phishAlertCall a))
                    (map phishAlertCall before)) <? 2)%nat.
Proof.
  intros Hk. unfold phishAlerts. rewrite map_app. cbn [map].
  rewrite <- (length_map phishAlertCall before).
  rewrite (created_after _ _ _ Hk).
  assert (Hmsg : negb (Str.isEmpty (Call.rawMsg (phishAlertCall a))) = true).
  { unfold phishAlertCall. cbn [Call.rawMsg]. unfold orElse.
    destruct (Str.isEmpty (Alert.msg a)) eqn:E; [reflexivity | now rewrite E]. }
  rewrite Hmsg. cbn [orb]. now rewrite andb_true_r.
Qed.

(** Three alerts for one link. *)
Lemma notification_rate_limit_witness :
  shownFor "https://evil.example/login"
    (map phishAlertCall
       (repeat (Alert.make 0 "https://evil.example/login" "Suspicious link"
                  "https://evil.example/login" None) 3))
    Obj.empty <= 2.
Proof.
  apply (notification_rate_limit "https://evil.example/login").
  vm_compute. reflexivity.
Defined.

(** The third of three alerts for one link. *)
Lemma alerts_first_two_are_shown_witness :
  nth 2
    (phishAlerts
       (repeat (Alert.make 0 "https://evil.example/login" "Suspicious link"
                  "https://evil.example/login" None) 3)
       Obj.empty) false
  = false.
Proof.
  exact (alerts_first_two_are_shown
           (repeat (Alert.make 0 "https://evil.example/login" "Suspicious link"
                      "https://evil.example/login" None) 2)
           (Alert.make 0 "https://evil.example/login" "Suspicious link"
              "https://evil.example/login" None)
           [] eq_refl).
Defined.

(** The key [__proto__] is not limited: the accessor never holds a count. *)
Example proto_key_is_not_limited :
  phishAlerts (repeat (Alert.make 0 "__proto__" "x" "o" None) 5) Obj.empty
  = [true; true; true; true; true].
Proof. vm_compute. reflexivity. Qed.


(** ** The trusted set the listener loads *)

Lemma newSet_fold acc xs :
  let set :=
    fold_left (fun set x => if setHas set x then set else (set ++ [x])%list) xs acc in
  (forall x, In x set <-> In x acc \/ In x xs)
  /\ (NoDup acc -> NoDup set).
Proof.
  revert acc. induction xs as [|y xs IH]; intros acc; cbn [fold_left].
  - split; [intros x; cbn; tauto | auto].
  - destruct (setHas acc y) eqn:E.
    + destruct (IH acc) as (H1 & H2). split; [|exact H2].
      intros x. rewrite H1. cbn [In]. apply setHas_In in E.
      split; [tauto|]. intros [H|[<-|H]]; auto.
    + destruct (IH (acc ++ [y])%list) as (H1 & H2). split.
      * intros x. rewrite H1, in_app_iff. cbn [In]. tauto.
      * intros Hnd. apply H2. apply NoDup_app; [exact Hnd | repeat constructor; auto |].
        intros x Hx [<-|[]]. apply setHas_In in Hx. congruence.
Qed.

Lemma newSet_In xs x : In x (newSet xs) <-> In x xs.
Proof.
  destruct (newSet_fold [] xs) as (H & _). unfold newSet. rewrite H. cbn [In]. tauto.
Qed.

Lemma newSet_NoDup xs : NoDup (newSet xs).
Proof. destruct (newSet_fold [] xs) as (_ & H). apply H. constructor. Qed.

Lemma registeredDomains_strings xs :
  registeredDomains (map Some xs)
  = Normal (map (fun s => getRegisteredDomain (Str.toLowerCase s)) xs).
Proof.
  induction xs as [|s xs IH]; [reflexivity|].
  cbn [map registeredDomains]. now rewrite IH.
Qed.

Lemma registeredDomains_normal arr mapped :
  registeredDomains arr = Normal mapped ->
  forall d, In d mapped -> exists s, d = getRegisteredDomain (Str.toLowerCase s).
Proof.
  revert mapped. induction arr as [|[s|] arr IH]; intros mapped H; cbn in H.
  - injection H as <-. intros d [].
  - destruct (registeredDomains arr) as [rest|]; [|discriminate].
    cbn in H. injection H as <-. intros d [<-|Hin]; [now exists s | eauto].
  - discriminate.
Qed.

Lemma isEmpty_false s : Str.isEmpty s = false <-> s <> EmptyString.
Proof. destruct s; cbn; split; congruence. Qed.

(** X21. Whatever is stored, the loaded set has no duplicate and no empty entry,
    and each entry is in lower case and is its own registered domain. *)
Theorem loaded_domains_are_normalized stored :
  NoDup (loadTrusted stored)
  /\ forall d,
       In d (loadTrusted stored) ->
       d <> EmptyString /\ isLowerCased d = true /\ getRegisteredDomain d = d.
Proof.
  unfold loadTrusted. split.
  - destruct (registeredDomains _); apply newSet_NoDup.
  - intros d Hd.
    destruct (registeredDomains _) as [mapped|] eqn:E.
    + apply newSet_In, filter_In in Hd as [Hin Hne].
      destruct (registeredDomains_normal _ _ E d Hin) as (s & ->).
      split; [now apply isEmpty_false, negb_true_iff|]. split.
      * rewrite getRegisteredDomain_lower. apply toLowerCase_lowered.
      * apply getRegisteredDomain_idem.
    + apply newSet_In in Hd. cbn in Hd.
      destruct Hd as [<-|[<-|[]]]; (split; [discriminate | split; reflexivity]).
Qed.

Lemma getRegisteredDomain_nonempty h :
  h <> EmptyString -> getRegisteredDomain h <> EmptyString.
Proof.
  intros Hne H. apply Hne.
  destruct (le_lt_dec 2 (List.length (getLabels h))) as [H2|H2].
  - destruct (getRegisteredDomain_two h H2) as (pre & x & y & Eh & Er & _).
    assert (Hx : In x (getLabels h)) by (rewrite Eh; apply in_or_app; right; now left).
    apply getLabels_In in Hx as [Hx _]. rewrite Er in H.
    destruct x; [discriminate Hx | discriminate H].
  - unfold getRegisteredDomain in H. apply Nat.leb_gt in H2. now rewrite H2 in H.
Qed.

Lemma toLowerCase_nonempty s : s <> EmptyString -> Str.toLowerCase s <> EmptyString.
Proof. now destruct s. Qed.

(** The entries of the set loaded from an array of strings. *)
Lemma loadTrusted_In xs d :
  In d (loadTrusted (IsArray (map Some xs)))
  <-> d <> EmptyString
      /\ exists s, In s xs /\ getRegisteredDomain (Str.toLowerCase s) = d.
Proof.
  unfold loadTrusted.
  rewrite registeredDomains_strings, newSet_In, filter_In, in_map_iff.
  rewrite negb_true_iff, isEmpty_false. split.
  - intros ((s & Es & Hin) & Hne). split; [exact Hne | now exists s].
  - intros (Hne & s & Hin & Es). split; [now exists s | exact Hne].
Qed.

(** A hostname with the registered domain of a stored entry is exactly
    trusted. *)
Lemma trusted_by_entry xs h s :
  h <> EmptyString ->
  In s xs ->
  getRegisteredDomain (Str.toLowerCase s) = getRegisteredDomain (Str.toLowerCase h) ->
  hostIsTrustedExact (loadTrusted (IsArray (map Some xs))) h = true.
Proof.
  intros Hne Hin Es. apply hostIsTrustedExact_spec. split; [exact Hne|].
  apply loadTrusted_In. rewrite <- getRegisteredDomain_lower. split.
  - now apply getRegisteredDomain_nonempty, toLowerCase_nonempty.
  - now exists s.
Qed.

(** X22. A page is exactly trusted against the loaded set exactly when its
    hostname is not empty and some stored entry has its registered domain,
    letter case ignored. *)
Theorem stored_domain_is_trusted xs h :
  hostIsTrustedExact (loadTrusted (IsArray (map Some xs))) h = true
  <-> h <> EmptyString
      /\ exists s,
           In s xs
           /\ getRegisteredDomain (Str.toLowerCase s)
              = getRegisteredDomain (Str.toLowerCase h).
Proof.
  split.
  - intros H. apply hostIsTrustedExact_spec in H as (Hne & Hin).
    apply loadTrusted_In in Hin as (_ & s & Hs & Es).
    split; [exact Hne|]. exists s. split; [exact Hs|].
    rewrite Es. symmetry. apply getRegisteredDomain_lower.
  - intros (Hne & s & Hin & Es). now apply (trusted_by_entry xs h s).
Qed.

(** An entry under a two-label public suffix makes every host under that
    suffix exactly trusted. *)
Example co_uk_entry_trusts_the_suffix :
  hostIsTrustedExact (loadTrusted (IsArray [Some "Shop.Example.co.uk"]))
    "login.elsewhere.co.uk" = true.
Proof. vm_compute. reflexivity. Qed.

(** ** The options page *)

Section OptionsPage.

Context {url_api : UrlApi}.

Lemma hostOnly_lowered s : isLowerCased (hostOnly s) = true.
Proof.
  unfold hostOnly. destruct (Str.isEmpty s); [reflexivity|]. cbv zeta.
  destruct (new_URL _ _); apply toLowerCase_lowered.
Qed.

(** X23. The handler that adds a trusted domain never stores a duplicate or an
    empty entry: it keeps the list as it is or appends one entry, in lower
    case, to a list that did not have it, and a second click with the same
    text changes nothing. *)
Theorem addTrusted_adds_once input trustedDomains :
  (addTrusted input trustedDomains = trustedDomains
   \/ addTrusted input trustedDomains = (trustedDomains ++ [hostOnly input])%list
      /\ ~ In (hostOnly input) trustedDomains
      /\ hostOnly input <> EmptyString
      /\ isLowerCased (hostOnly input) = true)
  /\ (NoDup trustedDomains -> NoDup (addTrusted input trustedDomains))
  /\ addTrusted input (addTrusted input trustedDomains)
     = addTrusted input trustedDomains.
Proof.
  unfold addTrusted, push. cbv zeta.
  destruct (Str.isEmpty (hostOnly input)) eqn:Ev.
  - split; [now left|]. split; auto.
  - destruct (setHas trustedDomains (hostOnly input)) eqn:Eh.
    + split; [now left|]. split; [auto | now rewrite Eh].
    + assert (Hnot : ~ In (hostOnly input) trustedDomains).
      { intros Hin. apply setHas_In in Hin. congruence. }
      split; [|split].
      * right. split; [reflexivity|]. split; [exact Hnot|].
        split; [now apply isEmpty_false | apply hostOnly_lowered].
      * intros Hnd. apply NoDup_app; [exact Hnd | repeat constructor; auto |].
        intros x Hx [<-|[]]. contradiction.
      * assert (Hin : setHas (trustedDomains ++ [hostOnly input]) (hostOnly input)
                      = true).
        { apply setHas_In, in_or_app. right. now left. }
        now rewrite Hin.
Qed.

(** X24. From the options page to the background: once the list is saved, the
    host the handler added is exactly trusted against the set the listener
    loads, and so is every host with its registered domain. *)
Theorem added_domain_is_trusted input trustedDomains h :
  hostOnly input <> EmptyString ->
  h <> EmptyString ->
  getRegisteredDomain (Str.toLowerCase h) = getRegisteredDomain (hostOnly input) ->
  hostIsTrustedExact
    (loadTrusted (IsArray (map Some (addTrusted input trustedDomains)))) h = true.
Proof.
  intros Hv Hh Hreg. apply (trusted_by_entry _ h (hostOnly input)); [exact Hh | |].
  2: now rewrite (toLowerCase_fixed _ (hostOnly_lowered input)).
  unfold addTrusted, push. cbv zeta.
  apply isEmpty_false in Hv. rewrite Hv.
  destruct (setHas trustedDomains (hostOnly input)) eqn:E.
  - now apply setHas_In.
  - apply in_or_app. right. now left.
Qed.

End OptionsPage.

(** The text [" Example.com/login "] typed into the options page. *)
Lemma added_domain_is_trusted_witness :
  hostOnly (url_api := refUrlApi) " Example.com/login " = "example.com"
  /\ hostIsTrustedExact
       (loadTrusted
          (IsArray (map Some (addTrusted (url_api := refUrlApi)
                                " Example.com/login " DEFAULT_TRUSTED))))
       "www.example.com" = true.
Proof.
  split; [vm_compute; reflexivity|].
  apply (added_domain_is_trusted (url_api := refUrlApi)).
  - vm_compute. discriminate.
  - discriminate.
  - vm_compute. reflexivity.
Defined.

(** ** The listener *)

Section Listener.

Context {url_api : UrlApi}.

(** X25. From the stored list to the verdict: for a page whose registered domain
    is that of a stored entry, letter case ignored, the answer of the
    listener starts with the reason that the registered domain is trusted,
    and unless a check raised the flag its score is at most 0.05. *)
Theorem listener_trusts_stored_domains xs data r s :
  onAnalyzeProfile (IsArray (map Some xs)) (ArgObject data) = Normal r ->
  In s xs ->
  pageHostnameOf data <> EmptyString ->
  getRegisteredDomain (Str.toLowerCase s) = getRegisteredDomain (pageHostnameOf data) ->
  hd_error (reasons r) = Some "Exact registered domain is trusted"
  /\ (suspicious r = false -> (score r <= 0.05)%Q).
Proof.
  unfold onAnalyzeProfile. intros Hr Hin Hne Hreg.
  assert (Hlow : Str.toLowerCase (pageHostnameOf data) = pageHostnameOf data).
  { apply toLowerCase_fixed. unfold pageHostnameOf, orElse.
    destruct (Str.isEmpty (safeGetHostname _)); [|apply safeGetHostname_lowered].
    destruct (negb (Str.isEmpty (Data.hostname data)));
      [apply safeGetHostname_lowered | reflexivity]. }
  assert (Hte : hostIsTrustedExact (loadTrusted (IsArray (map Some xs)))
                  (pageHostnameOf data) = true).
  { apply (trusted_by_entry _ _ s); [exact Hne | exact Hin | now rewrite Hlow]. }
  split.
  - destruct (assess_reasons_head _ _ _ Hr) as (first & rest & E & Hfirst).
    rewrite E. cbn [hd_error]. now rewrite (Hfirst Hte).
  - intros Hs. exact (unflagged_trusted_score _ _ _ _ Hr Hs Hte).
Qed.

End Listener.

(** With Example.com stored, at the payload
    [{ url: "https://www.example.com/" }]. *)
Lemma listener_trusts_stored_domains_witness :
  exists r,
    onAnalyzeProfile (url_api := refUrlApi) (IsArray (map Some ["Example.com"]))
      (ArgObject (dataOfUrl "https://www.example.com/")) = Normal r
    /\ hd_error (reasons r) = Some "Exact registered domain is trusted"
    /\ suspicious r = false /\ (score r <= 0.05)%Q.
Proof.
  assert (Hr : { r | onAnalyzeProfile (url_api := refUrlApi)
                       (IsArray (map Some ["Example.com"]))
                       (ArgObject (dataOfUrl "https://www.example.com/"))
                     = Normal r
                     /\ suspicious r = false })
    by (eexists; split; vm_compute; reflexivity).
  destruct Hr as (r & Hr & Hs). exists r. split; [exact Hr|].
  destruct (listener_trusts_stored_domains (url_api := refUrlApi)
              ["Example.com"] _ r "Example.com" Hr) as (H1 & H2).
  - left. reflexivity.
  - vm_compute. discriminate.
  - vm_compute. reflexivity.
  - split; [exact H1|]. split; [exact Hs | exact (H2 Hs)].
Defined.

(** ** The popup *)

Lemma roundPercent_bounds (x lo hi : Q) (a b : Z) :
  (lo <= x <= hi)%Q ->
  Qfloor (lo * 100 + (1 # 2)) = a ->
  Qfloor (hi * 100 + (1 # 2)) = b ->
  (a <= roundPercent x <= b)%Z.
Proof.
  intros [H1 H2] <- <-. unfold roundPercent. split; apply Qfloor_resp_le; lra.
Qed.

Section Popup.

Context {url_api : UrlApi}.

(** X26. What the popup shows of a result of the analysis: a percentage from 0
    to 100 and at most ten reasons, the first ones; and under the all-clear
    the percentage is at most 5 on an exactly trusted page and from 25 to 55
    on any other. *)
Theorem popup_percentages G data T r :
  analyzeProfileCore G (ArgObject data) T = Normal r ->
  exists shown,
    renderResult (Some (Some r)) = Some shown
    /\ Shown.warning shown = suspicious r
    /\ (0 <= Shown.percent shown <= 100)%Z
    /\ Shown.listed shown = firstn 10 (reasons r)
    /\ List.length (Shown.listed shown) <= 10
    /\ (Shown.warning shown = false ->
        if hostIsTrustedExact G (pageHostnameOf data)
        then (Shown.percent shown <= 5)%Z
        else (25 <= Shown.percent shown <= 55)%Z).
Proof.
  intros Hr. eexists. split; [reflexivity|].
  cbn [Shown.warning Shown.percent Shown.listed].
  pose proof (analyzeProfileCore_normal _ _ _ _ Hr) as (d & st & _ & _ & E).
  assert (Hrange : (0 <= score r <= 1)%Q).
  { rewrite E. cbv zeta. cbn [score]. apply finalDecision_score_range. }
  split; [reflexivity|]. split.
  - apply (roundPercent_bounds (score r) 0 1); [exact Hrange | |]; reflexivity.
  - split; [reflexivity|]. split; [rewrite length_firstn; lia|].
    intros Hs. pose proof (unflagged_below_threshold _ _ _ _ Hr Hs) as Hlt.
    destruct (hostIsTrustedExact G (pageHostnameOf data)) eqn:Hte.
    + pose proof (unflagged_trusted_score _ _ _ _ Hr Hs Hte) as Hb.
      apply (roundPercent_bounds (score r) 0 0.05 0 5); [lra | |]; reflexivity.
    + assert (Hb : (0.25 <= score r)%Q).
      { eapply not_exactly_trusted_score; [exact Hr|]. intros d0 [= <-]. exact Hte. }
      apply (roundPercent_bounds (score r) 0.25 0.55 25 55); [lra | |]; reflexivity.
Qed.

End Popup.

(** At the payload [{ url: "https://www.facebook.com/" }]. *)
Lemma popup_percentages_witness :
  exists r shown,
    analyzeProfileCore (url_api := refUrlApi) defaultTrusted
      (ArgObject (dataOfUrl "https://www.facebook.com/")) (Some defaultTrusted)
    = Normal r
    /\ renderResult (Some (Some r)) = Some shown
    /\ (0 <= Shown.percent shown <= 100)%Z.
Proof.
  assert (Hr : { r | analyzeProfileCore (url_api := refUrlApi) defaultTrusted
                       (ArgObject (dataOfUrl "https://www.facebook.com/"))
                       (Some defaultTrusted) = Normal r })
    by (eexists; vm_compute; reflexivity).
  destruct Hr as (r & Hr).
  destruct (popup_percentages (url_api := refUrlApi) _ _ _ _ Hr)
    as (shown & H1 & _ & H2 & _).
  exists r, shown. auto.
Defined.

(** * The links and the forms in the result *)

(** ** One step more, seen in the result *)

Lemma shifted_update L delta b st0 st r k (raise : bool) :
  shifted L delta b st0 st ->
  shifted L delta b
    (St.make (push (St.reasons st0) r) (St.score st0 + k)%Q
       (if raise then true else St.suspicious st0))
    (St.make (push (St.reasons st) r) (St.score st + k)%Q
       (if raise then true else St.suspicious st)).
Proof.
  intros (Hs & Hf & before & after & H0 & H1).
  repeat split; cbn [St.reasons St.score St.suspicious].
  - lra.
  - destruct raise; [reflexivity | exact Hf].
  - exists before, (after ++ [r])%list. unfold push. rewrite H0, H1.
    now rewrite <- !app_assoc.
Qed.

Lemma shifted_fold_left {A : Type} L delta b (f : St.t -> A -> St.t) :
  (forall x st0 st, shifted L delta b st0 st -> shifted L delta b (f st0 x) (f st x)) ->
  forall xs st0 st,
    shifted L delta b st0 st ->
    shifted L delta b (fold_left f xs st0) (fold_left f xs st).
Proof.
  intros Hf xs. induction xs as [|x xs IH]; intros st0 st H; cbn [fold_left]; auto.
Qed.

Lemma textCheck_shifted L delta b te text st0 st :
  shifted L delta b st0 st ->
  shifted L delta b (textCheck te text st0) (textCheck te text st).
Proof.
  intros H. unfold textCheck. destruct (negb (Str.isEmpty text)); [|exact H].
  apply shifted_fold_left; [|exact H]. intros f s0 s Hs.
  destruct (Str.includes (Str.toLowerCase text) f); [|exact Hs].
  apply (shifted_update L delta b s0 s _ _ true Hs).
Qed.

Lemma hostnameChecks_shifted L delta b h st0 st :
  shifted L delta b st0 st ->
  shifted L delta b (hostnameChecks h st0) (hostnameChecks h st).
Proof.
  intros H. unfold hostnameChecks.
  assert (H1 : shifted L delta b
                 (if isPunycode h
                  then St.make (push (St.reasons st0) "Page hostname uses punycode")
                         (St.score st0 + 0.40)%Q true
                  else st0)
                 (if isPunycode h
                  then St.make (push (St.reasons st) "Page hostname uses punycode")
                         (St.score st + 0.40)%Q true
                  else st)).
  { destruct (isPunycode h); [|exact H].
    apply (shifted_update L delta b st0 st _ _ true H). }
  destruct (isIpAddress h); [|exact H1].
  apply (shifted_update L delta b _ _ _ _ true H1).
Qed.

Section Shifted.

Context {url_api : UrlApi}.

Lemma canonicalCheck_shifted L delta b te h og can st0 st :
  shifted L delta b st0 st ->
  shifted L delta b (canonicalCheck te h og can st0) (canonicalCheck te h og can st).
Proof.
  intros H. unfold canonicalCheck.
  destruct (negb (Str.isEmpty (orElse og can))); [|exact H]. cbv zeta.
  destruct (negb (Str.isEmpty (safeGetHostname (orElse og can)))
            && negb (Str.isEmpty h)); [|exact H].
  destruct (Num.ltb 0.35 _).
  - apply (shifted_update L delta b st0 st _ _ true H).
  - destruct (negb te); [|exact H].
    destruct H as (Hs & Hf & before & after & H0 & H1).
    repeat split; cbn [St.reasons St.score St.suspicious]; auto.
    exists before, (after ++ ["Canonical/OG domain matches page"])%list.
    unfold push. rewrite H0, H1. now rewrite <- !app_assoc.
Qed.




(** The locals the checks leave on a payload with links, against those on
    the same payload with an empty list of links. *)
Lemma checks_with_links G T data links st st0 :
  links <> [] ->
  checks G (withLinks data (IsArray links)) T = Normal st ->
  checks G (withLinks data (IsArray [])) T = Normal st0 ->
  shifted (flat_map (linkReasons (pageHostnameOf data)) (firstn 40 links))
    (linkContributionSpec (hostIsTrustedExact G (pageHostnameOf data))
       (pageHostnameOf data) links)
    false st0 st.
Proof.
  intros Hne H H0. unfold checks, bind in H, H0.
  change (pageHostnameOf (withLinks data (IsArray links)))
    with (pageHostnameOf data) in H.
  change (pageHostnameOf (withLinks data (IsArray [])))
    with (pageHostnameOf data) in H0.
  cbn [withLinks Data.url Data.pageUrl Data.origin Data.links Data.linkList
       Data.forms Data.formList Data.textSample Data.ogUrl Data.canonical
       arrayOr] in H, H0.
  destruct (formsCheck _ _ _ _) as [stf|]; [|discriminate].
  injection H as <-. injection H0 as <-.
  apply canonicalCheck_shifted, hostnameChecks_shifted, textCheck_shifted.
  change (shifted
            (flat_map (linkReasons (pageHostnameOf data)) (firstn 40 links))
            (linkContributionSpec (hostIsTrustedExact G (pageHostnameOf data))
               (pageHostnameOf data) links)
            false stf
            (linksCheck (hostIsTrustedExact G (pageHostnameOf data))
               (pageHostnameOf data) (IsArray links) stf)).
  destruct (linksCheck_contribution
              (hostIsTrustedExact G (pageHostnameOf data)) (pageHostnameOf data)
              links stf Hne) as (Hs & _ & Hr).
  cbv zeta in Hs, Hr.
  split; [exact Hs|]. split; [now rewrite linksCheck_flag, orb_false_r|].
  exists (St.reasons stf), []. now rewrite Hr, !app_nil_r.
Qed.


Lemma checks_nonneg G data T st :
  checks G data T = Normal st -> (0 <= St.score st)%Q.
Proof.
  intros H. destruct (before_hostname_nonneg _ _ _ _ H) as (st3 & H0 & ->).
  eapply Qle_trans; [exact H0|].
  eapply Qle_trans; [apply hostnameChecks_extends | apply canonicalCheck_extends].
Qed.

End Shifted.


(** Case analysis on the comparisons of [Num.min] and [Num.max], the
    innermost first. *)
Ltac leb_case :=
  match goal with
  | |- context [Num.leb ?a ?b] =>
      lazymatch a with
      | context [Num.leb _ _] => fail
      | _ =>
          lazymatch b with
          | context [Num.leb _ _] => fail
          | _ =>
              let E := fresh "E" in
              destruct (Num.leb a b) eqn:E;
              [apply leb_le in E | apply leb_gt in E]
          end
      end
  end.

Ltac clamp_cases := unfold Num.min, Num.max; repeat leb_case; try lra.

(** The final scores of two runs that differ by one step which adds
    [delta] and leaves the flag alone. *)
Lemma final_scores_same_flag te (s0 s delta : Q) (f : bool) :
  (0 <= s0)%Q -> (0 <= delta)%Q -> (s == s0 + delta)%Q ->
  let R0 := Num.max 0 (Num.min 1 (if te && negb f then Num.min s0 0.05 else s0)) in
  let R := Num.max 0 (Num.min 1 (if te && negb f then Num.min s 0.05 else s)) in
  (R0 <= R)%Q
  /\ (R == Num.min (if te && negb f then 0.05 else 1) (R0 + delta))%Q
  /\ (te && negb f = true -> (R0 <= 0.05)%Q).
Proof.
  intros H0 Hd Hs R0 R. subst R0 R.
  destruct (te && negb f).
  - repeat split; [| |intros _]; clamp_cases.
  - repeat split; [| |discriminate]; clamp_cases.
Qed.


Lemma near_of_eq x y : (x == y)%Q -> near x y.
Proof. intros H. unfold near, roundingSlack. lra. Qed.


Section ResultLevel.

Context {url_api : UrlApi}.

(** A result, from the locals before the final handling. *)
Lemma assess_fields data trustedDomains r :
  assess data trustedDomains = Normal r ->
  exists st,
    checks trustedDomains data (Some trustedDomains) = Normal st
    /\ (0 <= St.score st)%Q
    /\ let te := hostIsTrustedExact trustedDomains (pageHostnameOf data) in
       let dampened := te && negb (St.suspicious st) in
       score r
       = Num.max 0 (Num.min 1 (if dampened then Num.min (St.score st) 0.05
                               else St.score st))
       /\ suspicious r = St.suspicious st || Num.leb 0.55 (score r)
       /\ reasons r = keptReasons dampened (St.reasons st).
Proof.
  intros Hr. unfold assess in Hr.
  pose proof (analyze_object _ _ _ _ Hr) as (st & Hc & E).
  exists st. split; [exact Hc|]. split; [exact (checks_nonneg _ _ _ _ Hc)|].
  rewrite E. cbv zeta. cbn [score suspicious reasons].
  unfold trustDampening, keptReasons.
  destruct (hostIsTrustedExact trustedDomains (pageHostnameOf data)
            && negb (St.suspicious st)) eqn:Ed;
    unfold finalDecision; cbn [St.score St.suspicious St.reasons];
    repeat split; reflexivity.
Qed.

(** C7. Link aggregation in [assess]: for every payload with a non-empty
    list of links, against the same payload with an empty list. The first
    40 links are assessed and their risk values summed, the sum is divided
    by the number of links supplied, and the quotient is clamped to 0.15
    when the page is exactly trusted and to 0.40 otherwise: that is
    [linkContributionSpec] at the page's hostname. The value is below 0.30,
    so the flag is never forced by it. It is added to the score: the score
    of the result is the score without links plus this value, up to the
    final clamp (at 0.05 on an exactly trusted page that no check flagged,
    at 1 otherwise). The result is suspicious when it is without links, or
    when its score reaches 0.55. Its reasons are those without links with
    the reasons of the first 40 links inserted. *)
Theorem link_aggregation data links trustedDomains r r0 :
  links <> [] ->
  assess (withLinks data (IsArray links)) trustedDomains = Normal r ->
  assess (withLinks data (IsArray [])) trustedDomains = Normal r0 ->
  let h := pageHostnameOf data in
  let te := hostIsTrustedExact trustedDomains h in
  let c := linkContributionSpec te h links in
  let dampened := te && negb (suspicious r0) in
  (0 <= c < 0.30)%Q
  /\ near (score r) (Num.min (if dampened then 0.05 else 1) (score r0 + c))
  /\ suspicious r = suspicious r0 || Num.leb 0.55 (score r)
  /\ exists before after,
       reasons r0 = (before ++ after)%list
       /\ reasons r
          = (before
             ++ keptReasons dampened (flat_map (linkReasons h) (firstn 40 links))
             ++ after)%list.
Proof.
  intros Hne Hr Hr0 h te c dampened.
  destruct (assess_fields _ _ _ Hr) as (st & Hc & _ & Hs & Hf & Hre).
  destruct (assess_fields _ _ _ Hr0) as (st0 & Hc0 & Hn0 & Hs0 & Hf0 & Hre0).
  cbv zeta in Hs, Hf, Hre, Hs0, Hf0, Hre0.
  change (pageHostnameOf (withLinks data (IsArray links))) with h in Hs, Hf, Hre.
  change (pageHostnameOf (withLinks data (IsArray []))) with h in Hs0, Hf0, Hre0.
  fold te in Hs, Hf, Hre, Hs0, Hf0, Hre0.
  destruct (checks_with_links _ _ _ _ _ _ Hne Hc Hc0)
    as (Hsh & Hfl & before & after & Hb0 & Hb).
  fold h te c in Hsh. rewrite orb_false_r in Hfl. rewrite Hfl in Hs, Hf, Hre.
  pose proof (linkContributionSpec_range te h links Hne) as Hcr. fold c in Hcr.
  destruct (final_scores_same_flag te (St.score st0) (St.score st) c
              (St.suspicious st0) Hn0 (proj1 Hcr) Hsh) as (Hmono & Heq & Hdamp).
  cbv zeta in Hmono, Heq, Hdamp. rewrite <- Hs, <- Hs0 in Hmono, Heq.
  rewrite <- Hs0 in Hdamp.
  assert (Ed : dampened = te && negb (St.suspicious st0)).
  { unfold dampened. rewrite Hf0.
    destruct (te && negb (St.suspicious st0)) eqn:E.
    - apply andb_true_iff in E as [-> E]. apply negb_true_iff in E. rewrite E.
      specialize (Hdamp eq_refl).
      assert (El : Num.leb 0.55 (score r0) = false) by (apply leb_gt; lra).
      now rewrite El.
    - destruct te; [|reflexivity]. cbn [andb] in E |- *.
      apply negb_false_iff in E. now rewrite E. }
  split; [lra|]. split; [apply near_of_eq; now rewrite Ed|]. split.
  - rewrite Hf, Hf0. destruct (St.suspicious st0); [reflexivity|]. cbn [orb].
    destruct (Num.leb 0.55 (score r0)) eqn:E0; [|reflexivity]. cbn [orb].
    apply leb_le in E0. apply leb_le. lra.
  - rewrite Ed, Hre, Hre0, Hb, Hb0. unfold keptReasons.
    destruct (te && negb (St.suspicious st0)).
    + exists (filter (fun r => negb (isWeakReason r)) before),
        (filter (fun r => negb (isWeakReason r)) after).
      now rewrite !filter_app.
    + now exists before, after.
Qed.




End ResultLevel.

(** C7 at two links, a raw IP address and a login path, on the untrusted
    page https://example.org/: the value added is (0.20 + 0.10) / 2 = 0.15,
    and the score goes from 0.25 to 0.40. *)
Lemma link_aggregation_witness :
  exists r r0,
    assess (url_api := refUrlApi)
      (withLinks (dataOfUrl "https://example.org/")
         (IsArray ["http://10.0.0.1/"; "https://example.org/login"]))
      defaultTrusted = Normal r
    /\ assess (url_api := refUrlApi)
         (withLinks (dataOfUrl "https://example.org/") (IsArray []))
         defaultTrusted = Normal r0
    /\ (score r0 == 0.25)%Q
    /\ (linkContributionSpec (url_api := refUrlApi) false "example.org"
          ["http://10.0.0.1/"; "https://example.org/login"] == 0.15)%Q
    /\ near (score r)
         (Num.min 1
            (score r0
             + linkContributionSpec (url_api := refUrlApi) false "example.org"
                 ["http://10.0.0.1/"; "https://example.org/login"]))
    /\ suspicious r = false.
Proof.
  assert (Hr : { r | assess (url_api := refUrlApi)
                       (withLinks (dataOfUrl "https://example.org/")
                          (IsArray ["http://10.0.0.1/"; "https://example.org/login"]))
                       defaultTrusted = Normal r
                     /\ suspicious r = false })
    by (eexists; split; vm_compute; reflexivity).
  assert (Hr0 : { r0 | assess (url_api := refUrlApi)
                         (withLinks (dataOfUrl "https://example.org/") (IsArray []))
                         defaultTrusted = Normal r0
                       /\ (score r0 == 0.25)%Q /\ suspicious r0 = false })
    by (eexists; split; [|split]; vm_compute; reflexivity).
  destruct Hr as (r & Hr & Hs). destruct Hr0 as (r0 & Hr0 & Hs0 & Hf0).
  exists r, r0. split; [exact Hr|]. split; [exact Hr0|]. split; [exact Hs0|].
  split; [vm_compute; reflexivity|]. split; [|exact Hs].
  assert (Hne : ["http://10.0.0.1/"; "https://example.org/login"] <> [])
    by discriminate.
  pose proof (link_aggregation (url_api := refUrlApi) _ _ _ _ _ Hne Hr Hr0)
    as (_ & H & _).
  assert (Eh : pageHostnameOf (url_api := refUrlApi)
                 (dataOfUrl "https://example.org/") = "example.org")
    by (vm_compute; reflexivity).
  assert (Ete : hostIsTrustedExact defaultTrusted "example.org" = false)
    by (vm_compute; reflexivity).
  rewrite Eh, Ete in H. cbn [andb] in H. exact H.
Defined.


(** ** The fallback to [formList] *)

Section FormListFallback.

Context {url_api : UrlApi}.

(** C4. The claim fails at the payload [{ formList: 7 }]: the core throws
    when it iterates over [forms], for every trusted set and parser. The
    array test guards [data.forms] and not the fallback beside it: the
    payload [{ forms: 7 }] is read as no forms, and on the links' side the
    payload [{ linkList: 7 }] is read as no links. *)
Theorem formList_fallback_is_unguarded G T :
  analyzeProfileCore G (ArgObject dataFormListNumber) T = Throw TypeError
  /\ (exists r,
         analyzeProfileCore G (ArgObject dataFormsNumber) T = Normal r
         /\ Details.formsCount (details r) = Some 0%nat)
  /\ (exists r,
         analyzeProfileCore G (ArgObject dataLinkListNumber) T = Normal r
         /\ Details.linksCount (details r) = None).
Proof.
  split; [reflexivity|]. split.
  - destruct (analyzeProfileCore_returns G T (ArgObject dataFormsNumber)
                dataFormsNumber [] eq_refl eq_refl) as (r & Hr & _ & Hf).
    now exists r.
  - destruct (analyzeProfileCore_returns G T (ArgObject dataLinkListNumber)
                dataLinkListNumber [] eq_refl eq_refl) as (r & Hr & _ & _).
    exists r. split; [exact Hr|].
    unfold analyzeProfileCore, bind, readData in Hr.
    destruct (checks G dataLinkListNumber T); [|discriminate].
    injection Hr as <-. reflexivity.
Qed.

(** Called with null the core throws as well, when it reads the first
    property of [data]: the default [{}] of the parameter stands in for
    undefined only. The listener passes [message.data || {}]. *)
Example core_throws_on_null G T :
  analyzeProfileCore G ArgNull T = Throw TypeError.
Proof. reflexivity. Qed.

End FormListFallback.
